(** * pylarexx: the TL-X00 logger protocol and poll loop

    A shallow embedding of [datalogger/Logger.py] (class [TLX00]): the frame
    parser [parseData], the sensor registry it feeds, the device bookkeeping
    and the acquisition loop [loop] with the listener fan-out.

    Python objects are modelled as follows.
    - [self] is the record [TLX00]; every method is a computation in the
      monad [M], that threads [self] and either returns, raises, or runs
      out of the fuel that bounds the unbounded [while] loops.
    - USB device objects are references (numbers) into [heap]; the list
      [devices] holds references, as the Python list does.
    - The outside world (clock, USB transfers, listener callbacks, other
      threads during [time.sleep]) is an oracle [World], asked once per
      interaction and indexed by the running [tick].
    - [trace] records what the run did, in order: the positions the parser
      scans, the indices it reads, the USB transfers, the deliveries to
      listeners and the log messages from level info up ([logging.debug]
      calls are left out). *)

From stdpp Require Import gmap strings list fin_maps.
From Stdlib Require Import ZArith Lia.

Local Open Scope Z_scope.

(** ** Data *)

Inductive SensorKind := Temperature | Humidity.

(** Modelled from the spec: [datalogger/Sensor.py] (the classes
    [ArexxTemperatureSensor] and [ArexxHumiditySensor]) is not part of the
    sources at hand.  A sensor carries its id, its kind, the manufacturer
    model and a display name; calibration plays no role below. *)
Record Sensor := mkSensor {
  s_kind : SensorKind;
  s_id : Z;
  s_type : string;
  s_name : string
}.

Definition ArexxTemperatureSensor (sensorid : Z) (sensortype name : string) : Sensor :=
  mkSensor Temperature sensorid sensortype name.

Definition ArexxHumiditySensor (sensorid : Z) (sensortype name : string) : Sensor :=
  mkSensor Humidity sensorid sensortype name.

(** The dict appended to [datapoints] in [parseData]. *)
Record DataPoint := mkDataPoint {
  dp_sensorid : Z;
  dp_rawvalue : Z;
  dp_timestamp : Z;
  dp_signal : option Z;
  dp_sensor : Sensor
}.

(** The attributes [findDevices] and [initializeDevices] attach to a
    [usb.core.Device]. *)
Record Device := mkDevice {
  lastTimeDataRead : Z;
  deviceErrors : Z;
  lastTimeSync : Z;
  lastTimeDelete : Z;
  outAddress : option Z;
  inAddress : option Z
}.

Definition fresh_device : Device := mkDevice 0 0 0 0 None None.

Inductive Exc :=
| USBError
| IndexError
| KeyError (k : Z)
| AttributeError
| OverflowError
| ValueError
| ListenerFault.

Inductive LogMsg :=
| LogUnableToRead (e : Exc)
| LogTooManyErrors (dev : nat)
| LogErrorSettingTime (e : Exc)
| LogErrorDeletingFlash (e : Exc)
| LogErrorInitializing (dev : nat) (e : Exc)
| LogErrorResetting (dev : nat)
| LogFound (devs : list nat)
| LogNoDeviceFound
| LogAddresses (dev : nat) (i o : Z)
| LogGuessed (k : SensorKind).

Inductive Event :=
| EvScan (pos : Z)
| EvIndex (i : Z)
| EvRecord (pos : Z) (dp : DataPoint)
| EvWrite (dev : nat) (buf : list Z)
| EvRead (dev : nat)
| EvReset (dev : nat)
| EvConfigure (dev : nat)
| EvFind
| EvSleep
| EvDeliver (l : nat) (dp : DataPoint) (ok : bool)
| EvLog (m : LogMsg).

Inductive ListenerOp := Register (l : nat) | Unregister (l : nat).

(** The environment.  Each field is asked with the current tick. *)
Record World := mkWorld {
  w_time : nat -> Z;                        (* floor(time.time()) *)
  w_write : nat -> nat -> bool;             (* dev.write succeeds *)
  w_read : nat -> nat -> option (list Z);   (* dev.read: the bytes, or a fault *)
  w_configure : nat -> nat -> option (option Z * option Z);
                                            (* set_configuration .. find_descriptor:
                                               a fault, or the OUT and IN endpoint
                                               addresses, each if it was found *)
  w_reset : nat -> nat -> bool;             (* dev.reset succeeds *)
  w_find : nat -> Exc + list nat;           (* usb.core.find: it raises, or the devices *)
  w_onNewData : nat -> nat -> DataPoint -> bool; (* the callback returns (true) or raises *)
  w_sleep : nat -> list ListenerOp          (* what other threads do meanwhile *)
}.

Record TLX00 := mkTLX00 {
  devices : list nat;
  listeners : list nat;
  sensors : gmap Z Sensor;
  requestBuffer : list Z;
  detectUnknownSensors : bool;
  lastDeviceCheck : Z;
  heap : gmap nat Device;
  tick : nat;
  trace : list Event
}.

Definition TIME_OFFSET : Z := 946681200.

Definition set_devices (v : list nat) (s : TLX00) : TLX00 :=
  mkTLX00 v (listeners s) (sensors s) (requestBuffer s) (detectUnknownSensors s)
          (lastDeviceCheck s) (heap s) (tick s) (trace s).
Definition set_listeners (v : list nat) (s : TLX00) : TLX00 :=
  mkTLX00 (devices s) v (sensors s) (requestBuffer s) (detectUnknownSensors s)
          (lastDeviceCheck s) (heap s) (tick s) (trace s).
Definition set_sensors (v : gmap Z Sensor) (s : TLX00) : TLX00 :=
  mkTLX00 (devices s) (listeners s) v (requestBuffer s) (detectUnknownSensors s)
          (lastDeviceCheck s) (heap s) (tick s) (trace s).
Definition set_requestBuffer (v : list Z) (s : TLX00) : TLX00 :=
  mkTLX00 (devices s) (listeners s) (sensors s) v (detectUnknownSensors s)
          (lastDeviceCheck s) (heap s) (tick s) (trace s).
Definition set_detectUnknownSensors (v : bool) (s : TLX00) : TLX00 :=
  mkTLX00 (devices s) (listeners s) (sensors s) (requestBuffer s) v
          (lastDeviceCheck s) (heap s) (tick s) (trace s).
Definition set_lastDeviceCheck (v : Z) (s : TLX00) : TLX00 :=
  mkTLX00 (devices s) (listeners s) (sensors s) (requestBuffer s) (detectUnknownSensors s)
          v (heap s) (tick s) (trace s).
Definition set_heap (v : gmap nat Device) (s : TLX00) : TLX00 :=
  mkTLX00 (devices s) (listeners s) (sensors s) (requestBuffer s) (detectUnknownSensors s)
          (lastDeviceCheck s) v (tick s) (trace s).
Definition set_tick (v : nat) (s : TLX00) : TLX00 :=
  mkTLX00 (devices s) (listeners s) (sensors s) (requestBuffer s) (detectUnknownSensors s)
          (lastDeviceCheck s) (heap s) v (trace s).
Definition set_trace (v : list Event) (s : TLX00) : TLX00 :=
  mkTLX00 (devices s) (listeners s) (sensors s) (requestBuffer s) (detectUnknownSensors s)
          (lastDeviceCheck s) (heap s) (tick s) v.

(** ** The monad of methods *)

Inductive Res (A : Type) :=
| Ok (a : A) (s : TLX00)
| Raise (e : Exc) (s : TLX00)
| OutOfFuel.
Arguments Ok {A} a s.
Arguments Raise {A} e s.
Arguments OutOfFuel {A}.

Definition M (A : Type) : Type := TLX00 -> Res A.

Definition ret {A} (a : A) : M A := fun s => Ok a s.

Definition bind {A B} (m : M A) (k : A -> M B) : M B :=
  fun s => match m s with
           | Ok a s' => k a s'
           | Raise e s' => Raise e s'
           | OutOfFuel => OutOfFuel
           end.

Notation "'let!' x ':=' m 'in' k" := (bind m (fun x => k))
  (at level 10, x name, m at level 100, k at level 200).
Notation "m '>>' k" := (bind m (fun _ => k))
  (at level 90, right associativity).

Definition raise {A} (e : Exc) : M A := fun s => Raise e s.
Definition timeout {A} : M A := fun _ => OutOfFuel.
Definition get : M TLX00 := fun s => Ok s s.
Definition modify (f : TLX00 -> TLX00) : M unit := fun s => Ok tt (f s).

(** [try: body except Exception as e: handler e] *)
Definition try_except {A} (body : M A) (handler : Exc -> M A) : M A :=
  fun s => match body s with
           | Ok a s' => Ok a s'
           | Raise e s' => handler e s'
           | OutOfFuel => OutOfFuel
           end.

Definition add_event (e : Event) (s : TLX00) : TLX00 :=
  set_trace (trace s ++ [e]) s.

Definition emit (e : Event) : M unit := modify (add_event e).

Definition log (m : LogMsg) : M unit := emit (EvLog m).

(** One question to the environment: the answer at the current tick. *)
Definition ask {A} (q : nat -> A) : M A :=
  fun s => Ok (q (tick s)) (set_tick (S (tick s)) s).

(** ** Python primitives *)

(** [data[i]] on a list or array: negative indices count from the end,
    anything out of range raises [IndexError]. *)
Definition getitem (data : list Z) (i : Z) : M Z :=
  emit (EvIndex i) >>
  let j := if i <? 0 then i + Z.of_nat (length data) else i in
  if j <? 0 then raise IndexError
  else match data !! Z.to_nat j with
       | Some b => ret b
       | None => raise IndexError
       end.

(** [int.from_bytes(bs, byteorder='little', signed=False)] for [bs] a list
    of bytes.  On an element outside 0..255 the source raises
    [ValueError]; the value given here for such a list is not the
    source's, and a statement that leaves the bytes open says so by a
    hypothesis ([is_frame], [is_bytes]). *)
Fixpoint from_bytes_little (bs : list Z) : Z :=
  match bs with
  | [] => 0
  | b :: bs' => b + 256 * from_bytes_little bs'
  end.

(** [int.from_bytes(bs, byteorder='big', signed=False)] *)
Definition from_bytes_big (bs : list Z) : Z := from_bytes_little (rev bs).

(** [x is not None] for [x] a list object: a list, empty or not, is not
    [None]. *)
Definition is_not_None (x : list nat) : bool := true.

(** [list.remove(x)]: drops the first occurrence; [None] stands for the
    [ValueError] raised when there is none. *)
Fixpoint list_remove (x : nat) (l : list nat) : option (list nat) :=
  match l with
  | [] => None
  | y :: l' => if Nat.eqb x y then Some l'
               else match list_remove x l' with
                    | Some r => Some (y :: r)
                    | None => None
                    end
  end.

(** [t.to_bytes(4, byteorder='little')] *)
Definition to_bytes4_little (t : Z) : M (list Z) :=
  if (t <? 0) || (2 ^ 32 <=? t) then raise OverflowError
  else ret [t mod 256; (t / 256) mod 256; (t / 65536) mod 256; (t / 16777216) mod 256].

(** ** The sensor registry *)

(** [addSensor(sensorid, name='Unknown', sensortype='Unknown')] *)
Definition addSensor (sensorid : Z) (name sensortype : string) : M unit :=
  (if sensorid mod 2 =? 0 then
     log (LogGuessed Temperature) >>
     modify (fun s => set_sensors
       (<[sensorid := ArexxTemperatureSensor sensorid sensortype name]> (sensors s)) s)
   else ret tt) >>
  (if sensorid mod 2 =? 1 then
     log (LogGuessed Humidity) >>
     modify (fun s => set_sensors
       (<[sensorid := ArexxHumiditySensor sensorid sensortype name]> (sensors s)) s)
   else ret tt).

(** [self.sensors[sensorid]] *)
Definition sensor_lookup (sensorid : Z) : M Sensor :=
  let! s := get in
  match sensors s !! sensorid with
  | Some x => ret x
  | None => raise (KeyError sensorid)
  end.

(** Lines 233-236 of [parseData]: the guess for an unknown id when
    detection is on, then the lookup [self.sensors[sensorid]] made while the
    datapoint is built. *)
Definition resolve (sensorid : Z) : M Sensor :=
  let! s := get in
  (if detectUnknownSensors s && negb (bool_decide (is_Some (sensors s !! sensorid)))
   then addSensor sensorid "Unknown" "Unknown"
   else ret tt) >>
  sensor_lookup sensorid.

(** ** parseData *)

(** The [while pos<63] loop of [parseData].  [data[pos]] is evaluated once
    per iteration here; the source re-evaluates it in each comparison, on
    data that does not change.  Each iteration moves [pos] forward, so 65
    units of fuel (64 iterations and the last test) are enough. *)
Fixpoint parse_while (fuel : nat) (data : list Z) (pos : Z)
    (datapoints : list DataPoint) : M (list DataPoint) :=
  match fuel with
  | O => timeout
  | S fuel' =>
    if pos <? 63 then
      let pos := pos + 1 in
      emit (EvScan pos) >>
      let! b := getitem data pos in
      if b =? 0 then parse_while fuel' data pos datapoints
      else if b =? 255 then ret datapoints
      else if ((b =? 9) || (b =? 10)) && (pos <? 55) then
        let! d1 := getitem data (pos + 1) in
        let! d2 := getitem data (pos + 2) in
        let sensorid := from_bytes_little [d1; d2] in
        let! d3 := getitem data (pos + 3) in
        let! d4 := getitem data (pos + 4) in
        let rawvalue := from_bytes_big [d3; d4] in
        let! d5 := getitem data (pos + 5) in
        let! d6 := getitem data (pos + 6) in
        let! d7 := getitem data (pos + 7) in
        let! d8 := getitem data (pos + 8) in
        let timestamp := from_bytes_little [d5; d6; d7; d8] in
        let! signal :=
          (if b =? 10 then
             let! d9 := getitem data (pos + 9) in
             ret (Some (from_bytes_little [d9]))
           else ret None) in
        let! sensor := resolve sensorid in
        let dp := mkDataPoint sensorid rawvalue (timestamp + TIME_OFFSET) signal sensor in
        emit (EvRecord pos dp) >>
        parse_while fuel' data (pos + 8) (datapoints ++ [dp])
      else parse_while fuel' data pos datapoints
    else ret datapoints
  end.

Definition parseData (data : list Z) : M (list DataPoint) :=
  parse_while 65 data (-1) [].

(** [TLX00.__init__] without a configuration file. *)
Definition TLX00_init : TLX00 :=
  mkTLX00 [] [] ∅ (replicate 64 0) true 0 ∅ 0%nat [].

(** ** Listeners *)

(** [registerDataListener]: every reference in the model is a
    [DataListener], so the [isinstance] test passes. *)
Definition registerDataListener (l : nat) : M unit :=
  modify (fun s => set_listeners (listeners s ++ [l]) s).

(** [unregisterDataListener]: the [ValueError] of [remove] is swallowed by
    the bare [except]. *)
Definition unregisterDataListener (l : nat) : M unit :=
  modify (fun s => match list_remove l (listeners s) with
                   | Some r => set_listeners r s
                   | None => s
                   end).

Definition apply_op (o : ListenerOp) : M unit :=
  match o with
  | Register l => registerDataListener l
  | Unregister l => unregisterDataListener l
  end.

Fixpoint apply_ops (os : list ListenerOp) : M unit :=
  match os with
  | [] => ret tt
  | o :: os' => apply_op o >> apply_ops os'
  end.

(** ** Devices *)

(** [dev.attr], for an attribute that may not have been set. *)
Definition dev_attr {A} (dev : nat) (f : Device -> option A) : M A :=
  let! s := get in
  match heap s !! dev ≫= f with
  | Some a => ret a
  | None => raise AttributeError
  end.

(** [dev.attr = v].  A reference in [devices] always has its object in
    the heap: [findDevices] puts it there. *)
Definition dev_set (dev : nat) (f : Device -> Device) : M unit :=
  modify (fun s => set_heap (alter f dev (heap s)) s).

Definition with_lastTimeDataRead (v : Z) (d : Device) : Device :=
  mkDevice v (deviceErrors d) (lastTimeSync d) (lastTimeDelete d) (outAddress d) (inAddress d).
Definition with_deviceErrors (v : Z) (d : Device) : Device :=
  mkDevice (lastTimeDataRead d) v (lastTimeSync d) (lastTimeDelete d) (outAddress d) (inAddress d).
Definition with_lastTimeSync (v : Z) (d : Device) : Device :=
  mkDevice (lastTimeDataRead d) (deviceErrors d) v (lastTimeDelete d) (outAddress d) (inAddress d).
Definition with_lastTimeDelete (v : Z) (d : Device) : Device :=
  mkDevice (lastTimeDataRead d) (deviceErrors d) (lastTimeSync d) v (outAddress d) (inAddress d).
Definition with_outAddress (o : Z) (d : Device) : Device :=
  mkDevice (lastTimeDataRead d) (deviceErrors d) (lastTimeSync d) (lastTimeDelete d)
           (Some o) (inAddress d).
Definition with_inAddress (i : Z) (d : Device) : Device :=
  mkDevice (lastTimeDataRead d) (deviceErrors d) (lastTimeSync d) (lastTimeDelete d)
           (outAddress d) (Some i).

(** [self.requestBuffer[i] = v] *)
Definition setbuf (i : nat) (v : Z) : M unit :=
  let! s := get in
  if decide (i < length (requestBuffer s))%nat
  then modify (set_requestBuffer (<[i := v]> (requestBuffer s)))
  else raise IndexError.

Definition clearRequestBuffer : M unit :=
  setbuf 0 0 >> setbuf 1 0 >> setbuf 2 0 >> setbuf 3 0 >> setbuf 4 0.

Section WithWorld.

Variable w : World.

Definition time : M Z := ask (w_time w).

(** [time.sleep]: the only points where the model lets other threads
    register or unregister listeners. *)
Definition sleep : M unit :=
  emit EvSleep >>
  let! ops := ask (w_sleep w) in
  apply_ops ops.

(** [dev.write(dev.outAddress, self.requestBuffer, 1000)] *)
Definition usb_write (dev : nat) : M unit :=
  let! _addr := dev_attr dev outAddress in
  let! s := get in
  emit (EvWrite dev (requestBuffer s)) >>
  let! ok := ask (fun t => w_write w t dev) in
  if ok : bool then ret tt else raise USBError.

(** [dev.read(dev.inAddress, 64, 1000)] *)
Definition usb_read (dev : nat) : M (list Z) :=
  let! _addr := dev_attr dev inAddress in
  emit (EvRead dev) >>
  let! r := ask (fun t => w_read w t dev) in
  match r with
  | Some d => ret d
  | None => raise USBError
  end.

Definition setTime (device : nat) : M unit :=
  clearRequestBuffer >>
  setbuf 0 4 >>
  let! now := time in
  let t := now - TIME_OFFSET in
  let! tb := to_bytes4_little t in
  setbuf 1 (nth 0 tb 0) >> setbuf 2 (nth 1 tb 0) >>
  setbuf 3 (nth 2 tb 0) >> setbuf 4 (nth 3 tb 0) >>
  try_except
    (usb_write device >>
     let! _r := usb_read device in
     let! now := time in
     dev_set device (with_lastTimeSync now))
    (fun e => log (LogErrorSettingTime e)).

Definition deleteDeviceData (device : nat) : M unit :=
  clearRequestBuffer >>
  setbuf 0 13 >>
  try_except
    (usb_write device >>
     let! _r := usb_read device in
     let! now := time in
     dev_set device (with_lastTimeDelete now))
    (fun e => log (LogErrorDeletingFlash e)).

(** ** The fan-out *)

(** [for l in self.listeners: l.onNewData(datapoint)].  A callback either
    returns or raises; it does not touch the listener list, so iterating
    over the list as it is at the start is the same as Python's iteration
    by index. *)
Fixpoint deliver (dp : DataPoint) (ls : list nat) : M unit :=
  match ls with
  | [] => ret tt
  | l :: ls' =>
    let! ok := ask (fun t => w_onNewData w t l dp) in
    emit (EvDeliver l dp ok) >>
    (if ok : bool then ret tt else raise ListenerFault) >>
    deliver dp ls'
  end.

(** [for datapoint in datapoints: for l in self.listeners: ...] *)
Fixpoint notify (datapoints : list DataPoint) : M unit :=
  match datapoints with
  | [] => ret tt
  | dp :: dps' =>
    (let! s := get in deliver dp (listeners s)) >>
    notify dps'
  end.

(** ** The poll loop *)

Inductive Flow := Next | Break.

(** The [try] block of the inner [while True]. *)
Definition poll_try (dev : nat) : M Flow :=
  usb_write dev >>
  sleep >>
  let! rawdata := usb_read dev in
  let! b0 := getitem rawdata 0 in
  let! nodata :=
    (if b0 =? 0 then let! b1 := getitem rawdata 1 in ret (b1 =? 0)
     else ret false) in
  if nodata : bool then ret Break
  else
    let! now := time in
    dev_set dev (with_lastTimeDataRead now) >>
    let! datapoints := parseData rawdata in
    notify datapoints >>
    dev_set dev (with_deviceErrors 0) >>
    ret Next.

(** The [except Exception as e] block of the inner [while True]. *)
Definition poll_except (dev : nat) (e : Exc) : M Flow :=
  log (LogUnableToRead e) >>
  let! n := dev_attr dev (fun d => Some (deviceErrors d)) in
  dev_set dev (with_deviceErrors (n + 1)) >>
  let! n' := dev_attr dev (fun d => Some (deviceErrors d)) in
  (if n' >? 10 then
     log (LogTooManyErrors dev) >>
     let! s := get in
     match list_remove dev (devices s) with
     | Some r => modify (set_devices r)
     | None => raise ValueError
     end
   else ret tt) >>
  ret Break.

(** One turn of the inner [while True]. *)
Definition poll (dev : nat) : M Flow :=
  clearRequestBuffer >>
  setbuf 0 3 >>
  try_except (poll_try dev) (poll_except dev).

Fixpoint read_loop (fuel : nat) (dev : nat) : M unit :=
  match fuel with
  | O => timeout
  | S fuel' =>
    let! fl := poll dev in
    match fl with
    | Break => ret tt
    | Next => read_loop fuel' dev
    end
  end.

(** The body of [for dev in self.devices]. *)
Definition serve_device (fuel : nat) (dev : nat) : M unit :=
  let! now := time in
  let! lts := dev_attr dev (fun d => Some (lastTimeSync d)) in
  (if now - lts >? 900 then setTime dev else ret tt) >>
  let! now := time in
  let! ltd := dev_attr dev (fun d => Some (lastTimeDelete d)) in
  (if now - ltd >? 86400 then deleteDeviceData dev else ret tt) >>
  read_loop fuel dev.

(** [for dev in self.devices], as Python runs it: the iterator keeps an
    index into the live list and stops when the index reaches its current
    length. *)
Fixpoint for_devices (fuel : nat) (i : nat) : M unit :=
  match fuel with
  | O => timeout
  | S fuel' =>
    let! s := get in
    match devices s !! i with
    | None => ret tt
    | Some dev => serve_device fuel' dev >> for_devices fuel' (S i)
    end
  end.

(** ** Discovery *)

(** [usb.core.find(find_all=True, ...)] and [list(founddevices)]: the search
    raises, or gives the devices attached. *)
Definition usb_find : M (list nat) :=
  emit EvFind >>
  let! r := ask (w_find w) in
  match r with
  | inl e => raise e
  | inr founddevices => ret founddevices
  end.

(** [findDevices].  The search is outside any [try].  The test
    [self.devices is not None] is made on the list just assigned (see
    [is_not_None]); the branch under it that logs "No device found" and
    returns [False] is kept as the source has it. *)
Definition findDevices : M bool :=
  let! now := time in
  modify (set_lastDeviceCheck now) >>
  let! founddevices := usb_find in
  modify (set_devices founddevices) >>
  let! s := get in
  if is_not_None (devices s) then
    modify (fun s => set_heap
      (foldr (fun d h => <[d := fresh_device]> h) (heap s) (devices s)) s) >>
    log (LogFound (devices s)) >>
    ret true
  else
    log LogNoDeviceFound >>
    ret false.

Definition checkForNewDevices : M bool :=
  let! now := time in
  modify (set_lastDeviceCheck now) >>
  let! founddevices := usb_find in
  let! s := get in
  ret (negb (Nat.eqb (length founddevices) (length (devices s)))).

(** [x.bEndpointAddress] for the result of [find_descriptor], which is
    [None] when no endpoint matches. *)
Definition bEndpointAddress (ep : option Z) : M Z :=
  match ep with
  | Some a => ret a
  | None => raise AttributeError
  end.

(** The body of [for d in self.devices] in [initializeDevices].  The
    calls from [set_configuration] to the two [find_descriptor] are one
    question to the environment; the two addresses are then assigned one
    after the other, as in the source. *)
Definition initialize_device (d : nat) : M unit :=
  try_except
    (emit (EvConfigure d) >>
     let! r := ask (fun t => w_configure w t d) in
     match r with
     | None => raise USBError
     | Some (epo, epi) =>
       let! o := bEndpointAddress epo in
       dev_set d (with_outAddress o) >>
       let! i := bEndpointAddress epi in
       dev_set d (with_inAddress i) >>
       log (LogAddresses d i o) >>
       setTime d
     end)
    (fun e =>
       log (LogErrorInitializing d e) >>
       emit (EvReset d) >>
       let! ok := ask (fun t => w_reset w t d) in
       (if ok : bool then ret tt else log (LogErrorResetting d)) >>
       let! s := get in
       match list_remove d (devices s) with
       | Some r => modify (set_devices r)
       | None => raise ValueError
       end).

Fixpoint initialize_from (fuel : nat) (i : nat) : M unit :=
  match fuel with
  | O => timeout
  | S fuel' =>
    let! s := get in
    match devices s !! i with
    | None => ret tt
    | Some d => initialize_device d >> initialize_from fuel' (S i)
    end
  end.

Definition initializeDevices (fuel : nat) : M unit := initialize_from fuel 0.

(** ** loop *)

(** The outer [while len(self.listeners) > 0]. *)
Fixpoint loop_while (fuel : nat) : M unit :=
  match fuel with
  | O => timeout
  | S fuel' =>
    let! s := get in
    if (0 <? length (listeners s))%nat then
      for_devices fuel' 0 >>
      sleep >>
      let! now := time in
      let! s := get in
      (if now >? lastDeviceCheck s + 60 then
         let! changed := checkForNewDevices in
         if changed : bool then
           let! _b := findDevices in initializeDevices fuel'
         else ret tt
       else ret tt) >>
      loop_while fuel'
    else ret tt
  end.

Definition loop (fuel : nat) : M unit :=
  clearRequestBuffer >> loop_while fuel.

End WithWorld.

(** ** Reading a trace *)

Definition scans (tr : list Event) : list Z :=
  omap (fun e => match e with EvScan p => Some p | _ => None end) tr.

Definition indices (tr : list Event) : list Z :=
  omap (fun e => match e with EvIndex i => Some i | _ => None end) tr.

Definition records (tr : list Event) : list (Z * DataPoint) :=
  omap (fun e => match e with EvRecord p dp => Some (p, dp) | _ => None end) tr.

Definition deliveries (tr : list Event) : list (nat * DataPoint * bool) :=
  omap (fun e => match e with EvDeliver l dp ok => Some (l, dp, ok) | _ => None end) tr.

Definition logged (tr : list Event) : list LogMsg :=
  omap (fun e => match e with EvLog m => Some m | _ => None end) tr.

Definition is_transport (e : Event) : bool :=
  match e with
  | EvWrite _ _ | EvRead _ | EvReset _ | EvConfigure _ | EvFind => true
  | _ => false
  end.

Definition transport_ops (tr : list Event) : list Event := filter is_transport tr.

(** A response frame: 64 bytes. *)
Definition is_frame (data : list Z) : bool :=
  Nat.eqb (length data) 64 && forallb (fun b => (0 <=? b) && (b <? 256)) data.

(** A response of any length: bytes. *)
Definition is_bytes (data : list Z) : bool :=
  forallb (fun b => (0 <=? b) && (b <? 256)) data.

Definition frame (l : list Z) : list Z := l ++ replicate (64 - length l)%nat 0.

(** * Vocabulary of the proofs

    Nothing below is part of the program: these are the words the
    statements are written in. *)

(** The byte of [data] at a position in range. *)
Definition byte_at (data : list Z) (p : Z) : Z := default 0 (data !! Z.to_nat p).

(** A stretch of trace without parser, delivery or transport events. *)
Definition quiet (tr : list Event) : Prop :=
  scans tr = [] /\ indices tr = [] /\ records tr = [] /\ deliveries tr = [] /\
  transport_ops tr = [].

(** The sensor [addSensor] makes up for an id: by the parity of the id. *)
Definition guess (sensorid : Z) : Sensor :=
  if sensorid mod 2 =? 0 then ArexxTemperatureSensor sensorid "Unknown" "Unknown"
  else ArexxHumiditySensor sensorid "Unknown" "Unknown".

(** The two record start marks. *)
Definition is_marker (b : Z) : bool := (b =? 9) || (b =? 10).

(** Position [p] opens a record: a marker byte, early enough for the
    record to fit. *)
Definition starts_record (data : list Z) (p : Z) : bool :=
  is_marker (byte_at data p) && (p <? 55).

(** The sequences of scan positions the loop can go through after [pos].
    A chain that is not [strict] may stop anywhere: that is the scan cut
    short by an exception. *)
Inductive scan_chain (strict : bool) (data : list Z) : Z -> list Z -> Prop :=
| chain_done pos :
    63 <= pos -> scan_chain strict data pos []
| chain_cut pos :
    strict = false -> scan_chain strict data pos []
| chain_zero pos l :
    pos < 63 -> byte_at data (pos + 1) = 0 ->
    scan_chain strict data (pos + 1) l ->
    scan_chain strict data pos (pos + 1 :: l)
| chain_stop pos :
    pos < 63 -> byte_at data (pos + 1) = 255 ->
    scan_chain strict data pos [pos + 1]
| chain_record pos l :
    pos < 63 -> byte_at data (pos + 1) <> 0 -> byte_at data (pos + 1) <> 255 ->
    starts_record data (pos + 1) = true ->
    scan_chain strict data (pos + 9) l ->
    scan_chain strict data pos (pos + 1 :: l)
| chain_noise pos l :
    pos < 63 -> byte_at data (pos + 1) <> 0 -> byte_at data (pos + 1) <> 255 ->
    starts_record data (pos + 1) = false ->
    scan_chain strict data (pos + 1) l ->
    scan_chain strict data pos (pos + 1 :: l).

(** An index into a 64-byte frame. *)
Definition in_frame (i : Z) : Prop := 0 <= i <= 63.

(** The datapoint built from the record that starts at [p]. *)
Definition record_ok (data : list Z) (r : Z * DataPoint) : Prop :=
  let p := r.1 in
  let dp := r.2 in
  dp_sensorid dp = from_bytes_little [byte_at data (p + 1); byte_at data (p + 2)] /\
  dp_rawvalue dp = from_bytes_big [byte_at data (p + 3); byte_at data (p + 4)] /\
  dp_timestamp dp =
    from_bytes_little [byte_at data (p + 5); byte_at data (p + 6);
                       byte_at data (p + 7); byte_at data (p + 8)] + TIME_OFFSET /\
  dp_signal dp = (if byte_at data p =? 10
                  then Some (from_bytes_little [byte_at data (p + 9)]) else None).

(** What [parseData] leaves alone. *)
Definition same_but_registry (s s' : TLX00) : Prop :=
  devices s' = devices s /\ listeners s' = listeners s /\
  requestBuffer s' = requestBuffer s /\
  detectUnknownSensors s' = detectUnknownSensors s /\
  lastDeviceCheck s' = lastDeviceCheck s /\ heap s' = heap s /\ tick s' = tick s.

(** The outcome of the scan from [pos] on a 64-byte frame: it returns the
    records of the marks it met, or it stops at a [KeyError] with
    detection off; it never runs out of fuel. *)
Definition parse_post (data : list Z) (pos : Z) (acc : list DataPoint)
    (s : TLX00) (r : Res (list DataPoint)) : Prop :=
  match r with
  | Ok dps s' =>
    exists tr, trace s' = trace s ++ tr /\ same_but_registry s s' /\
      dps = acc ++ map snd (records tr) /\
      scan_chain true data pos (scans tr) /\
      Forall in_frame (indices tr) /\
      map fst (records tr) = filter (fun p => starts_record data p = true) (scans tr) /\
      Forall (record_ok data) (records tr) /\
      sensors s ⊆ sensors s' /\
      (detectUnknownSensors s = false -> sensors s' = sensors s) /\
      Forall (fun r => sensors s' !! dp_sensorid r.2 = Some (dp_sensor r.2)) (records tr) /\
      deliveries tr = [] /\ transport_ops tr = []
  | Raise e s' =>
    exists tr k, e = KeyError k /\ detectUnknownSensors s = false /\
      sensors s !! k = None /\ sensors s' = sensors s /\
      trace s' = trace s ++ tr /\ same_but_registry s s' /\
      scan_chain false data pos (scans tr) /\
      Forall in_frame (indices tr) /\
      deliveries tr = [] /\ transport_ops tr = []
  | OutOfFuel => False
  end.

(** The state a run ends in, when it ends. *)
Definition state_of {A} (r : Res A) : option TLX00 :=
  match r with
  | Ok _ s' | Raise _ s' => Some s'
  | OutOfFuel => None
  end.

(** The two frames of the protocol examples, padded with zeros. *)
Definition frame1 : list Z := frame [9; 5; 0; 0; 42; 16; 0; 0; 0; 255].
Definition frame2 : list Z := frame [10; 5; 0; 0; 42; 16; 0; 0; 0; 99; 255].

(** The listener list after the operations of other threads. *)
Definition run_op (o : ListenerOp) (ls : list nat) : list nat :=
  match o with
  | Register l => ls ++ [l]
  | Unregister l => default ls (list_remove l ls)
  end.

(** ... one after the other. *)
Definition run_ops (os : list ListenerOp) (ls : list nat) : list nat :=
  foldl (fun ls o => run_op o ls) ls os.

(** [self] after [time.sleep]. *)
Definition sleep_state (w : World) (s : TLX00) : TLX00 :=
  set_listeners (run_ops (w_sleep w (tick s)) (listeners s))
    (set_tick (S (tick s)) (add_event EvSleep s)).

(** The request buffer after [clearRequestBuffer]. *)
Definition cleared (buf : list Z) : list Z :=
  <[4%nat := 0]> (<[3%nat := 0]> (<[2%nat := 0]> (<[1%nat := 0]> (<[0%nat := 0]> buf)))).

(** The device object has its endpoint addresses and the request buffer
    has room for the five bytes that are written. *)
Definition ready (dev : nat) (s : TLX00) : Prop :=
  (5 <= length (requestBuffer s))%nat /\
  exists d a b, heap s !! dev = Some d /\ outAddress d = Some a /\ inAddress d = Some b.

(** [self] when the [try] block is entered: the poll command is in the
    buffer. *)
Definition armed (s : TLX00) : TLX00 :=
  set_requestBuffer (<[0%nat := 3]> (cleared (requestBuffer s))) s.

(** [self] after [dev.write], and after [dev.read]. *)
Definition wrote (dev : nat) (s : TLX00) : TLX00 :=
  set_tick (S (tick s)) (add_event (EvWrite dev (requestBuffer s)) s).

Definition did_read (dev : nat) (s : TLX00) : TLX00 :=
  set_tick (S (tick s)) (add_event (EvRead dev) s).

(** [self] after the first two statements of the [except] block: the
    failure is logged and counted. *)
Definition failed (dev : nat) (e : Exc) (n : Z) (s : TLX00) : TLX00 :=
  set_heap (alter (with_deviceErrors (n + 1)) dev (heap s))
           (add_event (EvLog (LogUnableToRead e)) s).

(** The [try] block of a poll from the test of the first two bytes on, as
    in [poll_try] (see [poll_try_after_read]). *)
Definition after_read (w : World) (dev : nat) (rawdata : list Z) : M Flow :=
  let! b0 := getitem rawdata 0 in
  let! nodata :=
    (if b0 =? 0 then let! b1 := getitem rawdata 1 in ret (b1 =? 0)
     else ret false) in
  if nodata : bool then ret Break
  else
    let! now := time w in
    dev_set dev (with_lastTimeDataRead now) >>
    let! datapoints := parseData rawdata in
    notify w datapoints >>
    dev_set dev (with_deviceErrors 0) >>
    ret Next.

(** The part of it that handles a frame with data: parse, deliver, reset
    the counter (see [after_read_run]). *)
Definition publish (w : World) (dev : nat) (rawdata : list Z) : M Flow :=
  let! datapoints := parseData rawdata in
  notify w datapoints >>
  dev_set dev (with_deviceErrors 0) >>
  ret Next.

(** "No new data": the first two bytes are zero. *)
Definition no_new_data (rawdata : list Z) : bool :=
  (byte_at rawdata 0 =? 0) && (byte_at rawdata 1 =? 0).

(** [self] after the test of the first two bytes; the second is looked at
    only when the first is zero. *)
Definition peeked (rawdata : list Z) (s : TLX00) : TLX00 :=
  if byte_at rawdata 0 =? 0
  then add_event (EvIndex 1) (add_event (EvIndex 0) s)
  else add_event (EvIndex 0) s.

(** [self] after [dev.lastTimeDataRead = int(time.time())]. *)
Definition stamped (w : World) (dev : nat) (s : TLX00) : TLX00 :=
  set_heap (alter (with_lastTimeDataRead (w_time w (tick s))) dev (heap s))
           (set_tick (S (tick s)) s).

(** The state in which the response is looked at. *)
Definition answered (w : World) (dev : nat) (s : TLX00) : TLX00 :=
  did_read dev (sleep_state w (wrote dev s)).

(** Only the clock of interactions and the trace moved. *)
Definition only_talk (s s' : TLX00) : Prop :=
  devices s' = devices s /\ listeners s' = listeners s /\ sensors s' = sensors s /\
  requestBuffer s' = requestBuffer s /\
  detectUnknownSensors s' = detectUnknownSensors s /\
  lastDeviceCheck s' = lastDeviceCheck s /\ heap s' = heap s.

(** A stretch of trace that holds deliveries only. *)
Definition only_deliveries (tr : list Event) : Prop :=
  scans tr = [] /\ indices tr = [] /\ records tr = [] /\ logged tr = [] /\
  transport_ops tr = [].

(** The deliveries of one datapoint to listeners that all return. *)
Definition served (ls : list nat) (dp : DataPoint) : list (nat * DataPoint * bool) :=
  map (fun l => (l, dp, true)) ls.

(** What a run of [deliver] and of [notify] comes to: every listener
    served, or a stop at the first one that raises. *)
Definition deliver_post (dp : DataPoint) (ls : list nat) (s : TLX00) (r : Res unit) : Prop :=
  match r with
  | Ok _ s' =>
    only_talk s s' /\
    exists tr, trace s' = trace s ++ tr /\ only_deliveries tr /\
      deliveries tr = served ls dp
  | Raise e s' =>
    e = ListenerFault /\ only_talk s s' /\
    exists tr ls1 l ls2, ls = ls1 ++ l :: ls2 /\
      trace s' = trace s ++ tr /\ only_deliveries tr /\
      deliveries tr = served ls1 dp ++ [(l, dp, false)]
  | OutOfFuel => False
  end.

Definition notify_post (dps : list DataPoint) (s : TLX00) (r : Res unit) : Prop :=
  match r with
  | Ok _ s' =>
    only_talk s s' /\
    exists tr, trace s' = trace s ++ tr /\ only_deliveries tr /\
      deliveries tr = flat_map (served (listeners s)) dps
  | Raise e s' =>
    e = ListenerFault /\ only_talk s s' /\
    exists tr dps1 dp dps2 ls1 l ls2,
      dps = dps1 ++ dp :: dps2 /\ listeners s = ls1 ++ l :: ls2 /\
      trace s' = trace s ++ tr /\ only_deliveries tr /\
      deliveries tr =
        flat_map (served (listeners s)) dps1 ++ served ls1 dp ++ [(l, dp, false)]
  | OutOfFuel => False
  end.

(** The state in which a frame with data is parsed and published. *)
Definition listening (w : World) (dev : nat) (rawdata : list Z) (s : TLX00) : TLX00 :=
  stamped w dev (peeked rawdata (answered w dev (armed s))).

(** What the steps before the parser leave in the trace. *)
Definition prelude (dev : nat) (rawdata : list Z) (s : TLX00) : list Event :=
  [EvWrite dev (requestBuffer (armed s)); EvSleep; EvRead dev; EvIndex 0] ++
  (if byte_at rawdata 0 =? 0 then [EvIndex 1] else []).

(** One turn of the outer [while], as in [loop_while] (see
    [loop_while_S]): every device in turn, the pause, the occasional
    discovery. *)
Definition cycle (w : World) (fuel : nat) : M unit :=
  for_devices w fuel 0 >>
  sleep w >>
  let! now := time w in
  let! s := get in
  (if now >? lastDeviceCheck s + 60 then
     let! changed := checkForNewDevices w in
     if changed : bool then
       let! _b := findDevices w in initializeDevices w fuel
     else ret tt
   else ret tt).

(** ** Test fixtures *)

(** A time of day after the device epoch. *)
Definition T0 : Z := 1000000000.

(** A device object as [initializeDevices] leaves it, synchronised and
    erased at [T0], with [errs] errors counted. *)
Definition device_at (errs : Z) : Device :=
  mkDevice 0 errs T0 T0 (Some 1) (Some 129).

(** A logger with the given devices, listeners, detection flag and
    registry; no discovery is due before [T0 + 60]. *)
Definition logger (devs : list (nat * Z)) (ls : list nat) (detect : bool)
    (reg : gmap Z Sensor) : TLX00 :=
  mkTLX00 (map fst devs) ls reg (replicate 64 0) detect T0
          (list_to_map (map (fun x => (x.1, device_at x.2)) devs)) 0%nat [].

(** The clock stands at [T0], every transfer succeeds, every device
    answers [reply], every listener returns, no other thread interferes. *)
Definition calm (reply : list Z) : World :=
  mkWorld (fun _ => T0) (fun _ _ => true) (fun _ _ => Some reply)
          (fun _ _ => Some (Some 1, Some 129)) (fun _ _ => true) (fun _ => inr [])
          (fun _ _ _ => true) (fun _ => []).

(** As [calm], but listener 1 raises on every datapoint, and both
    listeners are unregistered during the pause that ends the first cycle
    (the eighth interaction). *)
Definition faulty_listener (reply : list Z) : World :=
  mkWorld (fun _ => T0) (fun _ _ => true) (fun _ _ => Some reply)
          (fun _ _ => Some (Some 1, Some 129)) (fun _ _ => true) (fun _ => inr [])
          (fun _ l _ => negb (Nat.eqb l 1))
          (fun t => if Nat.eqb t 7 then [Unregister 1%nat; Unregister 2%nat] else []).

(** As [calm], but every write to device 1 fails. *)
Definition dead_device (reply : list Z) : World :=
  mkWorld (fun _ => T0) (fun _ d => negb (Nat.eqb d 1)) (fun _ _ => Some reply)
          (fun _ _ => Some (Some 1, Some 129)) (fun _ _ => true)
          (fun _ => inr [1%nat; 2%nat])
          (fun _ _ _ => true) (fun _ => []).

(** As [calm], but the endpoints of device 1 cannot be negotiated. *)
Definition stubborn_device (reply : list Z) : World :=
  mkWorld (fun _ => T0) (fun _ _ => true) (fun _ _ => Some reply)
          (fun _ d => if Nat.eqb d 1 then None else Some (Some 1, Some 129))
          (fun _ _ => true) (fun _ => inr [1%nat; 2%nat])
          (fun _ _ _ => true) (fun _ => []).

(** The answer "no new data". *)
Definition no_data : list Z := replicate 64 0.

(** Two zero bytes, then a record of sensor 5. *)
Definition frame0 : list Z := frame [0; 0; 9; 5; 0; 0; 42; 16; 0; 0; 0; 255].

(** A record of sensor 4, then a record of sensor 5. *)
Definition frame45 : list Z :=
  frame [9; 4; 0; 0; 42; 16; 0; 0; 0; 9; 5; 0; 0; 43; 17; 0; 0; 0; 255].

(** A configured sensor, a guessed one, and their datapoints. *)
Definition sensor4 : Sensor := ArexxTemperatureSensor 4 "TSN-50E" "cellar".
Definition sensor5 : Sensor := ArexxHumiditySensor 5 "Unknown" "Unknown".

Definition dp5 : DataPoint := mkDataPoint 5 42 (TIME_OFFSET + 16) None sensor5.
Definition dp4 : DataPoint := mkDataPoint 4 42 (TIME_OFFSET + 16) None sensor4.

(** [n] polls of the same device in a row. *)
Fixpoint polls (w : World) (n : nat) (dev : nat) : M unit :=
  match n with
  | O => ret tt
  | S n' => let! _fl := poll w dev in polls w n' dev
  end.

(** ** More vocabulary: what the further properties are written in *)

(** Record starts never come closer than nine positions. *)
Definition apart (a b : Z) : Prop := a + 9 <= b.

Fixpoint all_apart (l : list Z) : Prop :=
  match l with
  | [] => True
  | a :: l' => Forall (apart a) l' /\ all_apart l'
  end.

(** The value ranges of the fields of a datapoint. *)
Definition in_ranges (dp : DataPoint) : Prop :=
  0 <= dp_sensorid dp < 65536 /\ 0 <= dp_rawvalue dp < 65536 /\
  TIME_OFFSET <= dp_timestamp dp < TIME_OFFSET + 2 ^ 32 /\
  forall sg, dp_signal dp = Some sg -> 0 <= sg < 256.

(** The request buffer with a five-byte command written over its head. *)
Definition command (c : list Z) (buf : list Z) : list Z := c ++ drop 5 buf.

(** The four bytes of an unsigned 32-bit number, least significant first. *)
Definition u32le (t : Z) : list Z :=
  [t mod 256; (t / 256) mod 256; (t / 65536) mod 256; (t / 16777216) mod 256].

(** The [try] block shared by [setTime] and [deleteDeviceData]: write the
    command, read the answer, stamp the device object. *)
Definition exchange (w : World) (dev : nat) (stamp : Z -> Device -> Device) : M unit :=
  usb_write w dev >>
  let! _r := usb_read w dev in
  let! now := time w in
  dev_set dev (stamp now).

(** The clock is in the range that [setTime] can send. *)
Definition sendable (now : Z) : Prop := TIME_OFFSET <= now < TIME_OFFSET + 2 ^ 32.

(** A step that leaves the lists, the registry and the settings alone,
    keeps the objects of the heap in place, delivers nothing and parses
    nothing. *)
Definition steady (s s' : TLX00) : Prop :=
  devices s' = devices s /\ listeners s' = listeners s /\ sensors s' = sensors s /\
  detectUnknownSensors s' = detectUnknownSensors s /\
  lastDeviceCheck s' = lastDeviceCheck s /\
  length (requestBuffer s') = length (requestBuffer s) /\
  (forall d, is_Some (heap s' !! d) <-> is_Some (heap s !! d)) /\
  exists tr, trace s' = trace s ++ tr /\ deliveries tr = [] /\ records tr = [].

(** A method that ends, normally or with an exception, in a state
    related to the one it started in. *)
Definition keeps (P : TLX00 -> TLX00 -> Prop) {A} (m : M A) : Prop :=
  forall s, match m s with
            | Ok _ s' | Raise _ s' => P s s'
            | OutOfFuel => False
            end.

(** A device object with its endpoint addresses that was never
    synchronised nor erased, as after a first [setTime] that failed. *)
Definition unsynced_device : Device := mkDevice 0 0 0 0 (Some 1) (Some 129).

(** A logger with one such device and one listener. *)
Definition unsynced_logger : TLX00 :=
  mkTLX00 [1%nat] [1%nat] ∅ (replicate 64 0) true 0 {[1%nat := unsynced_device]} 0%nat [].

(** As [calm], with the clock of a host that lost its time: one day after
    1970-01-01. *)
Definition lost_clock : World :=
  mkWorld (fun _ => 86400) (fun _ _ => true) (fun _ _ => Some no_data)
          (fun _ _ => Some (Some 1, Some 129)) (fun _ _ => true) (fun _ => inr [1%nat])
          (fun _ _ _ => true) (fun _ => []).

(** A step without transfers: the device list, the request buffer and the
    objects of the heap stay in place, and what is added to the trace
    holds no transport operation. *)
Definition offline (s s' : TLX00) : Prop :=
  devices s' = devices s /\ requestBuffer s' = requestBuffer s /\
  (forall d, is_Some (heap s' !! d) <-> is_Some (heap s !! d)) /\
  exists tr, trace s' = trace s ++ tr /\ transport_ops tr = [].

(** The request of a poll: command 3 at the head of the buffer. *)
Definition poll_request (s : TLX00) : list Z := command [3; 0; 0; 0; 0] (requestBuffer s).

(** A logger whose only device was found but never initialised: the
    object has no endpoint addresses. *)
Definition raw_logger : TLX00 :=
  mkTLX00 [1%nat] [1%nat] ∅ (replicate 64 0) true T0 {[1%nat := fresh_device]} 0%nat [].

(** A transfer with the device [d]. *)
Definition on_device (d : nat) (e : Event) : Prop :=
  match e with
  | EvWrite d' _ | EvRead d' => d' = d
  | _ => False
  end.

(** What serving the device [d] may do to the device list and on the
    bus: the list stays, or loses one occurrence of [d]; every transport
    operation is a transfer with [d]. *)
Definition serving (d : nat) (s s' : TLX00) : Prop :=
  (NoDup (devices s) ->
   devices s' = devices s \/
   exists l1 l2, devices s = l1 ++ d :: l2 /\ devices s' = l1 ++ l2) /\
  exists tr, trace s' = trace s ++ tr /\ Forall (on_device d) (transport_ops tr).

(** As [keeps], for a method that may run out of fuel. *)
Definition runs (P : TLX00 -> TLX00 -> Prop) {A} (m : M A) : Prop :=
  forall s, match m s with
            | Ok _ s' | Raise _ s' => P s s'
            | OutOfFuel => True
            end.

(** What a pass over the device list from index [j] on comes to: the
    devices before [j] are still in the list, and every transport
    operation is a transfer with a device that stood at [j] or after. *)
Definition pass_post (j : nat) (s s' : TLX00) : Prop :=
  (forall i x, (i < j)%nat -> devices s !! i = Some x -> x ∈ devices s') /\
  exists tr, trace s' = trace s ++ tr /\
    Forall (fun e => exists i x, (j <= i)%nat /\ devices s !! i = Some x /\ on_device x e)
           (transport_ops tr).

(** ** Worlds in which the outer loop is followed to its end *)






(** As [calm], but listener 1 is unregistered during every pause. *)
Definition listener_leaves (reply : list Z) : World :=
  mkWorld (fun _ => T0) (fun _ _ => true) (fun _ _ => Some reply)
          (fun _ _ => Some (Some 1, Some 129)) (fun _ _ => true) (fun _ => inr [])
          (fun _ _ _ => true) (fun _ => [Unregister 1%nat]).

(** * Verification *)

(** ** Stepping through the monad *)

Ltac norm :=
  cbn [devices listeners sensors requestBuffer detectUnknownSensors lastDeviceCheck
       heap tick trace set_devices set_listeners set_sensors set_requestBuffer
       set_detectUnknownSensors set_lastDeviceCheck set_heap set_tick set_trace
       add_event] in *.

Lemma bind_ok {A B} (m : M A) (k : A -> M B) s a s' :
  m s = Ok a s' -> bind m k s = k a s'.
Proof. intros H. unfold bind. by rewrite H. Qed.

Lemma bind_raise {A B} (m : M A) (k : A -> M B) s e s' :
  m s = Raise e s' -> bind m k s = Raise e s'.
Proof. intros H. unfold bind. by rewrite H. Qed.

Lemma bind_ret {A B} (a : A) (k : A -> M B) s : bind (ret a) k s = k a s.
Proof. reflexivity. Qed.

Lemma bind_assoc {A B C} (m : M A) (f : A -> M B) (k : B -> M C) s :
  bind (bind m f) k s = bind m (fun x => bind (f x) k) s.
Proof. unfold bind. by destruct (m s). Qed.

Lemma bind_emit {B} (e : Event) (k : unit -> M B) s :
  bind (emit e) k s = k tt (add_event e s).
Proof. reflexivity. Qed.

Lemma getitem_in_range data i s :
  0 <= i < Z.of_nat (length data) ->
  getitem data i s = Ok (byte_at data i) (add_event (EvIndex i) s).
Proof.
  intros Hi. unfold getitem, byte_at. rewrite bind_emit.
  destruct (Z.ltb_spec i 0) as [?|_]; [lia|].
  destruct (Z.ltb_spec i 0) as [?|_]; [lia|].
  destruct (lookup_lt_is_Some_2 data (Z.to_nat i)) as [b Hb]; [lia|].
  by rewrite Hb.
Qed.

Lemma bind_getitem {B} data i (k : Z -> M B) s :
  0 <= i < Z.of_nat (length data) ->
  bind (getitem data i) k s = k (byte_at data i) (add_event (EvIndex i) s).
Proof. intros Hi. apply bind_ok, getitem_in_range, Hi. Qed.

(** ** The registry lookup *)

Lemma resolve_known sensorid s x :
  sensors s !! sensorid = Some x -> resolve sensorid s = Ok x s.
Proof.
  intros H. unfold resolve, sensor_lookup, bind, get; simpl.
  rewrite H. rewrite bool_decide_eq_true_2 by eauto.
  rewrite andb_false_r. simpl. by rewrite H.
Qed.

Lemma resolve_unknown_off sensorid s :
  detectUnknownSensors s = false -> sensors s !! sensorid = None ->
  resolve sensorid s = Raise (KeyError sensorid) s.
Proof.
  intros Hd H. unfold resolve, sensor_lookup, bind, get; simpl.
  rewrite Hd. simpl. by rewrite H.
Qed.

Lemma resolve_unknown_on sensorid s :
  detectUnknownSensors s = true -> sensors s !! sensorid = None ->
  resolve sensorid s =
    Ok (guess sensorid)
       (set_sensors (<[sensorid := guess sensorid]> (sensors s))
          (add_event (EvLog (LogGuessed (s_kind (guess sensorid)))) s)).
Proof.
  intros Hd H. unfold resolve, sensor_lookup, addSensor, guess, bind, get; simpl.
  rewrite Hd, H. rewrite bool_decide_eq_false_2 by (intros [? ?]; discriminate).
  simpl.
  pose proof (Z.mod_pos_bound sensorid 2 ltac:(lia)) as Hm.
  destruct (Z.eqb_spec (sensorid mod 2) 0) as [E0|E0].
  - rewrite E0. simpl. unfold log, emit, modify, ret, raise. simpl.
    by rewrite lookup_insert_eq.
  - destruct (Z.eqb_spec (sensorid mod 2) 1) as [E1|E1]; [|lia].
    unfold log, emit, modify, ret, raise. simpl.
    by rewrite lookup_insert_eq.
Qed.

Lemma resolve_cases sensorid s :
  (exists x s' tr, resolve sensorid s = Ok x s' /\
     trace s' = trace s ++ tr /\
     devices s' = devices s /\ listeners s' = listeners s /\
     requestBuffer s' = requestBuffer s /\
     detectUnknownSensors s' = detectUnknownSensors s /\
     lastDeviceCheck s' = lastDeviceCheck s /\ heap s' = heap s /\ tick s' = tick s /\
     (detectUnknownSensors s = false -> sensors s' = sensors s) /\
     sensors s ⊆ sensors s' /\ sensors s' !! sensorid = Some x /\
     quiet tr) \/
  (resolve sensorid s = Raise (KeyError sensorid) s /\
   detectUnknownSensors s = false /\ sensors s !! sensorid = None).
Proof.
  destruct (sensors s !! sensorid) as [x|] eqn:Hx.
  - left. exists x, s, []. rewrite app_nil_r.
    split; [by apply resolve_known|]. by split_and!.
  - destruct (detectUnknownSensors s) eqn:Hd.
    + left. eexists _, _, [_]. split; [by apply resolve_unknown_on|].
      split_and!; try done.
      * by apply insert_subseteq.
      * by apply lookup_insert_eq.
    + right. split; [by apply resolve_unknown_off|done].
Qed.

(** ** The scan *)

Lemma same_but_registry_refl s : same_but_registry s s.
Proof. by repeat split. Qed.

Lemma same_but_registry_trans s1 s2 s3 :
  same_but_registry s1 s2 -> same_but_registry s2 s3 -> same_but_registry s1 s3.
Proof.
  unfold same_but_registry. intros (?&?&?&?&?&?&?) (?&?&?&?&?&?&?).
  repeat split; congruence.
Qed.

Lemma parse_while_exit fuel data pos acc s :
  63 <= pos -> parse_while (S fuel) data pos acc s = Ok acc s.
Proof.
  intros H. simpl. destruct (Z.ltb_spec pos 63); [lia|]. reflexivity.
Qed.

Lemma scans_app t1 t2 : scans (t1 ++ t2) = scans t1 ++ scans t2.
Proof. apply omap_app. Qed.
Lemma indices_app t1 t2 : indices (t1 ++ t2) = indices t1 ++ indices t2.
Proof. apply omap_app. Qed.
Lemma records_app t1 t2 : records (t1 ++ t2) = records t1 ++ records t2.
Proof. apply omap_app. Qed.
Lemma deliveries_app t1 t2 : deliveries (t1 ++ t2) = deliveries t1 ++ deliveries t2.
Proof. apply omap_app. Qed.
Lemma logged_app t1 t2 : logged (t1 ++ t2) = logged t1 ++ logged t2.
Proof. apply omap_app. Qed.
Lemma transport_ops_app t1 t2 :
  transport_ops (t1 ++ t2) = transport_ops t1 ++ transport_ops t2.
Proof. apply filter_app. Qed.

Lemma parse_post_step data pos pos' acc acc' s s1 r tr0 :
  trace s1 = trace s ++ tr0 -> same_but_registry s s1 ->
  (detectUnknownSensors s = false -> sensors s1 = sensors s) ->
  scans tr0 = [pos + 1] -> Forall in_frame (indices tr0) ->
  deliveries tr0 = [] -> transport_ops tr0 = [] ->
  acc' = acc ++ map snd (records tr0) ->
  map fst (records tr0) = filter (fun p => starts_record data p = true) [pos + 1] ->
  Forall (record_ok data) (records tr0) ->
  sensors s ⊆ sensors s1 ->
  Forall (fun r => sensors s1 !! dp_sensorid r.2 = Some (dp_sensor r.2)) (records tr0) ->
  (forall strict l, scan_chain strict data pos' l ->
                    scan_chain strict data pos (pos + 1 :: l)) ->
  parse_post data pos' acc' s1 r -> parse_post data pos acc s r.
Proof.
  intros Htr Hsame Hsens Hsc Hidx Hdel Htp Hacc Hrec Hrok Hsub Hreg Hchain Hpost.
  destruct r as [dps s'|e s'|]; simpl in *; [| |done].
  - destruct Hpost as (tr & Ht & Hs & Hd & Hc & Hi & Hr & Hro & Hsub' & Hoff' & Hreg'
                          & Hdl & Hto).
    exists (tr0 ++ tr).
    rewrite scans_app, indices_app, records_app, deliveries_app, transport_ops_app.
    rewrite Hsc, Hdel, Htp, Hdl, Hto, !map_app, Hrec, Hr.
    split_and!; try done.
    + by rewrite Ht, Htr, app_assoc.
    + eapply same_but_registry_trans; eauto.
    + rewrite Hd, Hacc. by rewrite app_assoc.
    + by apply Hchain.
    + by apply Forall_app.
    + by rewrite <- filter_app.
    + by apply Forall_app.
    + by etrans.
    + intros Hoff. rewrite Hoff', Hsens; [done|done|].
      destruct Hsame as (_&_&_&E&_). congruence.
    + apply Forall_app. split; [|done].
      eapply Forall_impl; [exact Hreg|]. simpl. intros r Hr'.
      by eapply lookup_weaken.
  - destruct Hpost as (tr & k & He & Hoff & Hk & Hss & Ht & Hs & Hc & Hi & Hdl & Hto).
    assert (Hoff' : detectUnknownSensors s = false).
    { destruct Hsame as (_&_&_&Hd&_). congruence. }
    exists (tr0 ++ tr), k.
    rewrite scans_app, indices_app, deliveries_app, transport_ops_app.
    rewrite Hsc, Hdel, Htp, Hdl, Hto.
    split_and!; try done.
    + rewrite <- (Hsens Hoff'). done.
    + rewrite Hss. by apply Hsens.
    + by rewrite Ht, Htr, app_assoc.
    + eapply same_but_registry_trans; eauto.
    + by apply Hchain.
    + by apply Forall_app.
Qed.

Lemma parse_while_post fuel : forall data pos acc s,
  length data = 64%nat -> -1 <= pos <= 63 ->
  (Z.to_nat (64 - pos) <= fuel)%nat ->
  parse_post data pos acc s (parse_while fuel data pos acc s).
Proof.
  induction fuel as [|fuel IH]; intros data pos acc s Hlen Hpos Hfuel; [lia|].
  destruct (Z.le_gt_cases 63 pos) as [Hge|Hlt].
  { rewrite parse_while_exit by lia. exists []. rewrite app_nil_r. simpl.
    rewrite app_nil_r. split_and!; try done. by apply chain_done. }
  cbn [parse_while].
  destruct (Z.ltb_spec pos 63) as [_|?]; [|lia].
  rewrite bind_emit, bind_getitem by lia.
  set (p := pos + 1). set (b := byte_at data p).
  match goal with
  | |- parse_post _ _ _ _ (_ ?st) => set (s1 := st)
  end.
  assert (Hs1 : trace s1 = trace s ++ [EvScan p; EvIndex p])
    by (subst s1; simpl; by rewrite <- app_assoc).
  assert (Hsame1 : same_but_registry s s1) by done.
  assert (Hsens1 : sensors s1 = sensors s) by done.
  clearbody s1.
  assert (Hp : pos + 1 = p) by done.
  destruct (Z.eqb_spec b 0) as [Hb0|Hb0].
  { (* padding *)
    apply (parse_post_step data pos p acc acc s s1 _ [EvScan p; EvIndex p]);
      try done; try (by rewrite Hsens1).
    - repeat constructor; unfold in_frame; lia.
    - by rewrite app_nil_r.
    - simpl. rewrite Hp, filter_cons_False; [done|].
      unfold starts_record, is_marker. fold b. by rewrite Hb0.
    - intros strict l Hl. by apply chain_zero.
    - apply IH; [done|lia|lia]. }
  destruct (Z.eqb_spec b 255) as [Hb255|Hb255].
  { (* end of data *)
    exists [EvScan p; EvIndex p]. simpl. rewrite app_nil_r.
    split_and!; try done; try (by rewrite Hsens1).
    - by apply chain_stop.
    - repeat constructor; unfold in_frame; lia.
    - rewrite filter_cons_False; [done|].
      unfold starts_record, is_marker. fold b. by rewrite Hb255. }
  destruct (((b =? 9) || (b =? 10)) && (p <? 55)) eqn:Hrec; cycle 1.
  { (* noise *)
    apply (parse_post_step data pos p acc acc s s1 _ [EvScan p; EvIndex p]);
      try done; try (by rewrite Hsens1).
    - repeat constructor; unfold in_frame; lia.
    - by rewrite app_nil_r.
    - simpl. rewrite Hp, filter_cons_False; [done|].
      unfold starts_record, is_marker. fold b. by rewrite Hrec.
    - intros strict l Hl. by apply chain_noise.
    - apply IH; [done|lia|lia]. }
  (* a record *)
  apply andb_prop in Hrec as Hrec'. destruct Hrec' as [Hmark Hp55].
  apply Z.ltb_lt in Hp55.
  rewrite !bind_getitem by lia.
  set (sensorid := from_bytes_little [byte_at data (p + 1); byte_at data (p + 2)]).
  set (fields := [EvIndex (p + 1); EvIndex (p + 2); EvIndex (p + 3); EvIndex (p + 4);
                  EvIndex (p + 5); EvIndex (p + 6); EvIndex (p + 7); EvIndex (p + 8)]).
  match goal with
  | |- parse_post _ _ _ _ (_ ?st) => set (s2 := st)
  end.
  assert (Hs2 : trace s2 = trace s ++ [EvScan p; EvIndex p] ++ fields)
    by (subst s2; simpl; rewrite Hs1, <- !app_assoc; reflexivity).
  assert (Hsame2 : same_but_registry s s2) by done.
  assert (Hsens2 : sensors s2 = sensors s) by done.
  clearbody s2.
  assert (exists signal s3 sg,
    (if b =? 10
     then let! d9 := getitem data (p + 9) in ret (Some (from_bytes_little [d9]))
     else ret None) s2 = Ok signal s3 /\
    signal = (if b =? 10 then Some (from_bytes_little [byte_at data (p + 9)]) else None) /\
    trace s3 = trace s2 ++ sg /\ same_but_registry s2 s3 /\ sensors s3 = sensors s2 /\
    scans sg = [] /\ Forall in_frame (indices sg) /\ records sg = [] /\
    deliveries sg = [] /\ transport_ops sg = [])
    as (signal & s3 & sg & Hsig & Hsigv & Hs3 & Hsame3 & Hsens3 & Hsg).
  { destruct (b =? 10).
    - eexists _, _, [EvIndex (p + 9)]. rewrite bind_getitem by lia.
      split_and!; try done. repeat constructor; unfold in_frame; lia.
    - eexists _, _, []. split_and!; try done. simpl. by rewrite app_nil_r. }
  rewrite (bind_ok _ _ _ _ _ Hsig).
  destruct Hsg as (Hsg1 & Hsg2 & Hsg3 & Hsg4 & Hsg5).
  assert (Hchain : forall strict l, scan_chain strict data (p + 8) l ->
                                    scan_chain strict data pos (pos + 1 :: l)).
  { intros strict l Hl. apply chain_record; try done.
    by replace (pos + 9) with (p + 8) by lia. }
  assert (Hfld : Forall in_frame (indices ([EvScan p; EvIndex p] ++ fields))).
  { repeat constructor; unfold in_frame; lia. }
  destruct (resolve_cases sensorid s3)
    as [(x & s4 & tr & Hres & Hs4 & Hdv & Hls & Hrb & Hdt & Hck & Hhp & Htk & Hsn
           & Hsub4 & Hx4 & Hq)
       |(Hres & Hoff & Hnone)].
  - rewrite (bind_ok _ _ _ _ _ Hres), bind_emit.
    destruct Hq as (Hq1 & Hq2 & Hq3 & Hq4 & Hq5).
    set (dp := mkDataPoint sensorid _ _ signal x).
    apply (parse_post_step data pos (p + 8) acc (acc ++ [dp]) s
             (add_event (EvRecord p dp) s4) _
             (([EvScan p; EvIndex p] ++ fields) ++ sg ++ tr ++ [EvRecord p dp]));
      try done.
    + simpl. rewrite Hs4, Hs3, Hs2, <- !app_assoc. reflexivity.
    + eapply same_but_registry_trans; [exact Hsame2|].
      eapply same_but_registry_trans; [exact Hsame3|]. by split_and!.
    + intros Hoff. simpl. rewrite Hsn, Hsens3, Hsens2; [done|].
      destruct Hsame2 as (_&_&_&E2&_), Hsame3 as (_&_&_&E3&_). congruence.
    + rewrite !scans_app, Hsg1, Hq1. by rewrite Hp.
    + rewrite !indices_app, Hq2. apply Forall_app; split; [done|].
      apply Forall_app; split; [done|]. constructor.
    + by rewrite !deliveries_app, Hsg4, Hq4.
    + by rewrite !transport_ops_app, Hsg5, Hq5.
    + by rewrite !records_app, Hsg3, Hq3.
    + rewrite !records_app, Hsg3, Hq3. simpl. rewrite filter_cons_True; [by rewrite Hp|].
      rewrite Hp. unfold starts_record, is_marker. fold b. done.
    + rewrite !records_app, Hsg3, Hq3. simpl. constructor; [|constructor].
      unfold record_ok. simpl. by split_and!.
    + norm. by rewrite <- Hsens2, <- Hsens3.
    + rewrite !records_app, Hsg3, Hq3. simpl. constructor; [|constructor].
      simpl. done.
    + apply IH; [done|lia|lia].
  - rewrite (bind_raise _ _ _ _ _ Hres).
    exists (([EvScan p; EvIndex p] ++ fields) ++ sg), sensorid.
    rewrite scans_app, indices_app, deliveries_app, transport_ops_app.
    rewrite Hsg1, Hsg4, Hsg5.
    split_and!; try done.
    + destruct Hsame2 as (_&_&_&E2&_), Hsame3 as (_&_&_&E3&_). congruence.
    + by rewrite <- Hsens2, <- Hsens3.
    + by rewrite Hsens3.
    + by rewrite Hs3, Hs2, <- app_assoc.
    + by eapply same_but_registry_trans.
    + simpl. rewrite <- Hp. apply Hchain. by apply chain_cut.
    + by apply Forall_app.
Qed.

Lemma is_frame_length data : is_frame data = true -> length data = 64%nat.
Proof.
  unfold is_frame. intros H. apply andb_prop in H as [H _]. by apply Nat.eqb_eq.
Qed.

Lemma parseData_post data s :
  is_frame data = true -> parse_post data (-1) [] s (parseData data s).
Proof.
  intros H. apply parse_while_post; [by apply is_frame_length|lia|simpl; lia].
Qed.

(** ** Facts on chains *)

Lemma scan_chain_gt strict data pos l :
  scan_chain strict data pos l -> Forall (fun x => pos < x) l.
Proof.
  induction 1 as [| |pos l _ _ _ IH| |pos l _ _ _ _ _ IH|pos l _ _ _ _ _ IH];
    try (constructor; [lia|]); try constructor;
    eapply Forall_impl; try exact IH; simpl; intros; lia.
Qed.

Lemma scan_chain_le strict data pos l :
  scan_chain strict data pos l -> Forall (fun x => x <= 63) l.
Proof. induction 1; repeat constructor; try lia; done. Qed.

Lemma scan_chain_head strict data pos x l :
  scan_chain strict data pos (x :: l) -> x = pos + 1.
Proof. by inversion 1. Qed.

(** After a record start the scan resumes nine positions further. *)
Lemma scan_chain_after_record data pos l :
  scan_chain true data pos l ->
  forall l1 p l2, l = l1 ++ p :: l2 -> starts_record data p = true ->
  exists l2', l2 = (p + 9) :: l2'.
Proof.
  assert (Hnext : forall q l2, q < 54 -> scan_chain true data (q + 9) l2 ->
                               exists l2', l2 = (q + 1 + 9) :: l2').
  { intros q l2 Hq Hc. inversion Hc; subst; try lia; try done;
      eexists; f_equal; lia. }
  assert (H55 : forall q, starts_record data q = true -> q < 55).
  { intros q Hq. unfold starts_record in Hq. apply andb_prop in Hq as [_ Hq].
    by apply Z.ltb_lt. }
  induction 1 as [| |pos l Hlt Hb Hc IH|pos Hlt Hb
                  |pos l Hlt H0 H255 Hst Hc IH|pos l Hlt H0 H255 Hst Hc IH];
    intros l1 p l2 El Hp.
  - by destruct l1.
  - by destruct l1.
  - destruct l1 as [|y l1]; simplify_eq/=.
    + unfold starts_record, is_marker in Hp. by rewrite Hb in Hp.
    + by eapply IH.
  - destruct l1 as [|y l1]; simplify_eq/=.
    + unfold starts_record, is_marker in Hp. by rewrite Hb in Hp.
    + by destruct l1.
  - destruct l1 as [|y l1]; simplify_eq/=.
    + apply Hnext; [|done]. apply H55 in Hp. lia.
    + by eapply IH.
  - destruct l1 as [|y l1]; simplify_eq/=.
    + congruence.
    + by eapply IH.
Qed.

Lemma sentinel_cons (x q : Z) (l : list Z) :
  x < q -> (exists l1, l = l1 ++ [q] /\ Forall (fun y => y < q) l1) ->
  exists l1, x :: l = l1 ++ [q] /\ Forall (fun y => y < q) l1.
Proof.
  intros Hx (l1 & -> & Hl1). exists (x :: l1). split; [done|by constructor].
Qed.

(** A scan position that holds 255 is the last one. *)
Lemma scan_chain_sentinel strict data pos l q :
  scan_chain strict data pos l -> q ∈ l -> byte_at data q = 255 ->
  exists l1, l = l1 ++ [q] /\ Forall (fun x => x < q) l1.
Proof.
  induction 1 as [| |pos l Hlt Hb Hc IH|pos Hlt Hb
                  |pos l Hlt H0 H255 Hst Hc IH|pos l Hlt H0 H255 Hst Hc IH];
    intros Hq Hbq.
  - by apply elem_of_nil in Hq.
  - by apply elem_of_nil in Hq.
  - apply elem_of_cons in Hq as [->|Hq]; [congruence|].
    apply sentinel_cons; [|by apply IH].
    apply scan_chain_gt in Hc. rewrite Forall_forall in Hc. specialize (Hc q Hq). lia.
  - apply list_elem_of_singleton in Hq as ->. by exists [].
  - apply elem_of_cons in Hq as [->|Hq]; [congruence|].
    apply sentinel_cons; [|by apply IH].
    apply scan_chain_gt in Hc. rewrite Forall_forall in Hc. specialize (Hc q Hq). lia.
  - apply elem_of_cons in Hq as [->|Hq]; [congruence|].
    apply sentinel_cons; [|by apply IH].
    apply scan_chain_gt in Hc. rewrite Forall_forall in Hc. specialize (Hc q Hq). lia.
Qed.

(** On given data the complete scan is determined. *)
Lemma scan_chain_unique data pos l1 :
  scan_chain true data pos l1 -> forall l2, scan_chain true data pos l2 -> l1 = l2.
Proof.
  induction 1 as [| |pos l Hlt Hb Hc IH|pos Hlt Hb
                  |pos l Hlt H0 H255 Hst Hc IH|pos l Hlt H0 H255 Hst Hc IH];
    intros l2 H2; inversion H2; subst; try done; try lia; try congruence;
    f_equal; by apply IH.
Qed.

(** ** parseData: the theorems *)

(** C10. With unknown-sensor detection on, [parseData] returns on every
    64-byte frame: it neither raises nor runs out of its 65 units of fuel,
    and every index it evaluates [data[i]] at lies in 0..63. *)
Theorem parseData_total (data : list Z) (s : TLX00) :
  is_frame data = true -> detectUnknownSensors s = true ->
  exists dps s' tr,
    parseData data s = Ok dps s' /\ trace s' = trace s ++ tr /\
    Forall (fun i => 0 <= i <= 63) (indices tr) /\
    Forall (fun p => 0 <= p <= 63) (scans tr) /\
    Forall (fun r => 0 <= r.1 <= 54) (records tr).
Proof.
  intros Hf Hd. pose proof (parseData_post data s Hf) as Hpost.
  destruct (parseData data s) as [dps s'|e s'|]; simpl in Hpost; [| |done].
  - destruct Hpost as (tr & Ht & _ & _ & Hc & Hi & Hr & _).
    exists dps, s', tr. split_and!; try done.
    + apply scan_chain_gt in Hc as Hgt. apply scan_chain_le in Hc as Hle.
      rewrite Forall_forall in Hgt, Hle. apply Forall_forall. intros p Hp.
      specialize (Hgt p Hp). specialize (Hle p Hp). lia.
    + apply Forall_forall. intros [p dp] Hp. simpl.
      assert (Hp' : p ∈ map fst (records tr)).
      { apply list_elem_of_fmap. by exists (p, dp). }
      rewrite Hr in Hp'. apply list_elem_of_filter in Hp' as [Hst Hsc].
      apply scan_chain_gt in Hc. rewrite Forall_forall in Hc. specialize (Hc p Hsc).
      unfold starts_record in Hst. apply andb_prop in Hst as [_ Hst].
      apply Z.ltb_lt in Hst. lia.
  - destruct Hpost as (tr & k & _ & Hoff & _). congruence.
Qed.

(** C6.  On a 64-byte frame [parseData] ends (with detection on, by
    returning), and whenever it returns, a record start at scan position
    [p] (a byte 9 or 10, [p < 55]) is followed by scan position [p + 9],
    whatever the marker: the cursor moves by 8 and the loop adds 1.  When
    the marker is 10, the byte at [p + 9] is the one that was read as the
    signal of that record. *)
Theorem parseData_advance (data : list Z) (s : TLX00) :
  is_frame data = true ->
  exists s' tr,
    state_of (parseData data s) = Some s' /\ trace s' = trace s ++ tr /\
    (detectUnknownSensors s = true -> exists dps, parseData data s = Ok dps s') /\
    forall dps, parseData data s = Ok dps s' ->
    forall l1 p l2,
      scans tr = l1 ++ p :: l2 ->
      (byte_at data p = 9 \/ byte_at data p = 10) -> p < 55 ->
      (exists l2', l2 = (p + 9) :: l2') /\
      exists dp, (p, dp) ∈ records tr /\ dp ∈ dps /\
        dp_signal dp = (if byte_at data p =? 10
                        then Some (from_bytes_little [byte_at data (p + 9)])
                        else None).
Proof.
  intros Hf. pose proof (parseData_post data s Hf) as Hpost.
  destruct (parseData data s) as [dps s'|e s'|]; simpl in Hpost; [| |done].
  - destruct Hpost as (tr & Ht & _ & Hdps & Hc & _ & Hr & Hok & _).
    exists s', tr. split_and!; try done; [by exists dps|].
    intros dps' [= <-] l1 p l2 El Hb Hp.
    assert (Hst : starts_record data p = true).
    { unfold starts_record, is_marker. apply andb_true_intro. split.
      - destruct Hb as [E|E]; by rewrite E.
      - by apply Z.ltb_lt. }
    split; [by eapply scan_chain_after_record|].
    assert (Hin : p ∈ map fst (records tr)).
    { rewrite Hr. apply list_elem_of_filter. split; [done|].
      rewrite El. apply elem_of_app. right. by apply list_elem_of_here. }
    apply list_elem_of_fmap in Hin as ([p' dp] & -> & Hin). simpl.
    exists dp. split_and!; [done| |].
    + rewrite Hdps. simpl. apply list_elem_of_fmap. by exists (p', dp).
    + rewrite Forall_forall in Hok. by destruct (Hok _ Hin) as (_ & _ & _ & ?).
  - destruct Hpost as (tr & k & _ & Hoff & _ & _ & Ht & _).
    exists s', tr. split_and!; try done. intros Hon. congruence.
Qed.

(** C7. On a 64-byte frame, whatever the registry and the detection flag,
    a scan position that holds 255 is the last position scanned: every
    other scan position lies before it, and so does the start of every
    record returned. *)
Theorem parseData_sentinel (data : list Z) (s : TLX00) :
  is_frame data = true ->
  exists s' tr,
    state_of (parseData data s) = Some s' /\ trace s' = trace s ++ tr /\
    forall q, q ∈ scans tr -> byte_at data q = 255 ->
      (exists l1, scans tr = l1 ++ [q] /\ Forall (fun x => x < q) l1) /\
      forall dps, parseData data s = Ok dps s' ->
        dps = map snd (records tr) /\ Forall (fun r => r.1 < q) (records tr).
Proof.
  intros Hf. pose proof (parseData_post data s Hf) as Hpost.
  destruct (parseData data s) as [dps s'|e s'|]; simpl in Hpost; [| |done].
  - destruct Hpost as (tr & Ht & _ & Hdps & Hc & _ & Hr & _).
    exists s', tr. split_and!; try done. intros q Hq Hb.
    destruct (scan_chain_sentinel _ _ _ _ _ Hc Hq Hb) as (l1 & El & Hl1).
    split; [by exists l1|]. intros dps' [= <-]. split; [done|].
    apply Forall_forall. intros [p dp] Hp. simpl.
    assert (Hp' : p ∈ map fst (records tr)).
    { apply list_elem_of_fmap. by exists (p, dp). }
    rewrite Hr in Hp'. apply list_elem_of_filter in Hp' as [Hst Hsc].
    rewrite El in Hsc. apply elem_of_app in Hsc as [Hsc|Hsc].
    + rewrite Forall_forall in Hl1. by apply Hl1.
    + apply list_elem_of_singleton in Hsc as ->.
      unfold starts_record, is_marker in Hst. by rewrite Hb in Hst.
  - destruct Hpost as (tr & k & _ & _ & _ & _ & Ht & _ & Hc & _).
    exists s', tr. split_and!; try done. intros q Hq Hb.
    destruct (scan_chain_sentinel _ _ _ _ _ Hc Hq Hb) as (l1 & El & Hl1).
    split; [by exists l1|]. intros dps' [=].
Qed.

Lemma parse_while_S fuel data pos datapoints :
  parse_while (S fuel) data pos datapoints =
    if pos <? 63 then
      let pos := pos + 1 in
      emit (EvScan pos) >>
      let! b := getitem data pos in
      if b =? 0 then parse_while fuel data pos datapoints
      else if b =? 255 then ret datapoints
      else if ((b =? 9) || (b =? 10)) && (pos <? 55) then
        let! d1 := getitem data (pos + 1) in
        let! d2 := getitem data (pos + 2) in
        let sensorid := from_bytes_little [d1; d2] in
        let! d3 := getitem data (pos + 3) in
        let! d4 := getitem data (pos + 4) in
        let rawvalue := from_bytes_big [d3; d4] in
        let! d5 := getitem data (pos + 5) in
        let! d6 := getitem data (pos + 6) in
        let! d7 := getitem data (pos + 7) in
        let! d8 := getitem data (pos + 8) in
        let timestamp := from_bytes_little [d5; d6; d7; d8] in
        let! signal :=
          (if b =? 10 then
             let! d9 := getitem data (pos + 9) in
             ret (Some (from_bytes_little [d9]))
           else ret None) in
        let! sensor := resolve sensorid in
        let dp := mkDataPoint sensorid rawvalue (timestamp + TIME_OFFSET) signal sensor in
        emit (EvRecord pos dp) >>
        parse_while fuel data (pos + 8) (datapoints ++ [dp])
      else parse_while fuel data pos datapoints
    else ret datapoints.
Proof. reflexivity. Qed.

Lemma resolve_detect sensorid s :
  detectUnknownSensors s = true ->
  exists x s', resolve sensorid s = Ok x s' /\
    detectUnknownSensors s' = true /\
    x = default (guess sensorid) (sensors s !! sensorid).
Proof.
  intros Hd. destruct (sensors s !! sensorid) as [x|] eqn:Hx.
  - exists x, s. by rewrite (resolve_known _ _ _ Hx).
  - eexists _, _. by rewrite (resolve_unknown_on _ _ Hd Hx).
Qed.

(** C5. With detection on, the frame [9, 5,0, 0,42, 16,0,0,0, 255, 0...]
    parses to exactly one record: sensor id 5, raw value 42, timestamp
    [TIME_OFFSET + 16], no signal; and [10, 5,0, 0,42, 16,0,0,0, 99, 255,
    0...] to the same record with signal 99.  The sensor attached is the one
    the registry holds for id 5, or the guessed one. *)
Theorem parseData_examples (s : TLX00) :
  detectUnknownSensors s = true ->
  let sensor := default (guess 5) (sensors s !! 5) in
  (exists s1, parseData frame1 s =
     Ok [mkDataPoint 5 42 (TIME_OFFSET + 16) None sensor] s1) /\
  (exists s2, parseData frame2 s =
     Ok [mkDataPoint 5 42 (TIME_OFFSET + 16) (Some 99) sensor] s2).
Proof.
  intros Hd sensor. subst sensor. split.
  - unfold parseData.
    assert (Hlen : length frame1 = 64%nat) by reflexivity.
    rewrite parse_while_S. change (-1 <? 63) with true. cbv iota zeta.
    rewrite bind_emit, bind_getitem by (rewrite Hlen; lia).
    change (byte_at frame1 (-1 + 1)) with 9.
    change (9 =? 0) with false. change (9 =? 255) with false.
    change (((9 =? 9) || (9 =? 10)) && (-1 + 1 <? 55)) with true. cbv iota.
    rewrite !bind_getitem by (rewrite Hlen; lia).
    change (9 =? 10) with false. cbv iota. rewrite bind_ret.
    change (from_bytes_little [byte_at frame1 (-1 + 1 + 1); byte_at frame1 (-1 + 1 + 2)])
      with 5.
    match goal with
    | |- context [bind (resolve 5) _ ?st] =>
      destruct (resolve_detect 5 st Hd) as (x & s' & Hr & Hd' & Hx)
    end.
    rewrite (bind_ok _ _ _ _ _ Hr), bind_emit.
    rewrite parse_while_S. change (-1 + 1 + 8 <? 63) with true. cbv iota zeta.
    rewrite bind_emit, bind_getitem by (rewrite Hlen; lia).
    change (byte_at frame1 (-1 + 1 + 8 + 1)) with 255.
    change (255 =? 0) with false. change (255 =? 255) with true. cbv iota.
    eexists. unfold ret. f_equal. simpl in Hx. rewrite <- Hx. reflexivity.
  - unfold parseData.
    assert (Hlen : length frame2 = 64%nat) by reflexivity.
    rewrite parse_while_S. change (-1 <? 63) with true. cbv iota zeta.
    rewrite bind_emit, bind_getitem by (rewrite Hlen; lia).
    change (byte_at frame2 (-1 + 1)) with 10.
    change (10 =? 0) with false. change (10 =? 255) with false.
    change (((10 =? 9) || (10 =? 10)) && (-1 + 1 <? 55)) with true. cbv iota.
    rewrite !bind_getitem by (rewrite Hlen; lia).
    change (10 =? 10) with true. cbv iota.
    rewrite bind_assoc, bind_getitem by (rewrite Hlen; lia). rewrite bind_ret.
    change (from_bytes_little [byte_at frame2 (-1 + 1 + 1); byte_at frame2 (-1 + 1 + 2)])
      with 5.
    match goal with
    | |- context [bind (resolve 5) _ ?st] =>
      destruct (resolve_detect 5 st Hd) as (x & s' & Hr & Hd' & Hx)
    end.
    rewrite (bind_ok _ _ _ _ _ Hr), bind_emit.
    rewrite parse_while_S. change (-1 + 1 + 8 <? 63) with true. cbv iota zeta.
    rewrite bind_emit, bind_getitem by (rewrite Hlen; lia).
    change (byte_at frame2 (-1 + 1 + 8 + 1)) with 99.
    change (99 =? 0) with false. change (99 =? 255) with false.
    change (((99 =? 9) || (99 =? 10)) && (-1 + 1 + 8 + 1 <? 55)) with false. cbv iota.
    rewrite parse_while_S. change (-1 + 1 + 8 + 1 <? 63) with true. cbv iota zeta.
    rewrite bind_emit, bind_getitem by (rewrite Hlen; lia).
    change (byte_at frame2 (-1 + 1 + 8 + 1 + 1)) with 255.
    change (255 =? 0) with false. change (255 =? 255) with true. cbv iota.
    eexists. unfold ret. f_equal. simpl in Hx. rewrite <- Hx. reflexivity.
Qed.

Lemma parseData_examples_witness :
  detectUnknownSensors TLX00_init = true /\
  (exists s1, parseData frame1 TLX00_init =
     Ok [mkDataPoint 5 42 (TIME_OFFSET + 16) None
           (ArexxHumiditySensor 5 "Unknown" "Unknown")] s1) /\
  (exists s2, parseData frame2 TLX00_init =
     Ok [mkDataPoint 5 42 (TIME_OFFSET + 16) (Some 99)
           (ArexxHumiditySensor 5 "Unknown" "Unknown")] s2).
Proof.
  split; [reflexivity|]. exact (parseData_examples TLX00_init eq_refl).
Defined.

(** ** Stepping through a poll *)

Lemma set_listeners_id s : set_listeners (listeners s) s = s.
Proof. by destruct s. Qed.

Lemma apply_ops_ok os : forall s,
  apply_ops os s = Ok tt (set_listeners (run_ops os (listeners s)) s).
Proof.
  induction os as [|o os IH]; intros s; simpl.
  - unfold ret. by rewrite set_listeners_id.
  - destruct o as [l|l]; simpl.
    + unfold registerDataListener. erewrite bind_ok by reflexivity. by rewrite IH.
    + unfold unregisterDataListener. erewrite bind_ok by reflexivity.
      rewrite IH. destruct (list_remove l (listeners s)); [done|].
      simpl. by destruct s.
Qed.

Section Steps.

Variable w : World.

Lemma bind_ask {A B} (q : nat -> A) (k : A -> M B) s :
  bind (ask q) k s = k (q (tick s)) (set_tick (S (tick s)) s).
Proof. reflexivity. Qed.

Lemma bind_time {B} (k : Z -> M B) s :
  bind (time w) k s = k (w_time w (tick s)) (set_tick (S (tick s)) s).
Proof. reflexivity. Qed.

Lemma bind_dev_set {B} dev f (k : unit -> M B) s :
  bind (dev_set dev f) k s = k tt (set_heap (alter f dev (heap s)) s).
Proof. reflexivity. Qed.

Lemma bind_get {B} (k : TLX00 -> M B) s : bind get k s = k s s.
Proof. reflexivity. Qed.

Lemma bind_modify {B} f (k : unit -> M B) s : bind (modify f) k s = k tt (f s).
Proof. reflexivity. Qed.

Lemma bind_log {B} m (k : unit -> M B) s :
  bind (log m) k s = k tt (add_event (EvLog m) s).
Proof. reflexivity. Qed.

Lemma bind_dev_attr {A B} dev (f : Device -> option A) (k : A -> M B) s d a :
  heap s !! dev = Some d -> f d = Some a ->
  bind (dev_attr dev f) k s = k a s.
Proof.
  intros Hd Hf. unfold dev_attr. rewrite bind_assoc, bind_get, Hd. simpl.
  by rewrite Hf.
Qed.

Lemma bind_sleep {B} (k : unit -> M B) s :
  bind (sleep w) k s = k tt (sleep_state w s).
Proof.
  unfold sleep. rewrite bind_assoc, bind_emit, bind_assoc, bind_ask.
  apply bind_ok. by rewrite apply_ops_ok.
Qed.

Lemma bind_setbuf {B} i v (k : unit -> M B) s :
  (i < length (requestBuffer s))%nat ->
  bind (setbuf i v) k s = k tt (set_requestBuffer (<[i := v]> (requestBuffer s)) s).
Proof.
  intros Hi. unfold setbuf. rewrite bind_assoc, bind_get.
  by rewrite decide_True.
Qed.

Lemma bind_clearRequestBuffer {B} (k : unit -> M B) s :
  (5 <= length (requestBuffer s))%nat ->
  bind clearRequestBuffer k s = k tt (set_requestBuffer (cleared (requestBuffer s)) s).
Proof.
  intros Hlen. unfold clearRequestBuffer.
  rewrite !bind_assoc.
  rewrite bind_setbuf by lia.
  rewrite bind_assoc, bind_setbuf by (norm; rewrite ?length_insert; lia).
  rewrite bind_assoc, bind_setbuf by (norm; rewrite ?length_insert; lia).
  rewrite bind_assoc, bind_setbuf by (norm; rewrite ?length_insert; lia).
  rewrite bind_setbuf by (norm; rewrite ?length_insert; lia).
  reflexivity.
Qed.

Lemma bind_usb_write {B} dev (k : unit -> M B) s d a :
  heap s !! dev = Some d -> outAddress d = Some a ->
  bind (usb_write w dev) k s =
    let s' := set_tick (S (tick s)) (add_event (EvWrite dev (requestBuffer s)) s) in
    if w_write w (tick s) dev then k tt s' else Raise USBError s'.
Proof.
  intros Hd Ha. unfold usb_write.
  rewrite bind_assoc, (bind_dev_attr _ _ _ _ d a) by done.
  rewrite bind_assoc, bind_get, bind_assoc, bind_emit, bind_assoc, bind_ask.
  norm. by destruct (w_write w (tick s) dev).
Qed.

Lemma bind_usb_read {B} dev (k : list Z -> M B) s d a :
  heap s !! dev = Some d -> inAddress d = Some a ->
  bind (usb_read w dev) k s =
    let s' := set_tick (S (tick s)) (add_event (EvRead dev) s) in
    match w_read w (tick s) dev with
    | Some data => k data s'
    | None => Raise USBError s'
    end.
Proof.
  intros Hd Ha. unfold usb_read.
  rewrite bind_assoc, (bind_dev_attr _ _ _ _ d a) by done.
  rewrite bind_assoc, bind_emit, bind_assoc, bind_ask.
  norm. by destruct (w_read w (tick s) dev).
Qed.

End Steps.

(** ** One poll *)

Section Poll.

Variable w : World.

Lemma poll_armed dev s :
  (5 <= length (requestBuffer s))%nat ->
  poll w dev s = try_except (poll_try w dev) (poll_except dev) (armed s).
Proof.
  intros Hlen. unfold poll.
  rewrite bind_clearRequestBuffer by done.
  rewrite bind_setbuf by (norm; unfold cleared; rewrite !length_insert; lia).
  reflexivity.
Qed.

Lemma poll_except_run dev e s d :
  heap s !! dev = Some d ->
  poll_except dev e s =
    let s1 := failed dev e (deviceErrors d) s in
    if deviceErrors d + 1 >? 10 then
      match list_remove dev (devices s) with
      | Some r => Ok Break (set_devices r (add_event (EvLog (LogTooManyErrors dev)) s1))
      | None => Raise ValueError (add_event (EvLog (LogTooManyErrors dev)) s1)
      end
    else Ok Break s1.
Proof.
  intros Hd. unfold poll_except.
  rewrite bind_log.
  rewrite (bind_dev_attr _ _ _ _ d (deviceErrors d)) by done.
  rewrite bind_dev_set.
  rewrite (bind_dev_attr _ _ _ _ (with_deviceErrors (deviceErrors d + 1) d)
             (deviceErrors d + 1)); [|norm; by rewrite lookup_alter_eq, Hd|done].
  cbv zeta. unfold failed.
  destruct (deviceErrors d + 1 >? 10).
  - rewrite !bind_assoc, bind_log, bind_assoc, bind_get.
    change (devices (add_event _ (set_heap _ (add_event _ s)))) with (devices s).
    destruct (list_remove dev (devices s)); reflexivity.
  - reflexivity.
Qed.

Lemma list_remove_elem_of (x : nat) (l : list nat) :
  x ∈ l -> exists r, list_remove x l = Some r.
Proof.
  induction l as [|y l IH]; intros Hx; [by apply elem_of_nil in Hx|].
  simpl. destruct (Nat.eqb_spec x y) as [->|Hne]; [by eexists|].
  apply elem_of_cons in Hx as [?|Hx]; [done|].
  destruct (IH Hx) as (r & ->). by eexists.
Qed.

Lemma list_remove_other (x y : nat) (l r : list nat) :
  list_remove x l = Some r -> y <> x -> y ∈ l -> y ∈ r.
Proof.
  revert r. induction l as [|z l IH]; intros r Hr Hne Hy; [done|].
  simpl in Hr. destruct (Nat.eqb_spec x z) as [->|Hxz].
  - simplify_eq. apply elem_of_cons in Hy as [?|?]; [done|done].
  - destruct (list_remove x l) as [r'|] eqn:E; [|done]. simplify_eq.
    apply elem_of_cons in Hy as [->|Hy]; [by left|].
    right. by apply IH.
Qed.

Lemma list_remove_NoDup (x : nat) (l r : list nat) :
  list_remove x l = Some r -> NoDup l -> x ∉ r.
Proof.
  revert r. induction l as [|z l IH]; intros r Hr Hnd; [done|].
  apply NoDup_cons in Hnd as [Hz Hnd].
  simpl in Hr. destruct (Nat.eqb_spec x z) as [->|Hxz].
  - by simplify_eq.
  - destruct (list_remove x l) as [r'|] eqn:E; [|done]. simplify_eq.
    apply not_elem_of_cons. split; [done|]. by apply IH.
Qed.

Lemma poll_try_after_read dev :
  poll_try w dev =
    (usb_write w dev >> sleep w >> let! rawdata := usb_read w dev in after_read w dev rawdata).
Proof. reflexivity. Qed.

Lemma after_read_run dev rawdata s :
  (2 <= length rawdata)%nat ->
  after_read w dev rawdata s =
    if no_new_data rawdata then Ok Break (peeked rawdata s)
    else publish w dev rawdata (stamped w dev (peeked rawdata s)).
Proof.
  intros Hlen. unfold after_read, no_new_data, peeked, publish, stamped.
  rewrite bind_getitem by lia.
  destruct (byte_at rawdata 0 =? 0); cbn [andb].
  - rewrite bind_assoc, bind_getitem by lia. rewrite bind_ret.
    destruct (byte_at rawdata 1 =? 0); [reflexivity|].
    by rewrite bind_time, bind_dev_set.
  - rewrite bind_ret. by rewrite bind_time, bind_dev_set.
Qed.

Lemma poll_try_run dev s d a b :
  heap s !! dev = Some d -> outAddress d = Some a -> inAddress d = Some b ->
  poll_try w dev s =
    if w_write w (tick s) dev then
      match w_read w (S (S (tick s))) dev with
      | Some rawdata => after_read w dev rawdata (answered w dev s)
      | None => Raise USBError (answered w dev s)
      end
    else Raise USBError (wrote dev s).
Proof.
  intros Hd Ha Hb. rewrite poll_try_after_read.
  rewrite (bind_usb_write _ _ _ _ d a) by done. cbv zeta.
  unfold answered, did_read, wrote.
  destruct (w_write w (tick s) dev); [|reflexivity].
  rewrite bind_sleep.
  by rewrite (bind_usb_read _ _ _ _ d b).
Qed.

(** *** The fan-out *)

Lemma only_talk_refl s : only_talk s s.
Proof. by split_and!. Qed.

Lemma only_talk_trans s1 s2 s3 : only_talk s1 s2 -> only_talk s2 s3 -> only_talk s1 s3.
Proof.
  unfold only_talk. intros (?&?&?&?&?&?&?) (?&?&?&?&?&?&?). split_and!; congruence.
Qed.

Lemma only_deliveries_nil : only_deliveries [].
Proof. by split_and!. Qed.

Lemma only_deliveries_app t1 t2 :
  only_deliveries t1 -> only_deliveries t2 -> only_deliveries (t1 ++ t2).
Proof.
  unfold only_deliveries. intros (?&?&?&?&?) (?&?&?&?&?).
  rewrite scans_app, indices_app, records_app, logged_app, transport_ops_app.
  split_and!; by apply app_nil.
Qed.

Lemma deliver_run dp ls : forall s, deliver_post dp ls s (deliver w dp ls s).
Proof.
  induction ls as [|l ls IH]; intros s.
  - simpl. split; [apply only_talk_refl|]. exists []. rewrite app_nil_r.
    split_and!; [done|apply only_deliveries_nil|done].
  - cbn [deliver]. rewrite bind_ask, bind_emit.
    destruct (w_onNewData w (tick s) l dp) eqn:Hok.
    + rewrite bind_ret.
      set (s1 := add_event _ _).
      specialize (IH s1).
      destruct (deliver w dp ls s1) as [[] s'|e s'|]; simpl in *; [| |done].
      * destruct IH as (Ht & tr & Htr & Htrd & Hd). split.
        { eapply only_talk_trans; [|exact Ht]. by split_and!. }
        exists (EvDeliver l dp true :: tr). split_and!.
        -- rewrite Htr. subst s1. norm. by rewrite <- app_assoc.
        -- by apply (only_deliveries_app [_]).
        -- simpl. by rewrite Hd.
      * destruct IH as (-> & Ht & tr & ls1 & l' & ls2 & -> & Htr & Htrd & Hd).
        split; [done|]. split.
        { eapply only_talk_trans; [|exact Ht]. by split_and!. }
        exists (EvDeliver l dp true :: tr), (l :: ls1), l', ls2. split_and!.
        -- done.
        -- rewrite Htr. subst s1. norm. by rewrite <- app_assoc.
        -- by apply (only_deliveries_app [_]).
        -- simpl. by rewrite Hd.
    + erewrite bind_raise by reflexivity.
      simpl. split; [done|]. split; [by split_and!|].
      exists [EvDeliver l dp false], [], l, ls. by split_and!.
Qed.

Lemma notify_run dps : forall s, notify_post dps s (notify w dps s).
Proof.
  induction dps as [|dp dps IH]; intros s.
  - simpl. split; [apply only_talk_refl|]. exists []. rewrite app_nil_r.
    split_and!; [done|apply only_deliveries_nil|done].
  - cbn [notify]. rewrite bind_assoc, bind_get.
    pose proof (deliver_run dp (listeners s) s) as Hd.
    destruct (deliver w dp (listeners s) s) as [[] s1|e s1|] eqn:E; simpl in Hd; [| |done].
    + rewrite (bind_ok _ _ _ _ _ E).
      destruct Hd as (Ht1 & tr1 & Htr1 & Hq1 & Hd1).
      specialize (IH s1).
      assert (Hls : listeners s1 = listeners s) by (by destruct Ht1 as (_&?&_)).
      destruct (notify w dps s1) as [[] s'|e s'|]; simpl in *; [| |done].
      * destruct IH as (Ht & tr & Htr & Hq & Hdd). split.
        { by eapply only_talk_trans. }
        exists (tr1 ++ tr). split_and!.
        -- by rewrite Htr, Htr1, app_assoc.
        -- by apply only_deliveries_app.
        -- by rewrite deliveries_app, Hd1, Hdd, Hls.
      * destruct IH as (-> & Ht & tr & dps1 & dp' & dps2 & ls1 & l & ls2
                          & -> & Hl & Htr & Hq & Hdd).
        split; [done|]. split; [by eapply only_talk_trans|].
        exists (tr1 ++ tr), (dp :: dps1), dp', dps2, ls1, l, ls2. split_and!.
        -- done.
        -- by rewrite <- Hls.
        -- by rewrite Htr, Htr1, app_assoc.
        -- by apply only_deliveries_app.
        -- rewrite deliveries_app, Hd1, Hdd, Hls. simpl. by rewrite <- app_assoc.
    + rewrite (bind_raise _ _ _ _ _ E).
      destruct Hd as (-> & Ht1 & tr1 & ls1 & l & ls2 & Hl & Htr1 & Hq1 & Hd1).
      simpl. split; [done|]. split; [done|].
      exists tr1, [], dp, dps, ls1, l, ls2. by split_and!.
Qed.

End Poll.

(** ** One poll: the theorems *)

Lemma try_except_ok {A} (body : M A) (handler : Exc -> M A) s a s' :
  body s = Ok a s' -> try_except body handler s = Ok a s'.
Proof. intros H. unfold try_except. by rewrite H. Qed.

Lemma try_except_raise {A} (body : M A) (handler : Exc -> M A) s e s' :
  body s = Raise e s' -> try_except body handler s = handler e s'.
Proof. intros H. unfold try_except. by rewrite H. Qed.

Lemma byte_at_lookup (data : list Z) (i : nat) (b : Z) :
  data !! i = Some b -> byte_at data (Z.of_nat i) = b.
Proof. intros H. unfold byte_at. by rewrite Nat2Z.id, H. Qed.

Lemma read_loop_break w fuel dev s s' :
  poll w dev s = Ok Break s' -> read_loop w (S fuel) dev s = Ok tt s'.
Proof. intros H. cbn [read_loop]. by rewrite (bind_ok _ _ _ _ _ H). Qed.

(** C4, as the code has it.  When the device answers a frame whose first
    two bytes are zero, the poll stops before the parser is called: no
    position is scanned, no record is built, nothing is delivered, the
    inner read loop ends, and the device, the active set and the registry
    are as before. *)
Theorem poll_no_new_data (w : World) (dev : nat) (s : TLX00) (rawdata : list Z) :
  ready dev s ->
  w_write w (tick s) dev = true ->
  w_read w (S (S (tick s))) dev = Some rawdata ->
  is_frame rawdata = true ->
  rawdata !! 0%nat = Some 0 -> rawdata !! 1%nat = Some 0 ->
  exists s' tr,
    poll w dev s = Ok Break s' /\
    (forall fuel, read_loop w (S fuel) dev s = Ok tt s') /\
    trace s' = trace s ++ tr /\
    scans tr = [] /\ records tr = [] /\ deliveries tr = [] /\
    heap s' = heap s /\ devices s' = devices s /\ sensors s' = sensors s.
Proof.
  intros (Hbuf & d & a & b & Hd & Ha & Hb) Hw Hr Hf H0 H1.
  apply is_frame_length in Hf.
  apply (byte_at_lookup _ 0) in H0. apply (byte_at_lookup _ 1) in H1.
  change (Z.of_nat 0) with 0 in H0. change (Z.of_nat 1) with 1 in H1.
  assert (Hpoll : poll w dev s =
            Ok Break (peeked rawdata (answered w dev (armed s)))).
  { rewrite poll_armed by done. apply try_except_ok.
    rewrite (poll_try_run w dev _ d a b) by done.
    change (tick (armed s)) with (tick s). rewrite Hw, Hr.
    rewrite after_read_run by lia.
    unfold no_new_data. by rewrite H0, H1. }
  eexists _, [EvWrite dev (requestBuffer (armed s)); EvSleep; EvRead dev;
              EvIndex 0; EvIndex 1].
  split; [exact Hpoll|]. split; [intros; by apply read_loop_break|].
  unfold peeked. rewrite H0. simpl.
  split_and!; try done. by rewrite <- !app_assoc.
Qed.

Lemma poll_data w dev s rawdata :
  ready dev s ->
  w_write w (tick s) dev = true ->
  w_read w (S (S (tick s))) dev = Some rawdata ->
  is_frame rawdata = true -> no_new_data rawdata = false ->
  poll w dev s =
    try_except (publish w dev rawdata) (poll_except dev) (listening w dev rawdata s).
Proof.
  intros (Hbuf & d & a & b & Hd & Ha & Hb) Hw Hr Hf Hn.
  apply is_frame_length in Hf.
  rewrite poll_armed by done. unfold try_except, listening.
  rewrite (poll_try_run w dev _ d a b) by done.
  change (tick (armed s)) with (tick s). rewrite Hw, Hr.
  rewrite after_read_run by lia. by rewrite Hn.
Qed.

Lemma listening_facts w dev rawdata s :
  trace (listening w dev rawdata s) = trace s ++ prelude dev rawdata s /\
  devices (listening w dev rawdata s) = devices s /\
  sensors (listening w dev rawdata s) = sensors s /\
  detectUnknownSensors (listening w dev rawdata s) = detectUnknownSensors s /\
  listeners (listening w dev rawdata s) =
    run_ops (w_sleep w (S (tick s))) (listeners s) /\
  heap (listening w dev rawdata s) =
    alter (with_lastTimeDataRead
             (w_time w (S (S (S (tick s)))))) dev (heap s).
Proof.
  unfold listening, stamped, peeked, prelude.
  destruct (byte_at rawdata 0 =? 0); simpl; split_and!; try done;
    by rewrite <- !app_assoc.
Qed.

Lemma poll_except_post dev e s d :
  heap s !! dev = Some d -> dev ∈ devices s ->
  exists s' tr,
    poll_except dev e s = Ok Break s' /\
    trace s' = trace s ++ tr /\
    logged tr = LogUnableToRead e ::
                (if deviceErrors d + 1 >? 10 then [LogTooManyErrors dev] else []) /\
    scans tr = [] /\ records tr = [] /\ deliveries tr = [] /\ transport_ops tr = [] /\
    heap s' = alter (with_deviceErrors (deviceErrors d + 1)) dev (heap s) /\
    listeners s' = listeners s /\ sensors s' = sensors s /\
    (deviceErrors d + 1 <= 10 -> devices s' = devices s) /\
    (10 < deviceErrors d + 1 -> list_remove dev (devices s) = Some (devices s')).
Proof.
  intros Hd Hin. rewrite (poll_except_run dev e s d Hd). cbv zeta.
  destruct (Z.gtb_spec (deviceErrors d + 1) 10) as [Hgt|Hle].
  - destruct (list_remove_elem_of _ _ Hin) as (r & Hr). rewrite Hr.
    eexists _, [EvLog (LogUnableToRead e); EvLog (LogTooManyErrors dev)].
    split; [reflexivity|]. simpl. split_and!; try done; try lia.
    by rewrite <- app_assoc.
  - eexists _, [EvLog (LogUnableToRead e)].
    split; [reflexivity|]. simpl. split_and!; try done; lia.
Qed.

Lemma notify_all_ok w dps :
  (forall t l dp, w_onNewData w t l dp = true) ->
  forall s, exists s', notify w dps s = Ok tt s'.
Proof.
  intros Hok s. pose proof (notify_run w dps s) as H.
  destruct (notify w dps s) as [[] s'|e s'|] eqn:E; simpl in H; [by eexists| |done].
  exfalso. revert s E H. induction dps as [|dp dps IH]; intros s E H; [done|].
  cbn [notify] in E. rewrite bind_assoc, bind_get in E.
  assert (Hdel : forall ls s0, exists s1, deliver w dp ls s0 = Ok tt s1).
  { clear -Hok. induction ls as [|l ls IHl]; intros s0; [by eexists|].
    cbn [deliver]. rewrite bind_ask, bind_emit, Hok, bind_ret. apply IHl. }
  destruct (Hdel (listeners s) s) as (s1 & Hs1).
  rewrite (bind_ok _ _ _ _ _ Hs1) in E.
  pose proof (notify_run w dps s1) as H1. rewrite E in H1.
  by eapply IH.
Qed.

Lemma poll_transport_fault w dev s d :
  ready dev s -> heap s !! dev = Some d -> dev ∈ devices s ->
  w_write w (tick s) dev = false \/ w_read w (S (S (tick s))) dev = None ->
  exists s0, poll w dev s = poll_except dev USBError s0 /\
    heap s0 = heap s /\ devices s0 = devices s /\ listeners s0 =
      (if w_write w (tick s) dev
       then run_ops (w_sleep w (S (tick s))) (listeners s) else listeners s) /\
    sensors s0 = sensors s /\
    exists tr0, trace s0 = trace s ++ tr0 /\ logged tr0 = [] /\ deliveries tr0 = [] /\
      scans tr0 = [] /\ records tr0 = [].
Proof.
  intros (Hbuf & d' & a & b & Hd' & Ha & Hb) Hd Hin Hfail.
  rewrite poll_armed by done. unfold try_except.
  rewrite (poll_try_run w dev _ d' a b) by done.
  change (tick (armed s)) with (tick s).
  destruct (w_write w (tick s) dev) eqn:Hw.
  - destruct Hfail as [?|Hr]; [done|]. rewrite Hr.
    eexists. split; [reflexivity|].
    unfold answered, did_read, sleep_state, wrote, armed. norm.
    split_and!; try done.
    eexists [_; _; _]. rewrite <- !app_assoc. by split_and!.
  - eexists. split; [reflexivity|].
    unfold wrote, armed. norm. split_and!; try done.
    eexists [_]. by split_and!.
Qed.

(** C8, as the code has it.  One poll of a device of the active set:
    - a transport failure (the write or the read fails) adds one to
      [deviceErrors]; past 10 the device is removed from the active set,
      every other device stays in it, and no other device object changes;
    - an answer "no new data" leaves the counter as it is;
    - a frame with data, parsed and delivered without a fault, sets the
      counter to 0. *)
Theorem deviceErrors_policy (w : World) (dev : nat) (s : TLX00) (d : Device) :
  ready dev s -> heap s !! dev = Some d -> dev ∈ devices s ->
  ((w_write w (tick s) dev = false \/ w_read w (S (S (tick s))) dev = None) ->
   exists s', poll w dev s = Ok Break s' /\
     deviceErrors <$> heap s' !! dev = Some (deviceErrors d + 1) /\
     (forall d', d' <> dev -> heap s' !! d' = heap s !! d') /\
     (deviceErrors d + 1 <= 10 -> devices s' = devices s) /\
     (10 < deviceErrors d + 1 ->
        list_remove dev (devices s) = Some (devices s') /\
        (forall d', d' <> dev -> d' ∈ devices s -> d' ∈ devices s') /\
        (NoDup (devices s) -> dev ∉ devices s'))) /\
  (forall rawdata,
     w_write w (tick s) dev = true -> w_read w (S (S (tick s))) dev = Some rawdata ->
     is_frame rawdata = true -> no_new_data rawdata = true ->
     exists s', poll w dev s = Ok Break s' /\
       heap s' = heap s /\ devices s' = devices s) /\
  (forall rawdata,
     w_write w (tick s) dev = true -> w_read w (S (S (tick s))) dev = Some rawdata ->
     is_frame rawdata = true -> no_new_data rawdata = false ->
     detectUnknownSensors s = true ->
     (forall t l dp, w_onNewData w t l dp = true) ->
     exists s', poll w dev s = Ok Next s' /\
       deviceErrors <$> heap s' !! dev = Some 0 /\ devices s' = devices s).
Proof.
  intros Hready Hd Hin. split_and!.
  - intros Hfail.
    destruct (poll_transport_fault w dev s d Hready Hd Hin Hfail)
      as (s0 & Hpoll & Hh0 & Hd0 & _).
    destruct (poll_except_post dev USBError s0 d) as
      (s' & tr & Hex & _ & _ & _ & _ & _ & _ & Hh & _ & _ & Hle & Hgt);
      [by rewrite Hh0|by rewrite Hd0|].
    exists s'. rewrite Hpoll, Hh, Hh0, Hd0 in *. split_and!; try done.
    + by rewrite lookup_alter_eq, Hd.
    + intros d' Hne. by rewrite lookup_alter_ne.
    + intros H10. specialize (Hgt H10). split_and!; [done| |].
      * intros d' Hne Hd'. by eapply list_remove_other.
      * intros Hnd. by eapply list_remove_NoDup.
  - intros rawdata Hw Hr Hf Hn.
    destruct Hready as (Hbuf & d' & a & b & Hd' & Ha & Hb).
    apply is_frame_length in Hf.
    eexists. split; [|split; [|shelve]].
    + rewrite poll_armed by done. apply try_except_ok.
      rewrite (poll_try_run w dev _ d' a b) by done.
      change (tick (armed s)) with (tick s). rewrite Hw, Hr.
      rewrite after_read_run by lia. by rewrite Hn.
    + unfold peeked. by destruct (byte_at rawdata 0 =? 0).
    Unshelve. unfold peeked. by destruct (byte_at rawdata 0 =? 0).
  - intros rawdata Hw Hr Hf Hn Hdet Hok.
    rewrite (poll_data w dev s rawdata) by done.
    destruct (listening_facts w dev rawdata s) as (Ht & Hdv & Hsn & Hdt & Hls & Hhp).
    set (s0 := listening w dev rawdata s) in *. clearbody s0.
    pose proof (parseData_post rawdata s0 Hf) as Hpost.
    destruct (parseData rawdata s0) as [dps s1|e s1|] eqn:Hparse; simpl in Hpost;
      [| |done]; cycle 1.
    { destruct Hpost as (tr & k & _ & Hoff & _). congruence. }
    destruct Hpost as (tr & Htr & (Hd1 & _ & _ & _ & _ & Hh1 & _) & _).
    destruct (notify_all_ok w dps Hok s1) as (s2 & Hnot).
    pose proof (notify_run w dps s1) as Hnp. rewrite Hnot in Hnp. simpl in Hnp.
    destruct Hnp as ((Hd2 & _ & _ & _ & _ & _ & Hh2) & _).
    eexists. split.
    + apply try_except_ok. unfold publish.
      rewrite (bind_ok _ _ _ _ _ Hparse), (bind_ok _ _ _ _ _ Hnot), bind_dev_set.
      reflexivity.
    + norm. rewrite Hh2, Hh1, Hhp, Hd2, Hd1, Hdv.
      rewrite lookup_alter_eq, lookup_alter_eq, Hd. done.
Qed.

Lemma prelude_quiet dev rawdata s :
  scans (prelude dev rawdata s) = [] /\ records (prelude dev rawdata s) = [] /\
  deliveries (prelude dev rawdata s) = [] /\ logged (prelude dev rawdata s) = [].
Proof. unfold prelude. by destruct (byte_at rawdata 0 =? 0). Qed.

Lemma served_true ls dp x : x ∈ served ls dp -> x.2 = true.
Proof. unfold served. intros H. apply list_elem_of_fmap in H as (l & -> & _). done. Qed.

Lemma flat_served_true ls dps x : x ∈ flat_map (served ls) dps -> x.2 = true.
Proof.
  intros H. apply list_elem_of_In, in_flat_map in H as (dp & _ & H).
  apply list_elem_of_In in H. by eapply served_true.
Qed.

(** C1, as the code has it.  A poll that receives a frame with data
    always ends normally.  If a listener raises on a
    datapoint, the fault is caught by the handler of the poll and logged,
    the inner read loop is left, and the delivery stops there: the
    datapoints before it went to every listener, the faulty datapoint
    went to the listeners registered before the faulty one, and nothing
    else was delivered. *)
Theorem listener_fault_contained (w : World) (dev : nat) (s : TLX00) (d : Device)
    (rawdata : list Z) :
  ready dev s -> heap s !! dev = Some d -> dev ∈ devices s ->
  w_write w (tick s) dev = true -> w_read w (S (S (tick s))) dev = Some rawdata ->
  is_frame rawdata = true -> no_new_data rawdata = false ->
  exists fl s' tr,
    poll w dev s = Ok fl s' /\ trace s' = trace s ++ tr /\
    forall l dp, (l, dp, false) ∈ deliveries tr ->
      fl = Break /\ LogUnableToRead ListenerFault ∈ logged tr /\
      exists dps1 dps2 ls1 ls2,
        map snd (records tr) = dps1 ++ dp :: dps2 /\
        run_ops (w_sleep w (S (tick s))) (listeners s) = ls1 ++ l :: ls2 /\
        deliveries tr =
          flat_map (served (ls1 ++ l :: ls2)) dps1 ++ served ls1 dp ++ [(l, dp, false)].
Proof.
  intros Hready Hd Hin Hw Hr Hf Hn.
  rewrite (poll_data w dev s rawdata) by done.
  destruct (listening_facts w dev rawdata s) as (Ht & Hdv & Hsn & Hdt & Hls & Hhp).
  destruct (prelude_quiet dev rawdata s) as (Hp1 & Hp2 & Hp3 & Hp4).
  set (s0 := listening w dev rawdata s) in *. clearbody s0.
  pose proof (parseData_post rawdata s0 Hf) as Hpost.
  destruct (parseData rawdata s0) as [dps s1|e s1|] eqn:Hparse; simpl in Hpost;
    [| |done]; cycle 1.
  { destruct Hpost as (tr1 & k & -> & _ & _ & _ & Htr1 & (Hd1 & _ & _ & _ & _ & Hh1 & _)
                         & _ & _ & Hdel1 & _).
    destruct (poll_except_post dev (KeyError k) s1
                (with_lastTimeDataRead (w_time w (S (S (S (tick s))))) d))
      as (s' & tr3 & Hex & Htr3 & _ & _ & _ & Hdel3 & _).
    { rewrite Hh1, Hhp. by rewrite lookup_alter_eq, Hd. }
    { by rewrite Hd1, Hdv. }
    eexists Break, s', (prelude dev rawdata s ++ tr1 ++ tr3). split_and!.
    - rewrite <- Hex. apply try_except_raise. unfold publish. by apply bind_raise.
    - rewrite Htr3, Htr1, Ht. by rewrite <- !app_assoc.
    - intros l dp Hbad. exfalso.
      rewrite !deliveries_app, Hp3, Hdel1, Hdel3 in Hbad.
      by apply elem_of_nil in Hbad. }
  destruct Hpost as (tr1 & Htr1 & (Hd1 & Hl1 & _ & _ & _ & Hh1 & _) & Hdps & _ & _ & _
                       & _ & _ & _ & _ & Hdel1 & _).
  pose proof (notify_run w dps s1) as Hnp.
  destruct (notify w dps s1) as [[] s2|e s2|] eqn:Hnot; simpl in Hnp; [| |done].
  - destruct Hnp as (_ & tr2 & Htr2 & _ & Hdel2).
    eexists Next, _, (prelude dev rawdata s ++ tr1 ++ tr2 ++ []). split_and!.
    + apply try_except_ok. unfold publish.
      rewrite (bind_ok _ _ _ _ _ Hparse), (bind_ok _ _ _ _ _ Hnot), bind_dev_set.
      reflexivity.
    + norm. rewrite Htr2, Htr1, Ht, app_nil_r. by rewrite <- !app_assoc.
    + intros l dp Hbad. exfalso.
      rewrite !deliveries_app, Hp3, Hdel1, Hdel2 in Hbad. simpl in Hbad.
      rewrite app_nil_r in Hbad. by apply flat_served_true in Hbad.
  - destruct Hnp as (-> & (Hd2 & _ & _ & _ & _ & _ & Hh2) & tr2 & dps1 & dp' & dps2
                       & ls1 & l' & ls2 & Edps & Els & Htr2 & (_ & _ & Hr2 & Hlg2 & _)
                       & Hdel2).
    destruct (poll_except_post dev ListenerFault s2
                (with_lastTimeDataRead (w_time w (S (S (S (tick s))))) d))
      as (s' & tr3 & Hex & Htr3 & Hlg3 & _ & Hr3 & Hdel3 & _).
    { rewrite Hh2, Hh1, Hhp. by rewrite lookup_alter_eq, Hd. }
    { by rewrite Hd2, Hd1, Hdv. }
    eexists Break, s', (prelude dev rawdata s ++ tr1 ++ tr2 ++ tr3). split_and!.
    + rewrite <- Hex. apply try_except_raise. unfold publish.
      rewrite (bind_ok _ _ _ _ _ Hparse). by apply bind_raise.
    + rewrite Htr3, Htr2, Htr1, Ht. by rewrite <- !app_assoc.
    + intros l dp Hbad.
      rewrite !deliveries_app, Hp3, Hdel1, Hdel2, Hdel3 in *. simpl in *.
      rewrite app_nil_r in *.
      assert (l = l' /\ dp = dp') as [-> ->].
      { apply elem_of_app in Hbad as [Hbad|Hbad];
          [by apply flat_served_true in Hbad|].
        apply elem_of_app in Hbad as [Hbad|Hbad]; [by apply served_true in Hbad|].
        apply list_elem_of_singleton in Hbad. by simplify_eq. }
      split; [done|]. split.
      { rewrite !logged_app, Hlg3, !elem_of_app. do 3 right. apply list_elem_of_here. }
      exists dps1, dps2, ls1, ls2.
      rewrite !records_app, Hp2, Hr2, Hr3, app_nil_r. simpl.
      rewrite <- Hdps, <- Els, <- Hls, <- Hl1. done.
Qed.

(** With detection off, a frame that holds a record of an unregistered
    sensor makes [parseData] raise. *)
Lemma parse_unknown_raises rawdata s_on dps s_on' dp s0 :
  is_frame rawdata = true ->
  parseData rawdata s_on = Ok dps s_on' -> dp ∈ dps ->
  sensors s0 !! dp_sensorid dp = None -> detectUnknownSensors s0 = false ->
  exists k s1 tr,
    parseData rawdata s0 = Raise (KeyError k) s1 /\ sensors s0 !! k = None /\
    trace s1 = trace s0 ++ tr /\ same_but_registry s0 s1 /\
    deliveries tr = [] /\ transport_ops tr = [].
Proof.
  intros Hf Hon Hdp Hnone Hoff.
  pose proof (parseData_post rawdata s_on Hf) as Pon. rewrite Hon in Pon.
  destruct Pon as (tr_on & _ & _ & Hdps & Hc_on & _ & Hr_on & Hok_on & _).
  pose proof (parseData_post rawdata s0 Hf) as Poff.
  destruct (parseData rawdata s0) as [dps0 s1|e s1|]; simpl in Poff; [| |done].
  - exfalso.
    destruct Poff as (tr & _ & _ & _ & Hc & _ & Hr & Hok & _ & Hsame & Hreg & _).
    rewrite (scan_chain_unique _ _ _ Hc _ Hc_on), <- Hr_on in Hr.
    simpl in Hdps. subst dps.
    apply list_elem_of_fmap in Hdp as ([p dp1] & -> & Hin).
    assert (Hp : p ∈ map fst (records tr)).
    { rewrite Hr. apply list_elem_of_fmap. by exists (p, dp1). }
    apply list_elem_of_fmap in Hp as ([p' dp2] & Ep & Hin2). simpl in Ep. subst p'.
    rewrite Forall_forall in Hok_on, Hok, Hreg.
    destruct (Hok_on _ Hin) as (E1 & _). destruct (Hok _ Hin2) as (E2 & _).
    specialize (Hreg _ Hin2). simpl in *.
    rewrite (Hsame Hoff), E2, <- E1 in Hreg. congruence.
  - destruct Poff as (tr & k & -> & _ & Hk & _ & Ht & Hs & _ & _ & Hdl & Hto).
    by exists k, s1, tr.
Qed.

(** C2, as the code has it.  With detection off, a frame with data that
    holds a record of a sensor id absent from the registry ([dp] is one of
    the records a run of the parser that does not fail finds in the
    frame): the lookup raises [KeyError] inside [parseData]; the handler of
    the poll catches and logs it, adds one to the error counter of the
    device and leaves the inner read loop; the poll itself ends
    normally. *)
Theorem unknown_sensor_fails_poll (w : World) (dev : nat) (s : TLX00) (d : Device)
    (rawdata : list Z) (s_on s_on' : TLX00) (dps : list DataPoint) (dp : DataPoint) :
  ready dev s -> heap s !! dev = Some d -> dev ∈ devices s ->
  w_write w (tick s) dev = true -> w_read w (S (S (tick s))) dev = Some rawdata ->
  is_frame rawdata = true -> no_new_data rawdata = false ->
  detectUnknownSensors s = false ->
  parseData rawdata s_on = Ok dps s_on' -> dp ∈ dps ->
  sensors s !! dp_sensorid dp = None ->
  exists s' tr k,
    poll w dev s = Ok Break s' /\ trace s' = trace s ++ tr /\
    sensors s !! k = None /\
    LogUnableToRead (KeyError k) ∈ logged tr /\
    deviceErrors <$> heap s' !! dev = Some (deviceErrors d + 1) /\
    (forall fuel, read_loop w (S fuel) dev s = Ok tt s').
Proof.
  intros Hready Hd Hin Hw Hr Hf Hn Hoff Hon Hdp Hnone.
  pose proof (poll_data w dev s rawdata Hready Hw Hr Hf Hn) as Hpoll.
  destruct (listening_facts w dev rawdata s) as (Ht & Hdv & Hsn & Hdt & Hls & Hhp).
  set (s0 := listening w dev rawdata s) in *. clearbody s0.
  destruct (parse_unknown_raises rawdata s_on dps s_on' dp s0)
    as (k & s1 & tr1 & Hparse & Hk & Htr1 & (Hd1 & _ & _ & _ & _ & Hh1 & _) & _);
    [done|done|done|by rewrite Hsn|by rewrite Hdt|].
  destruct (poll_except_post dev (KeyError k) s1
              (with_lastTimeDataRead (w_time w (S (S (S (tick s))))) d))
    as (s' & tr3 & Hex & Htr3 & Hlg3 & _ & _ & _ & _ & Hh3 & _).
  { rewrite Hh1, Hhp. by rewrite lookup_alter_eq, Hd. }
  { by rewrite Hd1, Hdv. }
  assert (Hres : poll w dev s = Ok Break s').
  { rewrite Hpoll, <- Hex. apply try_except_raise. unfold publish.
    by apply bind_raise. }
  exists s', (prelude dev rawdata s ++ tr1 ++ tr3), k. split_and!.
  - done.
  - rewrite Htr3, Htr1, Ht. by rewrite <- !app_assoc.
  - by rewrite <- Hsn.
  - rewrite !logged_app, Hlg3, !elem_of_app. do 2 right. apply list_elem_of_here.
  - rewrite Hh3, Hh1, Hhp. by rewrite !lookup_alter_eq, Hd.
  - intros fuel. by apply read_loop_break.
Qed.

(** ** The outer loop *)

Lemma bind_ext {A B} (m : M A) (f g : A -> M B) s :
  (forall a s', f a s' = g a s') -> bind m f s = bind m g s.
Proof. intros H. unfold bind. destruct (m s); [apply H|done|done]. Qed.

Lemma loop_while_S w fuel s :
  loop_while w (S fuel) s =
    if (0 <? length (listeners s))%nat
    then (cycle w fuel >> loop_while w fuel) s
    else Ok tt s.
Proof.
  cbn [loop_while]. rewrite bind_get.
  destruct (0 <? length (listeners s))%nat; [|reflexivity].
  unfold cycle. rewrite bind_assoc. apply bind_ext. intros _ s1.
  rewrite bind_assoc. apply bind_ext. intros _ s2.
  rewrite bind_assoc. apply bind_ext. intros now s3.
  by rewrite bind_assoc.
Qed.

Lemma bind_Ok_inv {A B} (m : M A) (k : A -> M B) s b s' :
  bind m k s = Ok b s' -> exists a s1, m s = Ok a s1 /\ k a s1 = Ok b s'.
Proof. unfold bind. destruct (m s) as [a s1| |]; [|done|done]. by exists a, s1. Qed.


(** The loop stops once the listeners have unregistered: in the world
    [faulty_listener] both do so during the pause of the first cycle, and
    the loop returns after that cycle. *)
Example loop_stops_after_unregister :
  exists s', loop (faulty_listener frame1) 5 (logger [(1%nat, 0)] [1%nat; 2%nat] true ∅)
             = Ok tt s' /\ listeners s' = [].
Proof. eexists. split; [vm_compute; reflexivity|reflexivity]. Qed.

(** C3, on the code.  Devices 1 and 2 are active, device 1 has 10 errors
    and its write fails once more: the pass over the devices removes
    device 1 inside the loop and ends without having polled device 2 (the
    only transport operation is the write to device 1).  In the same way
    [initializeDevices] drops device 1 when its endpoints cannot be
    negotiated, and never configures device 2, which stays in the active
    set without endpoint addresses. *)
Theorem removal_skips_next_device :
  (exists s',
     for_devices (dead_device no_data) 10 0
       (logger [(1%nat, 10); (2%nat, 0)] [1%nat] true ∅) = Ok tt s' /\
     devices s' = [2%nat] /\
     transport_ops (trace s') = [EvWrite 1 (3 :: replicate 63 0)]) /\
  (exists s',
     (let! _b := findDevices (stubborn_device no_data) in
      initializeDevices (stubborn_device no_data) 10) TLX00_init = Ok tt s' /\
     devices s' = [2%nat] /\
     transport_ops (trace s') = [EvFind; EvConfigure 1; EvReset 1] /\
     heap s' !! 2%nat = Some fresh_device).
Proof.
  split; eexists; (split; [vm_compute; reflexivity|]); by vm_compute.
Qed.

(** C1 fails on the code.  Listeners 1 and 2 are registered, the device
    answers [frame1], listener 1 raises on the datapoint: over the whole
    run of [loop] the only delivery is the faulty one to listener 1, and
    listener 2 has received nothing. *)
Lemma listener_fault_counterexample :
  exists s',
    loop (faulty_listener frame1) 5 (logger [(1%nat, 0)] [1%nat; 2%nat] true ∅)
      = Ok tt s' /\
    deliveries (trace s') = [(1%nat, dp5, false)] /\
    ~ (exists ok, (2%nat, dp5, ok) ∈ deliveries (trace s')).
Proof.
  eexists. split; [vm_compute; reflexivity|]. split; [by vm_compute|].
  intros (ok & H). vm_compute in H.
  apply list_elem_of_singleton in H. discriminate.
Qed.

(** C2 fails on the code.  Detection is off, sensor 4 is registered,
    sensor 5 is not, and the device answers a frame with a record of each:
    the record of sensor 4 is built but nothing is delivered to the
    listeners, and the device has one error counted. *)
Lemma unknown_sensor_counterexample :
  exists s',
    poll (calm frame45) 1 (logger [(1%nat, 0)] [1%nat; 2%nat] false {[4 := sensor4]})
      = Ok Break s' /\
    records (trace s') = [(0, dp4)] /\
    deliveries (trace s') = [] /\
    deviceErrors <$> heap s' !! 1%nat = Some 1.
Proof.
  eexists. split; [vm_compute; reflexivity|]. by vm_compute.
Qed.

(** C4 fails on the code: [parseData] itself has no test of the first two
    bytes, and returns the record that follows them. *)
Lemma parseData_zero_head_counterexample :
  is_frame frame0 = true /\ frame0 !! 0%nat = Some 0 /\ frame0 !! 1%nat = Some 0 /\
  exists s', parseData frame0 TLX00_init = Ok [dp5] s'.
Proof.
  split_and!; try reflexivity. eexists. vm_compute. reflexivity.
Qed.

(** C8 fails on the code: an exchange that succeeds with "no new data"
    leaves the five errors counted before. *)
Lemma no_reset_counterexample :
  exists s',
    poll (calm no_data) 1 (logger [(1%nat, 5)] [1%nat] true ∅) = Ok Break s' /\
    transport_ops (trace s') = [EvWrite 1 (3 :: replicate 63 0); EvRead 1] /\
    logged (trace s') = [] /\
    deviceErrors <$> heap s' !! 1%nat = Some 5.
Proof.
  eexists. split; [vm_compute; reflexivity|]. by vm_compute.
Qed.

(** Eleven failing polls in a row remove the device, and only it. *)
Example eleven_failures :
  (exists s', polls (dead_device no_data) 10 1
                (logger [(1%nat, 0); (2%nat, 0)] [1%nat] true ∅) = Ok tt s' /\
              devices s' = [1%nat; 2%nat]) /\
  (exists s', polls (dead_device no_data) 11 1
                (logger [(1%nat, 0); (2%nat, 0)] [1%nat] true ∅) = Ok tt s' /\
              devices s' = [2%nat]).
Proof.
  split; eexists; (split; [vm_compute; reflexivity|reflexivity]).
Qed.

(** ** The theorems at work *)

Lemma parseData_total_witness :
  is_frame frame2 = true /\ detectUnknownSensors TLX00_init = true /\
  exists dps s' tr,
    parseData frame2 TLX00_init = Ok dps s' /\ trace s' = trace TLX00_init ++ tr /\
    Forall (fun i => 0 <= i <= 63) (indices tr) /\
    Forall (fun p => 0 <= p <= 63) (scans tr) /\
    Forall (fun r => 0 <= r.1 <= 54) (records tr).
Proof.
  split; [reflexivity|]. split; [reflexivity|].
  exact (parseData_total frame2 TLX00_init eq_refl eq_refl).
Defined.

Lemma parseData_advance_witness :
  is_frame frame2 = true /\
  exists s' tr,
    state_of (parseData frame2 TLX00_init) = Some s' /\
    trace s' = trace TLX00_init ++ tr /\
    (detectUnknownSensors TLX00_init = true ->
     exists dps, parseData frame2 TLX00_init = Ok dps s') /\
    forall dps, parseData frame2 TLX00_init = Ok dps s' ->
    forall l1 p l2,
      scans tr = l1 ++ p :: l2 ->
      (byte_at frame2 p = 9 \/ byte_at frame2 p = 10) -> p < 55 ->
      (exists l2', l2 = (p + 9) :: l2') /\
      exists dp, (p, dp) ∈ records tr /\ dp ∈ dps /\
        dp_signal dp = (if byte_at frame2 p =? 10
                        then Some (from_bytes_little [byte_at frame2 (p + 9)])
                        else None).
Proof.
  split; [reflexivity|].
  exact (parseData_advance frame2 TLX00_init eq_refl).
Defined.

(** On [frame2] the marker 10 at position 0 is followed by scan position
    9, the byte that was read as the signal, and then by the sentinel. *)
Example advance_example :
  exists dps s', parseData frame2 TLX00_init = Ok dps s' /\
    scans (trace s') = [0; 9; 10] /\
    indices (trace s') = [0; 1; 2; 3; 4; 5; 6; 7; 8; 9; 9; 10] /\
    map dp_signal dps = [Some 99].
Proof. eexists _, _. split; [vm_compute; reflexivity|]. by vm_compute. Qed.

Lemma parseData_sentinel_witness :
  is_frame frame2 = true /\
  exists s' tr,
    state_of (parseData frame2 TLX00_init) = Some s' /\
    trace s' = trace TLX00_init ++ tr /\
    forall q, q ∈ scans tr -> byte_at frame2 q = 255 ->
      (exists l1, scans tr = l1 ++ [q] /\ Forall (fun x => x < q) l1) /\
      forall dps, parseData frame2 TLX00_init = Ok dps s' ->
        dps = map snd (records tr) /\ Forall (fun r => r.1 < q) (records tr).
Proof.
  split; [reflexivity|].
  exact (parseData_sentinel frame2 TLX00_init eq_refl).
Defined.

Lemma ready_logger dev errs rest ls detect reg :
  ready dev (logger ((dev, errs) :: rest) ls detect reg).
Proof.
  split; [simpl; lia|]. exists (device_at errs), 1, 129.
  split; [|done]. unfold logger. norm. simpl. apply lookup_insert_eq.
Qed.

Lemma poll_no_new_data_witness :
  ready 1 (logger [(1%nat, 0)] [1%nat] true ∅) /\
  no_data !! 0%nat = Some 0 /\ no_data !! 1%nat = Some 0 /\
  exists s' tr,
    poll (calm no_data) 1 (logger [(1%nat, 0)] [1%nat] true ∅) = Ok Break s' /\
    (forall fuel, read_loop (calm no_data) (S fuel) 1
                    (logger [(1%nat, 0)] [1%nat] true ∅) = Ok tt s') /\
    trace s' = trace (logger [(1%nat, 0)] [1%nat] true ∅) ++ tr /\
    scans tr = [] /\ records tr = [] /\ deliveries tr = [] /\
    heap s' = heap (logger [(1%nat, 0)] [1%nat] true ∅) /\
    devices s' = devices (logger [(1%nat, 0)] [1%nat] true ∅) /\
    sensors s' = sensors (logger [(1%nat, 0)] [1%nat] true ∅).
Proof.
  split; [apply ready_logger|]. split; [reflexivity|]. split; [reflexivity|].
  exact (poll_no_new_data (calm no_data) 1 (logger [(1%nat, 0)] [1%nat] true ∅) no_data
           (ready_logger _ _ _ _ _ _) eq_refl eq_refl eq_refl eq_refl eq_refl).
Defined.

Lemma deviceErrors_policy_witness :
  ready 1 (logger [(1%nat, 10); (2%nat, 0)] [1%nat] true ∅) /\
  heap (logger [(1%nat, 10); (2%nat, 0)] [1%nat] true ∅) !! 1%nat = Some (device_at 10) /\
  1%nat ∈ devices (logger [(1%nat, 10); (2%nat, 0)] [1%nat] true ∅) /\
  exists s',
    poll (dead_device no_data) 1 (logger [(1%nat, 10); (2%nat, 0)] [1%nat] true ∅)
      = Ok Break s' /\
    deviceErrors <$> heap s' !! 1%nat = Some (deviceErrors (device_at 10) + 1) /\
    (forall d', d' <> 1%nat ->
       heap s' !! d' = heap (logger [(1%nat, 10); (2%nat, 0)] [1%nat] true ∅) !! d') /\
    (deviceErrors (device_at 10) + 1 <= 10 ->
       devices s' = devices (logger [(1%nat, 10); (2%nat, 0)] [1%nat] true ∅)) /\
    (10 < deviceErrors (device_at 10) + 1 ->
       list_remove 1 (devices (logger [(1%nat, 10); (2%nat, 0)] [1%nat] true ∅))
         = Some (devices s') /\
       (forall d', d' <> 1%nat ->
          d' ∈ devices (logger [(1%nat, 10); (2%nat, 0)] [1%nat] true ∅) ->
          d' ∈ devices s') /\
       (NoDup (devices (logger [(1%nat, 10); (2%nat, 0)] [1%nat] true ∅)) ->
        1%nat ∉ devices s')).
Proof.
  assert (Hin : 1%nat ∈ devices (logger [(1%nat, 10); (2%nat, 0)] [1%nat] true ∅))
    by apply list_elem_of_here.
  split; [apply ready_logger|]. split; [reflexivity|]. split; [exact Hin|].
  exact (proj1 (deviceErrors_policy (dead_device no_data) 1
                  (logger [(1%nat, 10); (2%nat, 0)] [1%nat] true ∅) (device_at 10)
                  (ready_logger _ _ _ _ _ _) eq_refl Hin)
               (or_introl eq_refl)).
Defined.

Lemma listener_fault_contained_witness :
  ready 1 (logger [(1%nat, 0)] [1%nat; 2%nat] true ∅) /\
  is_frame frame1 = true /\ no_new_data frame1 = false /\
  exists fl s' tr,
    poll (faulty_listener frame1) 1 (logger [(1%nat, 0)] [1%nat; 2%nat] true ∅)
      = Ok fl s' /\
    trace s' = trace (logger [(1%nat, 0)] [1%nat; 2%nat] true ∅) ++ tr /\
    forall l dp, (l, dp, false) ∈ deliveries tr ->
      fl = Break /\ LogUnableToRead ListenerFault ∈ logged tr /\
      exists dps1 dps2 ls1 ls2,
        map snd (records tr) = dps1 ++ dp :: dps2 /\
        run_ops (w_sleep (faulty_listener frame1)
                   (S (tick (logger [(1%nat, 0)] [1%nat; 2%nat] true ∅))))
                (listeners (logger [(1%nat, 0)] [1%nat; 2%nat] true ∅))
          = ls1 ++ l :: ls2 /\
        deliveries tr =
          flat_map (served (ls1 ++ l :: ls2)) dps1 ++ served ls1 dp ++ [(l, dp, false)].
Proof.
  split; [apply ready_logger|]. split; [reflexivity|]. split; [reflexivity|].
  exact (listener_fault_contained (faulty_listener frame1) 1
           (logger [(1%nat, 0)] [1%nat; 2%nat] true ∅) (device_at 0) frame1
           (ready_logger _ _ _ _ _ _) eq_refl (list_elem_of_here _ _)
           eq_refl eq_refl eq_refl eq_refl).
Defined.

Lemma unknown_sensor_fails_poll_witness :
  ready 1 (logger [(1%nat, 0)] [1%nat; 2%nat] false {[4 := sensor4]}) /\
  is_frame frame45 = true /\ no_new_data frame45 = false /\
  sensors (logger [(1%nat, 0)] [1%nat; 2%nat] false {[4 := sensor4]}) !! 5 = None /\
  exists s' tr k,
    poll (calm frame45) 1 (logger [(1%nat, 0)] [1%nat; 2%nat] false {[4 := sensor4]})
      = Ok Break s' /\
    trace s' = trace (logger [(1%nat, 0)] [1%nat; 2%nat] false {[4 := sensor4]}) ++ tr /\
    sensors (logger [(1%nat, 0)] [1%nat; 2%nat] false {[4 := sensor4]}) !! k = None /\
    LogUnableToRead (KeyError k) ∈ logged tr /\
    deviceErrors <$> heap s' !! 1%nat = Some (deviceErrors (device_at 0) + 1) /\
    (forall fuel,
       read_loop (calm frame45) (S fuel) 1
         (logger [(1%nat, 0)] [1%nat; 2%nat] false {[4 := sensor4]}) = Ok tt s').
Proof.
  split; [apply ready_logger|]. split; [reflexivity|]. split; [reflexivity|].
  split; [reflexivity|].
  eapply (unknown_sensor_fails_poll (calm frame45) 1
            (logger [(1%nat, 0)] [1%nat; 2%nat] false {[4 := sensor4]})
            (device_at 0) frame45 TLX00_init).
  - apply ready_logger.
  - reflexivity.
  - apply list_elem_of_here.
  - reflexivity.
  - reflexivity.
  - reflexivity.
  - reflexivity.
  - reflexivity.
  - vm_compute. reflexivity.
  - apply list_elem_of_further, list_elem_of_here.
  - reflexivity.
Defined.

(** * Further properties *)

(** ** The registry *)

(** X1.  [addSensor] registers exactly one sensor under the id, for every
    integer id: a temperature sensor when the id is even, a humidity
    sensor when it is odd.  An entry already there is replaced, the other
    entries and the rest of the logger are left alone. *)
Theorem addSensor_registers (sensorid : Z) (name sensortype : string) (s : TLX00) :
  exists s',
    addSensor sensorid name sensortype s = Ok tt s' /\
    sensors s' =
      <[sensorid := mkSensor (if Z.even sensorid then Temperature else Humidity)
                             sensorid sensortype name]> (sensors s) /\
    (forall k, k <> sensorid -> sensors s' !! k = sensors s !! k) /\
    devices s' = devices s /\ listeners s' = listeners s /\ heap s' = heap s /\
    transport_ops (trace s') = transport_ops (trace s).
Proof.
  unfold addSensor.
  pose proof (Z.mod_pos_bound sensorid 2 ltac:(lia)) as Hm.
  rewrite Zeven_mod.
  destruct (Z.eqb_spec (sensorid mod 2) 0) as [E0|E0].
  - rewrite E0. change (0 =? 1) with false. cbv iota.
    eexists. split; [reflexivity|]. norm.
    split_and!; try done.
    + intros k Hk. by rewrite lookup_insert_ne.
    + by rewrite transport_ops_app, app_nil_r.
  - destruct (Z.eqb_spec (sensorid mod 2) 1) as [E1|E1]; [|lia].
    eexists. split; [reflexivity|]. norm.
    split_and!; try done.
    + intros k Hk. by rewrite lookup_insert_ne.
    + by rewrite transport_ops_app, app_nil_r.
Qed.

(** X2.  With detection on, the lookup of a datapoint's sensor never
    fails and never replaces a registered sensor: a known id gives its
    sensor and leaves the logger as it is, an unknown id gives the guessed
    sensor and registers it; asking again gives the same sensor and
    changes nothing. *)
Theorem resolve_stable (k : Z) (s : TLX00) :
  detectUnknownSensors s = true ->
  exists x s1,
    resolve k s = Ok x s1 /\
    sensors s ⊆ sensors s1 /\ sensors s1 !! k = Some x /\
    (forall y, sensors s !! k = Some y -> x = y /\ s1 = s) /\
    (sensors s !! k = None -> x = guess k /\ sensors s1 = <[k := guess k]> (sensors s)) /\
    resolve k s1 = Ok x s1.
Proof.
  intros Hd. destruct (sensors s !! k) as [y|] eqn:Hk.
  - exists y, s. rewrite (resolve_known _ _ _ Hk). split_and!; try done.
    intros y' [= <-]. done.
  - eexists _, _. rewrite (resolve_unknown_on _ _ Hd Hk). split_and!; try done.
    + norm. by apply insert_subseteq.
    + norm. by rewrite lookup_insert_eq.
    + apply resolve_known. norm. by rewrite lookup_insert_eq.
Qed.

Lemma resolve_stable_witness :
  detectUnknownSensors TLX00_init = true /\
  exists x s1,
    resolve 5 TLX00_init = Ok x s1 /\
    sensors TLX00_init ⊆ sensors s1 /\ sensors s1 !! 5 = Some x /\
    (forall y, sensors TLX00_init !! 5 = Some y -> x = y /\ s1 = TLX00_init) /\
    (sensors TLX00_init !! 5 = None ->
     x = guess 5 /\ sensors s1 = <[5 := guess 5]> (sensors TLX00_init)) /\
    resolve 5 s1 = Ok x s1.
Proof.
  split; [reflexivity|]. exact (resolve_stable 5 TLX00_init eq_refl).
Defined.

(** ** The parser *)

Lemma scan_chain_starts_apart strict data pos l :
  scan_chain strict data pos l ->
  all_apart (filter (fun p => starts_record data p = true) l).
Proof.
  induction 1 as [| |pos l Hlt Hb Hc IH|pos Hlt Hb
                  |pos l Hlt H0 H255 Hst Hc IH|pos l Hlt H0 H255 Hst Hc IH].
  - done.
  - done.
  - rewrite filter_cons_False; [done|].
    unfold starts_record, is_marker. by rewrite Hb.
  - rewrite filter_cons_False; [done|].
    unfold starts_record, is_marker. by rewrite Hb.
  - rewrite filter_cons_True by done. split; [|done].
    apply scan_chain_gt in Hc. apply Forall_forall. intros x Hx.
    apply list_elem_of_filter in Hx as [_ Hx].
    rewrite Forall_forall in Hc. specialize (Hc x Hx). unfold apart. lia.
  - rewrite filter_cons_False; [done|]. by rewrite Hst.
Qed.

Lemma Forall2_fst_snd {A B} (P : A -> B -> Prop) (l : list (A * B)) :
  Forall (fun r => P r.1 r.2) l -> Forall2 P (map fst l) (map snd l).
Proof. induction 1; constructor; done. Qed.

(** X3.  The datapoints [parseData] returns for a 64-byte frame are, in
    order, the records of the start marks it met while scanning: each
    starts at a position 0..54 that holds 9 or 10 and is decoded from the
    bytes after it (sensor id little-endian, raw value big-endian,
    timestamp little-endian plus the epoch offset, signal only after a
    mark 10), and two records never overlap: their starts are at least
    nine positions apart. *)
Theorem parseData_records (data : list Z) (s : TLX00) (dps : list DataPoint)
    (s' : TLX00) :
  is_frame data = true -> parseData data s = Ok dps s' ->
  exists tr starts,
    trace s' = trace s ++ tr /\
    starts = filter (fun p => starts_record data p = true) (scans tr) /\
    all_apart starts /\
    Forall2 (fun p dp =>
               0 <= p <= 54 /\ (byte_at data p = 9 \/ byte_at data p = 10) /\
               record_ok data (p, dp)) starts dps.
Proof.
  intros Hf Hp. pose proof (parseData_post data s Hf) as Hpost.
  rewrite Hp in Hpost.
  destruct Hpost as (tr & Ht & _ & Hdps & Hc & _ & Hr & Hok & _).
  exists tr, (map fst (records tr)). split_and!; try done.
  - rewrite Hr. by eapply scan_chain_starts_apart.
  - simpl in Hdps. subst dps. apply Forall2_fst_snd.
    apply Forall_forall. intros [p dp] Hin.
    assert (Hp' : p ∈ map fst (records tr)).
    { apply list_elem_of_fmap. by exists (p, dp). }
    rewrite Hr in Hp'. apply list_elem_of_filter in Hp' as [Hst Hsc].
    apply scan_chain_gt in Hc. rewrite Forall_forall in Hc. rewrite Forall_forall in Hok.
    specialize (Hc p Hsc). specialize (Hok _ Hin).
    unfold starts_record, is_marker in Hst.
    apply andb_prop in Hst as [Hm H55]. apply Z.ltb_lt in H55.
    apply orb_prop in Hm. simpl. split_and!; [lia|lia| |done].
    destruct Hm as [Hm|Hm]; apply Z.eqb_eq in Hm; [by left|by right].
Qed.

Lemma parseData_records_witness :
  is_frame frame45 = true /\
  exists dps s',
    parseData frame45 TLX00_init = Ok dps s' /\
    exists tr starts,
      trace s' = trace TLX00_init ++ tr /\
      starts = filter (fun p => starts_record frame45 p = true) (scans tr) /\
      all_apart starts /\
      Forall2 (fun p dp =>
                 0 <= p <= 54 /\ (byte_at frame45 p = 9 \/ byte_at frame45 p = 10) /\
                 record_ok frame45 (p, dp)) starts dps.
Proof.
  split; [reflexivity|]. eexists _, _. split; [vm_compute; reflexivity|].
  eapply parseData_records; [reflexivity|vm_compute; reflexivity].
Defined.

(** On [frame45] the two records start at 0 and 9. *)
Example records_example :
  exists dps s', parseData frame45 TLX00_init = Ok dps s' /\
    map fst (records (trace s')) = [0; 9] /\
    map dp_sensorid dps = [4; 5] /\ map dp_rawvalue dps = [42; 43].
Proof. eexists _, _. split; [vm_compute; reflexivity|]. by vm_compute. Qed.

Lemma byte_at_range data p :
  is_frame data = true -> 0 <= byte_at data p < 256.
Proof.
  unfold is_frame, byte_at. intros H. apply andb_prop in H as [_ H].
  destruct (data !! Z.to_nat p) as [b|] eqn:E; simpl; [|lia].
  rewrite forallb_forall in H. apply list_elem_of_lookup_2, list_elem_of_In in E.
  specialize (H b E). apply andb_prop in H as [H1 H2].
  apply Z.leb_le in H1. apply Z.ltb_lt in H2. lia.
Qed.

(** X4.  Every datapoint decoded from a 64-byte frame of bytes has its
    fields in the ranges of the wire format: sensor id and raw value in
    0..65535, timestamp between the epoch offset and the offset plus
    2^32 - 1, signal (when present) in 0..255. *)
Theorem parseData_ranges (data : list Z) (s : TLX00) (dps : list DataPoint) (s' : TLX00) :
  is_frame data = true -> parseData data s = Ok dps s' -> Forall in_ranges dps.
Proof.
  intros Hf Hp. pose proof (parseData_post data s Hf) as Hpost.
  rewrite Hp in Hpost.
  destruct Hpost as (tr & _ & _ & Hdps & _ & _ & _ & Hok & _).
  simpl in Hdps. subst dps. apply Forall_fmap.
  eapply Forall_impl; [exact Hok|]. intros [p dp] (E1 & E2 & E3 & E4). simpl in *.
  pose proof (byte_at_range data (p + 1) Hf). pose proof (byte_at_range data (p + 2) Hf).
  pose proof (byte_at_range data (p + 3) Hf). pose proof (byte_at_range data (p + 4) Hf).
  pose proof (byte_at_range data (p + 5) Hf). pose proof (byte_at_range data (p + 6) Hf).
  pose proof (byte_at_range data (p + 7) Hf). pose proof (byte_at_range data (p + 8) Hf).
  pose proof (byte_at_range data (p + 9) Hf).
  unfold in_ranges. rewrite E1, E2, E3, E4. unfold from_bytes_big. simpl.
  split_and!; try lia.
  intros sg. destruct (byte_at data p =? 10); [|done]. intros [= <-]. lia.
Qed.

Lemma parseData_ranges_witness :
  is_frame frame45 = true /\
  exists dps s', parseData frame45 TLX00_init = Ok dps s' /\ Forall in_ranges dps.
Proof.
  split; [reflexivity|]. eexists _, _. split; [vm_compute; reflexivity|].
  eapply (parseData_ranges frame45 TLX00_init); [reflexivity|vm_compute; reflexivity].
Defined.

(** X5.  What [parseData] does to the logger on a 64-byte frame: the
    registry only grows (and stays as it is with detection off), every
    datapoint returned carries the sensor the registry holds for its id,
    a sensor registered before is used as it is, and devices, listeners,
    device objects and the environment are not touched: no transfer, no
    delivery, no question asked. *)
Theorem parseData_registry (data : list Z) (s : TLX00) (dps : list DataPoint)
    (s' : TLX00) :
  is_frame data = true -> parseData data s = Ok dps s' ->
  sensors s ⊆ sensors s' /\
  Forall (fun dp => sensors s' !! dp_sensorid dp = Some (dp_sensor dp)) dps /\
  (forall dp x, dp ∈ dps -> sensors s !! dp_sensorid dp = Some x -> dp_sensor dp = x) /\
  (detectUnknownSensors s = false -> sensors s' = sensors s) /\
  devices s' = devices s /\ listeners s' = listeners s /\ heap s' = heap s /\
  tick s' = tick s /\
  transport_ops (trace s') = transport_ops (trace s) /\
  deliveries (trace s') = deliveries (trace s).
Proof.
  intros Hf Hp. pose proof (parseData_post data s Hf) as Hpost.
  rewrite Hp in Hpost.
  destruct Hpost as (tr & Ht & (Hdv & Hls & _ & _ & _ & Hhp & Htk) & Hdps & _ & _ & _ & _
                       & Hsub & Hoff & Hreg & Hdel & Hto).
  simpl in Hdps. subst dps.
  assert (Hall : Forall (fun dp => sensors s' !! dp_sensorid dp = Some (dp_sensor dp))
                        (map snd (records tr))).
  { apply Forall_fmap. eapply Forall_impl; [exact Hreg|]. by intros [p dp]. }
  split_and!; try done.
  - intros dp x Hin Hx. rewrite Forall_forall in Hall. specialize (Hall dp Hin).
    eapply lookup_weaken in Hx; [|exact Hsub]. congruence.
  - by rewrite Ht, transport_ops_app, Hto, app_nil_r.
  - by rewrite Ht, deliveries_app, Hdel, app_nil_r.
Qed.

Lemma parseData_registry_witness :
  is_frame frame45 = true /\
  exists dps s',
    parseData frame45 (logger [] [] true {[4 := sensor4]}) = Ok dps s' /\
    sensors (logger [] [] true {[4 := sensor4]}) ⊆ sensors s' /\
    Forall (fun dp => sensors s' !! dp_sensorid dp = Some (dp_sensor dp)) dps.
Proof.
  split; [reflexivity|]. eexists _, _. split; [vm_compute; reflexivity|].
  refine (let H := parseData_registry frame45 (logger [] [] true {[4 := sensor4]}) _ _
                     eq_refl _ in conj (proj1 H) (proj1 (proj2 H))).
  vm_compute. reflexivity.
Defined.

Lemma getitem_out_of_range data i s :
  Z.of_nat (length data) <= i ->
  getitem data i s = Raise IndexError (add_event (EvIndex i) s).
Proof.
  intros Hi. unfold getitem. rewrite bind_emit.
  destruct (Z.ltb_spec i 0) as [?|_]; [lia|].
  destruct (Z.ltb_spec i 0) as [?|_]; [lia|].
  rewrite (lookup_ge_None_2 data (Z.to_nat i)) by lia. reflexivity.
Qed.

(** One read in the scan of a short response: in range it goes on, out of
    range it raises and the scan is over. *)
Ltac read_or_raise L :=
  match goal with
  | |- exists s', bind (getitem ?data ?i) _ ?st = Raise IndexError s' =>
    destruct (Z_lt_le_dec i (Z.of_nat L)) as [?|?];
    [rewrite (bind_getitem data i) by lia
    |erewrite bind_raise by (apply getitem_out_of_range; lia); by eexists]
  end.

Lemma parse_while_short fuel : forall data pos acc s,
  (length data < 64)%nat -> (forall b, b ∈ data -> b <> 255) ->
  detectUnknownSensors s = true ->
  -1 <= pos -> pos + 1 <= Z.of_nat (length data) ->
  (Z.to_nat (Z.of_nat (length data) - pos) <= fuel)%nat ->
  exists s', parse_while fuel data pos acc s = Raise IndexError s'.
Proof.
  induction fuel as [|fuel IH]; intros data pos acc s Hlen H255 Hdet Hpos Hend Hfuel;
    [lia|].
  rewrite parse_while_S.
  destruct (Z.ltb_spec pos 63) as [_|?]; [|lia]. cbv zeta.
  rewrite bind_emit.
  read_or_raise (length data).
  set (p := pos + 1) in *. set (b := byte_at data p).
  assert (Hb : b <> 255).
  { apply H255. unfold b, byte_at.
    destruct (lookup_lt_is_Some_2 data (Z.to_nat p)) as [x Hx]; [lia|].
    rewrite Hx. simpl. by eapply list_elem_of_lookup_2. }
  destruct (Z.eqb_spec b 0) as [Hb0|Hb0].
  { apply IH; try done; lia. }
  destruct (Z.eqb_spec b 255) as [?|_]; [done|].
  destruct (((b =? 9) || (b =? 10)) && (p <? 55)) eqn:Hrec; cycle 1.
  { apply IH; try done; lia. }
  do 8 read_or_raise (length data).
  destruct (b =? 10) eqn:Hb10.
  - rewrite bind_assoc. read_or_raise (length data). rewrite bind_ret.
    match goal with
    | |- context [bind (resolve ?k) _ ?st] =>
      destruct (resolve_detect k st Hdet) as (x & s4 & Hres & Hd4 & _)
    end.
    rewrite (bind_ok _ _ _ _ _ Hres), bind_emit.
    apply IH; try done; lia.
  - rewrite bind_ret.
    match goal with
    | |- context [bind (resolve ?k) _ ?st] =>
      destruct (resolve_detect k st Hdet) as (x & s4 & Hres & Hd4 & _)
    end.
    rewrite (bind_ok _ _ _ _ _ Hres), bind_emit.
    apply IH; try done; lia.
Qed.

(** X6.  A response of fewer than 64 bytes that holds no 255 makes
    [parseData] raise [IndexError] (detection on): the scan runs off the
    end of the data, in a record or at a scan position, and no datapoint
    is returned.  The response is a list of bytes, as [dev.read] gives
    it. *)
Theorem parseData_short_response (data : list Z) (s : TLX00) :
  is_bytes data = true ->
  (length data < 64)%nat -> (forall b, b ∈ data -> b <> 255) ->
  detectUnknownSensors s = true ->
  exists s', parseData data s = Raise IndexError s'.
Proof.
  intros _ Hlen H255 Hdet. apply parse_while_short; try done; lia.
Qed.

Lemma parseData_short_response_witness :
  is_bytes [9; 5; 0; 0; 42] = true /\
  (length [9; 5; 0; 0; 42] < 64)%nat /\ detectUnknownSensors TLX00_init = true /\
  exists s', parseData [9; 5; 0; 0; 42] TLX00_init = Raise IndexError s'.
Proof.
  assert (Hlen : (length [9; 5; 0; 0; 42] < 64)%nat) by (simpl; lia).
  split; [reflexivity|]. split; [exact Hlen|]. split; [reflexivity|].
  apply (parseData_short_response [9; 5; 0; 0; 42] TLX00_init eq_refl Hlen);
    [|reflexivity].
  intros b Hb. repeat (apply elem_of_cons in Hb as [->|Hb]; [done|]).
  by apply elem_of_nil in Hb.
Defined.

(** ** The fan-out and the listener list *)

(** X7.  When no listener raises, [notify] hands every datapoint to every
    registered listener exactly once, datapoint after datapoint in the
    order of the records and, for each, listener after listener in the
    order of registration; nothing but the deliveries happens. *)
Theorem notify_in_order (w : World) (dps : list DataPoint) (s : TLX00) :
  (forall t l dp, w_onNewData w t l dp = true) ->
  exists s',
    notify w dps s = Ok tt s' /\
    deliveries (trace s') =
      deliveries (trace s) ++ flat_map (served (listeners s)) dps /\
    transport_ops (trace s') = transport_ops (trace s) /\
    logged (trace s') = logged (trace s) /\
    only_talk s s'.
Proof.
  intros Hok. destruct (notify_all_ok w dps Hok s) as (s' & Hn).
  pose proof (notify_run w dps s) as Hp. rewrite Hn in Hp. simpl in Hp.
  destruct Hp as (Ht & tr & Htr & (_ & _ & _ & Hlg & Hto) & Hdel).
  exists s'. split_and!; try done.
  - by rewrite Htr, deliveries_app, Hdel.
  - by rewrite Htr, transport_ops_app, Hto, app_nil_r.
  - by rewrite Htr, logged_app, Hlg, app_nil_r.
Qed.

Lemma notify_in_order_witness :
  exists s',
    notify (calm no_data) [dp4; dp5] (logger [] [7%nat; 8%nat] true ∅) = Ok tt s' /\
    deliveries (trace s') =
      deliveries (trace (logger [] [7%nat; 8%nat] true ∅)) ++
      flat_map (served (listeners (logger [] [7%nat; 8%nat] true ∅))) [dp4; dp5] /\
    transport_ops (trace s') = transport_ops (trace (logger [] [7%nat; 8%nat] true ∅)) /\
    logged (trace s') = logged (trace (logger [] [7%nat; 8%nat] true ∅)) /\
    only_talk (logger [] [7%nat; 8%nat] true ∅) s'.
Proof.
  exact (notify_in_order (calm no_data) [dp4; dp5] (logger [] [7%nat; 8%nat] true ∅)
           (fun _ _ _ => eq_refl)).
Defined.

Lemma list_remove_absent (x : nat) (l : list nat) : x ∉ l -> list_remove x l = None.
Proof.
  induction l as [|y l IH]; intros Hx; [done|]. simpl.
  apply not_elem_of_cons in Hx as [Hne Hx].
  destruct (Nat.eqb_spec x y); [done|]. by rewrite IH.
Qed.

Lemma list_remove_first (x : nat) (l1 l2 : list nat) :
  x ∉ l1 -> list_remove x (l1 ++ x :: l2) = Some (l1 ++ l2).
Proof.
  induction l1 as [|y l1 IH]; intros Hx; simpl.
  - by rewrite Nat.eqb_refl.
  - apply not_elem_of_cons in Hx as [Hne Hx].
    destruct (Nat.eqb_spec x y); [done|]. by rewrite IH.
Qed.

(** X8.  [unregisterDataListener] never fails: a listener that is not
    registered leaves the logger as it is; otherwise only the first
    registration of the listener is dropped, so a listener registered
    twice is still registered once.  [registerDataListener] appends, also
    when the listener is already there, and unregistering right after
    registering a new listener gives the list back. *)
Theorem unregister_first_only (l : nat) (s : TLX00) :
  (l ∉ listeners s -> unregisterDataListener l s = Ok tt s) /\
  (forall l1 l2, listeners s = l1 ++ l :: l2 -> l ∉ l1 ->
     unregisterDataListener l s = Ok tt (set_listeners (l1 ++ l2) s)) /\
  registerDataListener l s = Ok tt (set_listeners (listeners s ++ [l]) s) /\
  (l ∉ listeners s ->
   (registerDataListener l >> unregisterDataListener l) s = Ok tt s).
Proof.
  split_and!.
  - intros Hl. unfold unregisterDataListener, modify.
    by rewrite list_remove_absent.
  - intros l1 l2 E Hl. unfold unregisterDataListener, modify.
    by rewrite E, list_remove_first.
  - reflexivity.
  - intros Hl. unfold registerDataListener. rewrite bind_modify.
    unfold unregisterDataListener, modify. norm.
    rewrite list_remove_first by done. rewrite app_nil_r.
    by destruct s.
Qed.

(** ** Methods that keep a relation between the states *)

Section Keeps.

Variable P : TLX00 -> TLX00 -> Prop.
Hypothesis P_refl : forall s, P s s.
Hypothesis P_trans : forall s1 s2 s3, P s1 s2 -> P s2 s3 -> P s1 s3.

Lemma keeps_ret {A} (a : A) : keeps P (ret a).
Proof. intros s. apply P_refl. Qed.

Lemma keeps_raise {A} e : keeps P (@raise A e).
Proof. intros s. apply P_refl. Qed.

Lemma keeps_get : keeps P get.
Proof. intros s. apply P_refl. Qed.

Lemma keeps_bind {A B} (m : M A) (k : A -> M B) :
  keeps P m -> (forall a, keeps P (k a)) -> keeps P (bind m k).
Proof.
  intros Hm Hk s. unfold bind. specialize (Hm s).
  destruct (m s) as [a s1|e s1|]; [|done|done].
  specialize (Hk a s1). destruct (k a s1); eauto.
Qed.

Lemma keeps_try_except {A} (body : M A) handler :
  keeps P body -> (forall e, keeps P (handler e)) -> keeps P (try_except body handler).
Proof.
  intros Hm Hk s. unfold try_except. specialize (Hm s).
  destruct (body s) as [a s1|e s1|]; [done| |done].
  specialize (Hk e s1). destruct (handler e s1); eauto.
Qed.

Lemma keeps_modify f : (forall s, P s (f s)) -> keeps P (modify f).
Proof. intros Hf s. apply Hf. Qed.

Lemma keeps_if {A} (b : bool) (m1 m2 : M A) :
  keeps P m1 -> keeps P m2 -> keeps P (if b then m1 else m2).
Proof. by destruct b. Qed.

End Keeps.

Lemma steady_refl s : steady s s.
Proof. split_and!; try done. exists []. by rewrite app_nil_r. Qed.

Lemma steady_trans s1 s2 s3 : steady s1 s2 -> steady s2 s3 -> steady s1 s3.
Proof.
  intros (?&?&?&?&?&?&Hh&tr&Ht&Hd&Hr) (?&?&?&?&?&?&Hh'&tr'&Ht'&Hd'&Hr').
  split_and!; try congruence.
  - intros d. by rewrite Hh', Hh.
  - exists (tr ++ tr'). rewrite Ht', Ht, <- app_assoc.
    by rewrite deliveries_app, records_app, Hd, Hd', Hr, Hr'.
Qed.

Lemma steady_event e s :
  deliveries [e] = [] -> records [e] = [] -> steady s (add_event e s).
Proof. intros Hd Hr. split_and!; try done. by exists [e]. Qed.

Lemma steady_tick n s : steady s (set_tick n s).
Proof. split_and!; try done. exists []. by rewrite app_nil_r. Qed.

Lemma steady_heap f dev s : steady s (set_heap (alter f dev (heap s)) s).
Proof.
  split_and!; try done.
  - intros d. norm. destruct (decide (d = dev)) as [->|Hne].
    + rewrite lookup_alter_eq. destruct (heap s !! dev); simpl; split; intros [? ?]; done || by eexists.
    + by rewrite lookup_alter_ne.
  - exists []. by rewrite app_nil_r.
Qed.

Section SteadySteps.

Variable w : World.

Local Ltac steady_bind :=
  apply (keeps_bind steady steady_trans); [|intros ?].

Lemma steadily_emit e : deliveries [e] = [] -> records [e] = [] -> keeps steady (emit e).
Proof. intros Hd Hr s. by apply steady_event. Qed.

Lemma steadily_ask {A} (q : nat -> A) : keeps steady (ask q).
Proof. intros s. apply steady_tick. Qed.

Lemma steadily_dev_attr {A} dev (f : Device -> option A) : keeps steady (dev_attr dev f).
Proof.
  steady_bind; [apply keeps_get, steady_refl|].
  destruct (heap a !! dev ≫= f); [apply keeps_ret|apply keeps_raise]; apply steady_refl.
Qed.

Lemma steadily_dev_set dev f : keeps steady (dev_set dev f).
Proof. intros s. apply steady_heap. Qed.

Lemma steadily_setbuf i v : keeps steady (setbuf i v).
Proof.
  intros s. unfold setbuf, bind, get. destruct (decide _); simpl.
  - split_and!; try done. { norm. by rewrite length_insert. }
    exists []. by rewrite app_nil_r.
  - apply steady_refl.
Qed.

Lemma steadily_clearRequestBuffer : keeps steady clearRequestBuffer.
Proof.
  unfold clearRequestBuffer.
  do 4 (steady_bind; [apply steadily_setbuf|]). apply steadily_setbuf.
Qed.

Lemma steadily_usb_write dev : keeps steady (usb_write w dev).
Proof.
  unfold usb_write. steady_bind; [apply steadily_dev_attr|].
  steady_bind; [apply keeps_get, steady_refl|].
  steady_bind; [by apply steadily_emit|].
  steady_bind; [apply steadily_ask|].
  destruct a2; [apply keeps_ret|apply keeps_raise]; apply steady_refl.
Qed.

Lemma steadily_usb_read dev : keeps steady (usb_read w dev).
Proof.
  unfold usb_read. steady_bind; [apply steadily_dev_attr|].
  steady_bind; [by apply steadily_emit|].
  steady_bind; [apply steadily_ask|].
  destruct a1; [apply keeps_ret|apply keeps_raise]; apply steady_refl.
Qed.

Lemma steadily_exchange dev stamp : keeps steady (exchange w dev stamp).
Proof.
  unfold exchange. steady_bind; [apply steadily_usb_write|].
  steady_bind; [apply steadily_usb_read|].
  steady_bind; [apply steadily_ask|].
  apply steadily_dev_set.
Qed.

Lemma steadily_log m : keeps steady (log m).
Proof. by apply steadily_emit. Qed.

Lemma steadily_setTime dev : keeps steady (setTime w dev).
Proof.
  unfold setTime. steady_bind; [apply steadily_clearRequestBuffer|].
  steady_bind; [apply steadily_setbuf|].
  steady_bind; [apply steadily_ask|].
  steady_bind.
  { unfold to_bytes4_little. destruct (_ || _); [apply keeps_raise|apply keeps_ret]; apply steady_refl. }
  do 4 (steady_bind; [apply steadily_setbuf|]).
  apply (keeps_try_except steady steady_trans); [apply steadily_exchange|].
  intros e. apply steadily_log.
Qed.

Lemma steadily_deleteDeviceData dev : keeps steady (deleteDeviceData w dev).
Proof.
  unfold deleteDeviceData. steady_bind; [apply steadily_clearRequestBuffer|].
  steady_bind; [apply steadily_setbuf|].
  apply (keeps_try_except steady steady_trans); [apply steadily_exchange|].
  intros e. apply steadily_log.
Qed.

End SteadySteps.

(** ** The commands sent to a device *)

Lemma command_written (a b c d e : Z) (buf : list Z) :
  (5 <= length buf)%nat ->
  <[4%nat := e]> (<[3%nat := d]> (<[2%nat := c]> (<[1%nat := b]>
    (<[0%nat := a]> (cleared buf))))) = command [a; b; c; d; e] buf.
Proof.
  intros Hlen. do 5 (destruct buf as [|? buf]; [simpl in Hlen; lia|]). reflexivity.
Qed.

Lemma command_head (a : Z) (buf : list Z) :
  (5 <= length buf)%nat -> <[0%nat := a]> (cleared buf) = command [a; 0; 0; 0; 0] buf.
Proof.
  intros Hlen. do 5 (destruct buf as [|? buf]; [simpl in Hlen; lia|]). reflexivity.
Qed.

Lemma command_length (c buf : list Z) :
  length c = 5%nat -> (5 <= length buf)%nat -> length (command c buf) = length buf.
Proof. intros Hc Hlen. unfold command. rewrite length_app, length_drop. lia. Qed.

Lemma u32le_round_trip (t : Z) : 0 <= t < 2 ^ 32 -> from_bytes_little (u32le t) = t.
Proof.
  intros Ht. unfold u32le, from_bytes_little.
  assert (E1 : t / 65536 = t / 256 / 256) by (rewrite Z.div_div by lia; reflexivity).
  assert (E2 : t / 16777216 = t / 256 / 256 / 256)
    by (rewrite !Z.div_div by lia; reflexivity).
  rewrite E1, E2.
  assert (H4 : t / 256 / 256 / 256 < 256).
  { repeat (apply Z.div_lt_upper_bound; [lia|]). lia. }
  assert (H0 : 0 <= t / 256 / 256 / 256) by (repeat apply Z.div_pos; lia).
  rewrite (Z.mod_small (t / 256 / 256 / 256)) by lia.
  pose proof (Z.div_mod t 256 ltac:(lia)).
  pose proof (Z.div_mod (t / 256) 256 ltac:(lia)).
  pose proof (Z.div_mod (t / 256 / 256) 256 ltac:(lia)).
  lia.
Qed.

Lemma u32le_bytes (t : Z) : Forall (fun b => 0 <= b < 256) (u32le t).
Proof. unfold u32le. repeat constructor; apply Z.mod_pos_bound; lia. Qed.

Lemma classic_sendable (now : Z) : sendable now \/ ~ sendable now.
Proof.
  unfold sendable.
  destruct (Z_le_dec TIME_OFFSET now); destruct (Z_lt_dec now (TIME_OFFSET + 2 ^ 32));
    [left|right|right|right]; lia.
Qed.

Section Commands.

Variable w : World.

Lemma exchange_run dev stamp s d a b :
  heap s !! dev = Some d -> outAddress d = Some a -> inAddress d = Some b ->
  exchange w dev stamp s =
    if w_write w (tick s) dev then
      match w_read w (S (tick s)) dev with
      | Some _ =>
        Ok tt (set_heap (alter (stamp (w_time w (S (S (tick s))))) dev (heap s))
                 (set_tick (S (S (S (tick s)))) (did_read dev (wrote dev s))))
      | None => Raise USBError (did_read dev (wrote dev s))
      end
    else Raise USBError (wrote dev s).
Proof.
  intros Hd Ha Hb. unfold exchange.
  rewrite (bind_usb_write _ _ _ _ d a) by done. cbv zeta.
  unfold did_read, wrote.
  destruct (w_write w (tick s) dev); [|reflexivity].
  rewrite (bind_usb_read _ _ _ _ d b) by done. cbv zeta. norm.
  destruct (w_read w (S (tick s)) dev); [|reflexivity].
  rewrite bind_time. reflexivity.
Qed.

Lemma setTime_sendable dev s :
  (5 <= length (requestBuffer s))%nat -> sendable (w_time w (tick s)) ->
  setTime w dev s =
    try_except (exchange w dev with_lastTimeSync)
      (fun e => log (LogErrorSettingTime e))
      (set_requestBuffer
         (command (4 :: u32le (w_time w (tick s) - TIME_OFFSET)) (requestBuffer s))
         (set_tick (S (tick s)) s)).
Proof.
  intros Hlen [Hlo Hhi]. unfold setTime.
  rewrite bind_clearRequestBuffer by done.
  rewrite bind_setbuf by (norm; unfold cleared; rewrite !length_insert; lia).
  rewrite bind_time. cbv zeta. unfold to_bytes4_little.
  replace (w_time w _ - TIME_OFFSET <? 0) with false by (symmetry; apply Z.ltb_ge; norm; lia).
  replace (2 ^ 32 <=? w_time w _ - TIME_OFFSET) with false
    by (symmetry; apply Z.leb_gt; norm; lia).
  cbn [orb]. rewrite bind_ret. cbn [nth].
  do 4 (rewrite bind_setbuf by (norm; unfold cleared; rewrite !length_insert; lia)).
  norm.
  rewrite command_written by done. reflexivity.
Qed.

Lemma setTime_unsendable dev s :
  (5 <= length (requestBuffer s))%nat -> ~ sendable (w_time w (tick s)) ->
  setTime w dev s =
    Raise OverflowError
      (set_requestBuffer (command [4; 0; 0; 0; 0] (requestBuffer s))
         (set_tick (S (tick s)) s)).
Proof.
  intros Hlen Hns. unfold setTime.
  rewrite bind_clearRequestBuffer by done.
  rewrite bind_setbuf by (norm; unfold cleared; rewrite !length_insert; lia).
  rewrite bind_time. cbv zeta. unfold to_bytes4_little. norm.
  rewrite command_head by done.
  assert (E : (w_time w (tick s) - TIME_OFFSET <? 0) ||
              (2 ^ 32 <=? w_time w (tick s) - TIME_OFFSET) = true).
  { apply orb_true_iff. unfold sendable in Hns.
    destruct (Z.ltb_spec (w_time w (tick s) - TIME_OFFSET) 0); [by left|right].
    apply Z.leb_le. lia. }
  rewrite E. reflexivity.
Qed.

Lemma deleteDeviceData_run dev s :
  (5 <= length (requestBuffer s))%nat ->
  deleteDeviceData w dev s =
    try_except (exchange w dev with_lastTimeDelete)
      (fun e => log (LogErrorDeletingFlash e))
      (set_requestBuffer (command [13; 0; 0; 0; 0] (requestBuffer s)) s).
Proof.
  intros Hlen. unfold deleteDeviceData.
  rewrite bind_clearRequestBuffer by done.
  rewrite bind_setbuf by (norm; unfold cleared; rewrite !length_insert; lia).
  norm. rewrite command_head by done. reflexivity.
Qed.

End Commands.

Section CommandFacts.

Variable w : World.

Lemma setTime_cases dev s :
  ready dev s -> sendable (w_time w (tick s)) ->
  let buf := command (4 :: u32le (w_time w (tick s) - TIME_OFFSET)) (requestBuffer s) in
  let s1 := set_requestBuffer buf (set_tick (S (tick s)) s) in
  setTime w dev s =
    if w_write w (S (tick s)) dev then
      match w_read w (S (S (tick s))) dev with
      | Some _ =>
        Ok tt (set_heap (alter (with_lastTimeSync (w_time w (S (S (S (tick s)))))) dev (heap s))
                 (set_tick (S (S (S (S (tick s))))) (did_read dev (wrote dev s1))))
      | None => Ok tt (add_event (EvLog (LogErrorSettingTime USBError))
                         (did_read dev (wrote dev s1)))
      end
    else Ok tt (add_event (EvLog (LogErrorSettingTime USBError)) (wrote dev s1)).
Proof.
  intros (Hlen & d & a & b & Hd & Ha & Hb) Hs. cbv zeta.
  rewrite setTime_sendable by done. unfold try_except.
  rewrite (exchange_run _ _ _ _ d a b) by done. norm.
  destruct (w_write w (S (tick s)) dev); [|reflexivity].
  destruct (w_read w (S (S (tick s))) dev); reflexivity.
Qed.

Lemma deleteDeviceData_cases dev s :
  ready dev s ->
  let s1 := set_requestBuffer (command [13; 0; 0; 0; 0] (requestBuffer s)) s in
  deleteDeviceData w dev s =
    if w_write w (tick s) dev then
      match w_read w (S (tick s)) dev with
      | Some _ =>
        Ok tt (set_heap (alter (with_lastTimeDelete (w_time w (S (S (tick s))))) dev (heap s))
                 (set_tick (S (S (S (tick s)))) (did_read dev (wrote dev s1))))
      | None => Ok tt (add_event (EvLog (LogErrorDeletingFlash USBError))
                         (did_read dev (wrote dev s1)))
      end
    else Ok tt (add_event (EvLog (LogErrorDeletingFlash USBError)) (wrote dev s1)).
Proof.
  intros (Hlen & d & a & b & Hd & Ha & Hb). cbv zeta.
  rewrite deleteDeviceData_run by done. unfold try_except.
  rewrite (exchange_run _ _ _ _ d a b) by done. norm.
  destruct (w_write w (tick s) dev); [|reflexivity].
  destruct (w_read w (S (tick s)) dev); reflexivity.
Qed.

End CommandFacts.

(** X9.  With the clock between the device epoch and 2^32 seconds after
    it, [setTime] on a device that has its addresses returns normally and
    its first transfer is a write of the request buffer that starts with
    the command byte 4 followed by the seconds since the device epoch as
    four bytes, least significant first ([from_bytes_little] gives the
    number back); the rest of the buffer is as it was, and the command
    stays in the buffer. *)
Theorem setTime_sends_clock (w : World) (dev : nat) (s : TLX00) :
  ready dev s -> sendable (w_time w (tick s)) ->
  exists s' buf tr,
    setTime w dev s = Ok tt s' /\
    trace s' = trace s ++ EvWrite dev buf :: tr /\
    requestBuffer s' = buf /\
    length buf = length (requestBuffer s) /\
    take 1 buf = [4] /\
    from_bytes_little (take 4 (drop 1 buf)) = w_time w (tick s) - TIME_OFFSET /\
    Forall (fun b => 0 <= b < 256) (take 5 buf) /\
    drop 5 buf = drop 5 (requestBuffer s).
Proof.
  intros Hready Hs. pose proof (setTime_cases w dev s Hready Hs) as Hrun.
  cbv zeta in Hrun. destruct Hready as (Hlen & _).
  set (t := w_time w (tick s) - TIME_OFFSET) in *.
  assert (Ht : 0 <= t < 2 ^ 32) by (unfold sendable in Hs; lia).
  assert (Hbuf :
    length (command (4 :: u32le t) (requestBuffer s)) = length (requestBuffer s) /\
    take 1 (command (4 :: u32le t) (requestBuffer s)) = [4] /\
    from_bytes_little (take 4 (drop 1 (command (4 :: u32le t) (requestBuffer s)))) = t /\
    Forall (fun b => 0 <= b < 256) (take 5 (command (4 :: u32le t) (requestBuffer s))) /\
    drop 5 (command (4 :: u32le t) (requestBuffer s)) = drop 5 (requestBuffer s)).
  { split; [by apply command_length|]. split; [done|].
    split; [exact (u32le_round_trip t Ht)|]. split; [|done].
    change (take 5 (command (4 :: u32le t) (requestBuffer s))) with (4 :: u32le t).
    constructor; [lia|apply u32le_bytes]. }
  clearbody t.
  destruct (w_write w (S (tick s)) dev);
    [destruct (w_read w (S (S (tick s))) dev)|];
    eexists _, _, _; (split; [exact Hrun|]); (split; [|split; [reflexivity|exact Hbuf]]);
    unfold did_read, wrote; norm; rewrite <- ?app_assoc; reflexivity.
Qed.

Lemma setTime_sends_clock_witness :
  exists s' buf tr,
    setTime (calm no_data) 1 (logger [(1%nat, 0)] [1%nat] true ∅) = Ok tt s' /\
    trace s' = trace (logger [(1%nat, 0)] [1%nat] true ∅) ++ EvWrite 1 buf :: tr /\
    requestBuffer s' = buf /\
    length buf = length (requestBuffer (logger [(1%nat, 0)] [1%nat] true ∅)) /\
    take 1 buf = [4] /\
    from_bytes_little (take 4 (drop 1 buf)) =
      w_time (calm no_data) (tick (logger [(1%nat, 0)] [1%nat] true ∅)) - TIME_OFFSET /\
    Forall (fun b => 0 <= b < 256) (take 5 buf) /\
    drop 5 buf = drop 5 (requestBuffer (logger [(1%nat, 0)] [1%nat] true ∅)).
Proof.
  apply (setTime_sends_clock (calm no_data) 1 (logger [(1%nat, 0)] [1%nat] true ∅)).
  - apply ready_logger.
  - unfold sendable. simpl. unfold T0, TIME_OFFSET. lia.
Defined.

(** The command sent at [T0]: 4, then 53318800 seconds as 0x032D9490. *)
Example setTime_example :
  exists s', setTime (calm no_data) 1 (logger [(1%nat, 0)] [1%nat] true ∅) = Ok tt s' /\
    take 5 (requestBuffer s') = [4; 144; 148; 45; 3] /\
    transport_ops (trace s') = [EvWrite 1 (requestBuffer s'); EvRead 1].
Proof. eexists. split; [vm_compute; reflexivity|]. by vm_compute. Qed.

(** X10.  A [setTime] that can send its clock never raises and is
    [steady].  When the write and the read succeed the device's
    [lastTimeSync] becomes the time read after the transfer and nothing is
    logged; when either fails the error is logged and the device object is
    left as it was, its error counter included. *)
Theorem setTime_outcome (w : World) (dev : nat) (s : TLX00) :
  ready dev s -> sendable (w_time w (tick s)) ->
  exists s',
    setTime w dev s = Ok tt s' /\ steady s s' /\
    (w_write w (S (tick s)) dev = true ->
     is_Some (w_read w (S (S (tick s))) dev) ->
     heap s' = alter (with_lastTimeSync (w_time w (S (S (S (tick s)))))) dev (heap s) /\
     logged (trace s') = logged (trace s) /\
     transport_ops (trace s') =
       transport_ops (trace s) ++ [EvWrite dev (requestBuffer s'); EvRead dev]) /\
    (w_write w (S (tick s)) dev = false \/ w_read w (S (S (tick s))) dev = None ->
     heap s' = heap s /\
     logged (trace s') = logged (trace s) ++ [LogErrorSettingTime USBError]).
Proof.
  intros Hready Hs. pose proof (setTime_cases w dev s Hready Hs) as Hrun.
  cbv zeta in Hrun. pose proof (steadily_setTime w dev s) as Hst.
  rewrite Hrun in Hst |- *. clear Hrun.
  destruct (w_write w (S (tick s)) dev);
    [destruct (w_read w (S (S (tick s))) dev) as [rd|]|];
    eexists; (split; [reflexivity|]); (split; [exact Hst|]); split.
  - intros _ _. unfold did_read, wrote. norm. split; [done|].
    rewrite !logged_app, !transport_ops_app. simpl. rewrite !app_nil_r.
    by rewrite <- app_assoc.
  - by intros [?|?].
  - by intros _ [? ?].
  - intros _. unfold did_read, wrote. norm. split; [done|].
    rewrite !logged_app. simpl. by rewrite !app_nil_r.
  - done.
  - intros _. unfold wrote. norm. split; [done|].
    rewrite !logged_app. simpl. by rewrite !app_nil_r.
Qed.

Lemma setTime_outcome_witness :
  exists s',
    setTime (dead_device no_data) 1 (logger [(1%nat, 3)] [1%nat] true ∅) = Ok tt s' /\
    heap s' = heap (logger [(1%nat, 3)] [1%nat] true ∅) /\
    logged (trace s') =
      logged (trace (logger [(1%nat, 3)] [1%nat] true ∅)) ++ [LogErrorSettingTime USBError].
Proof.
  assert (Hs : sendable (w_time (dead_device no_data)
                           (tick (logger [(1%nat, 3)] [1%nat] true ∅)))).
  { unfold sendable. simpl. unfold T0, TIME_OFFSET. lia. }
  destruct (setTime_outcome (dead_device no_data) 1 (logger [(1%nat, 3)] [1%nat] true ∅)
              (ready_logger _ _ _ _ _ _) Hs) as (s' & Hrun & _ & _ & Hfail).
  exists s'. split; [exact Hrun|]. apply Hfail. by left.
Defined.

(** X11.  [deleteDeviceData] on a device that has its addresses never
    raises and is [steady].  Its first transfer is a write of the request
    buffer with the command byte 13 and four zero bytes at its head.  When
    the write and the read succeed the device's [lastTimeDelete] becomes
    the time read after the transfer; when either fails the error is
    logged and the device object is left as it was. *)
Theorem deleteDeviceData_outcome (w : World) (dev : nat) (s : TLX00) :
  ready dev s ->
  exists s' tr,
    deleteDeviceData w dev s = Ok tt s' /\ steady s s' /\
    requestBuffer s' = command [13; 0; 0; 0; 0] (requestBuffer s) /\
    trace s' = trace s ++ EvWrite dev (requestBuffer s') :: tr /\
    (w_write w (tick s) dev = true -> is_Some (w_read w (S (tick s)) dev) ->
     heap s' = alter (with_lastTimeDelete (w_time w (S (S (tick s))))) dev (heap s) /\
     tr = [EvRead dev]) /\
    (w_write w (tick s) dev = false \/ w_read w (S (tick s)) dev = None ->
     heap s' = heap s /\
     logged tr = [LogErrorDeletingFlash USBError]).
Proof.
  intros Hready. pose proof (deleteDeviceData_cases w dev s Hready) as Hrun.
  cbv zeta in Hrun. pose proof (steadily_deleteDeviceData w dev s) as Hst.
  rewrite Hrun in Hst |- *. clear Hrun.
  destruct (w_write w (tick s) dev);
    [destruct (w_read w (S (tick s)) dev) as [rd|]|];
    eexists _, _; (split; [reflexivity|]); (split; [exact Hst|]);
    (split; [reflexivity|]);
    (split; [unfold did_read, wrote; norm; rewrite <- ?app_assoc; reflexivity|]); split;
    try done.
  by intros [?|?].
Qed.

Lemma deleteDeviceData_outcome_witness :
  exists s' tr,
    deleteDeviceData (calm no_data) 1 (logger [(1%nat, 3)] [1%nat] true ∅) = Ok tt s' /\
    steady (logger [(1%nat, 3)] [1%nat] true ∅) s' /\
    requestBuffer s' =
      command [13; 0; 0; 0; 0] (requestBuffer (logger [(1%nat, 3)] [1%nat] true ∅)) /\
    trace s' = trace (logger [(1%nat, 3)] [1%nat] true ∅) ++
               EvWrite 1 (requestBuffer s') :: tr.
Proof.
  destruct (deleteDeviceData_outcome (calm no_data) 1 (logger [(1%nat, 3)] [1%nat] true ∅)
              (ready_logger _ _ _ _ _ _)) as (s' & tr & H1 & H2 & H3 & H4 & _).
  by exists s', tr.
Defined.

(** X12.  [setTime] converts the clock outside its [try]: with a clock
    before the device epoch (or 2^32 seconds past it) it raises
    [OverflowError] before anything is sent.  In [loop] nothing catches
    it: as soon as a synchronisation is due for the first device, [loop]
    ends with that exception, whatever listeners are registered. *)
Theorem clock_before_epoch_stops_loop (w : World) (fuel : nat) (s : TLX00)
    (dev : nat) (rest : list nat) (d : Device) :
  (5 <= length (requestBuffer s))%nat ->
  listeners s <> [] -> devices s = dev :: rest -> heap s !! dev = Some d ->
  900 < w_time w (tick s) - lastTimeSync d ->
  ~ sendable (w_time w (S (tick s))) ->
  exists s',
    loop w (S (S fuel)) s = Raise OverflowError s' /\
    transport_ops (trace s') = transport_ops (trace s) /\
    logged (trace s') = logged (trace s) /\
    heap s' = heap s /\ listeners s' = listeners s.
Proof.
  intros Hlen Hls Hdev Hd Hdue Hns. unfold loop.
  rewrite bind_clearRequestBuffer by done.
  set (s0 := set_requestBuffer (cleared (requestBuffer s)) s).
  assert (Hlen0 : (5 <= length (requestBuffer s0))%nat)
    by (unfold s0, cleared; norm; rewrite !length_insert; lia).
  rewrite loop_while_S.
  replace (0 <? length (listeners s0))%nat with true
    by (symmetry; apply Nat.ltb_lt; unfold s0; norm; destruct (listeners s); [done|simpl; lia]).
  eexists. split.
  - apply bind_raise. unfold cycle. apply bind_raise.
    cbn [for_devices]. rewrite bind_get.
    replace (devices s0 !! 0%nat) with (Some dev) by (unfold s0; norm; by rewrite Hdev).
    apply bind_raise. unfold serve_device.
    rewrite bind_time.
    rewrite (bind_dev_attr _ _ _ _ d (lastTimeSync d)) by done.
    replace (w_time w (tick s0) - lastTimeSync d >? 900) with true
      by (symmetry; apply Z.gtb_lt; unfold s0; norm; lia).
    apply bind_raise. apply setTime_unsendable; [done|exact Hns].
  - by unfold s0.
Qed.

Lemma clock_before_epoch_stops_loop_witness :
  exists s',
    loop lost_clock 2 unsynced_logger = Raise OverflowError s' /\
    transport_ops (trace s') = transport_ops (trace unsynced_logger) /\
    logged (trace s') = logged (trace unsynced_logger) /\
    heap s' = heap unsynced_logger /\ listeners s' = listeners unsynced_logger.
Proof.
  apply (clock_before_epoch_stops_loop lost_clock 0 unsynced_logger 1 [] unsynced_device).
  - simpl. lia.
  - done.
  - reflexivity.
  - reflexivity.
  - simpl. lia.
  - unfold sendable. simpl. unfold TIME_OFFSET. lia.
Defined.

(** ** One poll, whatever the device answers *)

Lemma offline_refl s : offline s s.
Proof. split_and!; try done. exists []. by rewrite app_nil_r. Qed.

Lemma offline_trans s1 s2 s3 : offline s1 s2 -> offline s2 s3 -> offline s1 s3.
Proof.
  intros (?&?&Hh&tr&Ht&Hd) (?&?&Hh'&tr'&Ht'&Hd').
  split_and!; try congruence.
  - intros d. by rewrite Hh', Hh.
  - exists (tr ++ tr'). rewrite Ht', Ht, <- app_assoc.
    by rewrite transport_ops_app, Hd, Hd'.
Qed.

Lemma offline_event e s : is_transport e = false -> offline s (add_event e s).
Proof.
  intros He. split_and!; try done. exists [e]. split; [done|].
  unfold transport_ops. rewrite filter_cons_False; [done|]. rewrite He. by intros [].
Qed.

Lemma offline_tick n s : offline s (set_tick n s).
Proof. split_and!; try done. exists []. by rewrite app_nil_r. Qed.

Lemma offline_sensors v s : offline s (set_sensors v s).
Proof. split_and!; try done. exists []. by rewrite app_nil_r. Qed.

Lemma offline_listeners v s : offline s (set_listeners v s).
Proof. split_and!; try done. exists []. by rewrite app_nil_r. Qed.

Lemma offline_heap f dev s : offline s (set_heap (alter f dev (heap s)) s).
Proof.
  split_and!; try done.
  - intros d. norm. destruct (decide (d = dev)) as [->|Hne].
    + rewrite lookup_alter_eq.
      destruct (heap s !! dev); simpl; split; intros [? ?]; done || by eexists.
    + by rewrite lookup_alter_ne.
  - exists []. by rewrite app_nil_r.
Qed.

Section Offline.

Variable w : World.

Local Ltac off_bind := apply (keeps_bind offline offline_trans); [|intros ?].
Local Ltac off_end := first [apply keeps_ret|apply keeps_raise]; apply offline_refl.

Lemma offline_emit e : is_transport e = false -> keeps offline (emit e).
Proof. intros He s. by apply offline_event. Qed.

Lemma offline_ask {A} (q : nat -> A) : keeps offline (ask q).
Proof. intros s. apply offline_tick. Qed.

Lemma offline_getitem data i : keeps offline (getitem data i).
Proof.
  unfold getitem. off_bind; [by apply offline_emit|].
  cbv zeta. destruct (_ <? 0); [off_end|]. destruct (data !! _); off_end.
Qed.

Lemma offline_addSensor k name sensortype : keeps offline (addSensor k name sensortype).
Proof.
  unfold addSensor. off_bind.
  - apply keeps_if; [|off_end].
    off_bind; [by apply offline_emit|].
    apply keeps_modify. intros s. apply offline_sensors.
  - apply keeps_if; [|off_end].
    off_bind; [by apply offline_emit|].
    apply keeps_modify. intros s. apply offline_sensors.
Qed.

Lemma offline_resolve k : keeps offline (resolve k).
Proof.
  unfold resolve. off_bind; [apply keeps_get, offline_refl|].
  off_bind.
  - apply keeps_if; [apply offline_addSensor|off_end].
  - unfold sensor_lookup. off_bind; [apply keeps_get, offline_refl|].
    destruct (sensors _ !! k); off_end.
Qed.

Lemma offline_parse_while fuel : forall data pos acc,
  Z.max 0 (63 - pos) < Z.of_nat fuel -> keeps offline (parse_while fuel data pos acc).
Proof.
  induction fuel as [|fuel IH]; intros data pos acc Hfuel; [lia|].
  rewrite parse_while_S.
  destruct (Z.ltb_spec pos 63) as [Hlt|_]; [|off_end]. cbv zeta.
  off_bind; [by apply offline_emit|].
  off_bind; [apply offline_getitem|].
  destruct (_ =? 0); [apply IH; lia|].
  destruct (_ =? 255); [off_end|].
  destruct (_ && _); [|apply IH; lia].
  do 8 (off_bind; [apply offline_getitem|]).
  off_bind.
  { apply keeps_if; [|off_end]. off_bind; [apply offline_getitem|off_end]. }
  off_bind; [apply offline_resolve|].
  off_bind; [by apply offline_emit|].
  apply IH. lia.
Qed.

Lemma offline_parseData data : keeps offline (parseData data).
Proof. apply offline_parse_while. lia. Qed.

Lemma offline_deliver dp ls : keeps offline (deliver w dp ls).
Proof.
  induction ls as [|l ls IH]; [off_end|]. cbn [deliver].
  off_bind; [apply offline_ask|].
  off_bind; [by apply offline_emit|].
  off_bind; [apply keeps_if; off_end|]. apply IH.
Qed.

Lemma offline_notify dps : keeps offline (notify w dps).
Proof.
  induction dps as [|dp dps IH]; [off_end|]. cbn [notify].
  off_bind; [|apply IH].
  off_bind; [apply keeps_get, offline_refl|]. apply offline_deliver.
Qed.

Lemma offline_dev_set dev f : keeps offline (dev_set dev f).
Proof. intros s. apply offline_heap. Qed.

Lemma offline_after_read dev rawdata : keeps offline (after_read w dev rawdata).
Proof.
  unfold after_read. off_bind; [apply offline_getitem|].
  off_bind.
  { apply keeps_if; [|off_end]. off_bind; [apply offline_getitem|off_end]. }
  apply keeps_if; [off_end|].
  off_bind; [apply offline_ask|].
  off_bind; [apply offline_dev_set|].
  off_bind; [apply offline_parseData|].
  off_bind; [apply offline_notify|].
  off_bind; [apply offline_dev_set|]. off_end.
Qed.

Lemma after_read_next dev rawdata s s' :
  is_Some (heap s !! dev) ->
  after_read w dev rawdata s = Ok Next s' ->
  deviceErrors <$> heap s' !! dev = Some 0.
Proof.
  intros Hdev Hrun. pose proof (offline_after_read dev rawdata s) as Hoff.
  rewrite Hrun in Hoff. destruct Hoff as (_ & _ & Hh & _). apply Hh in Hdev. clear Hh.
  unfold after_read in Hrun.
  apply bind_Ok_inv in Hrun as (b0 & s1 & _ & H).
  apply bind_Ok_inv in H as (nodata & s2 & _ & H).
  destruct nodata; [done|].
  apply bind_Ok_inv in H as (now & s3 & _ & H).
  apply bind_Ok_inv in H as ([] & s4 & _ & H).
  apply bind_Ok_inv in H as (dps & s5 & _ & H).
  apply bind_Ok_inv in H as ([] & s6 & _ & H).
  rewrite bind_dev_set in H. unfold ret in H. simplify_eq.
  norm. rewrite lookup_alter_eq in Hdev |- *.
  destruct (heap s6 !! dev); [done|by destruct Hdev].
Qed.

End Offline.

Lemma poll_except_offline dev e s :
  is_Some (heap s !! dev) -> dev ∈ devices s ->
  exists s' tr,
    poll_except dev e s = Ok Break s' /\ requestBuffer s' = requestBuffer s /\
    trace s' = trace s ++ tr /\ transport_ops tr = [].
Proof.
  intros [d Hd] Hin. rewrite (poll_except_run dev e s d Hd). cbv zeta.
  destruct (deviceErrors d + 1 >? 10).
  - destruct (list_remove_elem_of _ _ Hin) as (r & Hr). rewrite Hr.
    eexists _, [EvLog (LogUnableToRead e); EvLog (LogTooManyErrors dev)].
    split; [reflexivity|]. unfold failed. norm. split_and!; try done.
    by rewrite <- app_assoc.
  - eexists _, [EvLog (LogUnableToRead e)].
    split; [reflexivity|]. unfold failed. norm. by split_and!.
Qed.

Lemma usb_write_no_address {B} w dev (k : unit -> M B) s d :
  heap s !! dev = Some d -> outAddress d = None ->
  bind (usb_write w dev) k s = Raise AttributeError s.
Proof.
  intros Hd Ha. apply bind_raise. unfold usb_write. apply bind_raise.
  unfold dev_attr. rewrite bind_get, Hd. simpl. by rewrite Ha.
Qed.

Lemma usb_read_no_address {B} w dev (k : list Z -> M B) s d :
  heap s !! dev = Some d -> inAddress d = None ->
  bind (usb_read w dev) k s = Raise AttributeError s.
Proof.
  intros Hd Ha. apply bind_raise. unfold usb_read. apply bind_raise.
  unfold dev_attr. rewrite bind_get, Hd. simpl. by rewrite Ha.
Qed.

(** X13.  One turn of the poll loop never raises, whatever the device
    answers (any bytes, of any length, or nothing) and whatever the
    listeners do, as long as the device is in the list and the buffer has
    its five bytes.  It makes at most one write and then at most one read;
    the write sends the request buffer with command 3 and four zero bytes
    at its head, which wipes the time left there by [setTime].  The loop
    goes on to another poll of the device only after a turn that read a
    response, and then the device's error counter is zero and the device
    list is as it was. *)
Theorem poll_always_returns (w : World) (dev : nat) (s : TLX00) :
  (5 <= length (requestBuffer s))%nat -> dev ∈ devices s -> is_Some (heap s !! dev) ->
  exists fl s' tr,
    poll w dev s = Ok fl s' /\ trace s' = trace s ++ tr /\
    requestBuffer s' = poll_request s /\
    (transport_ops tr = [] \/
     transport_ops tr = [EvWrite dev (poll_request s)] \/
     transport_ops tr = [EvWrite dev (poll_request s); EvRead dev]) /\
    (fl = Next ->
     transport_ops tr = [EvWrite dev (poll_request s); EvRead dev] /\
     deviceErrors <$> heap s' !! dev = Some 0 /\ devices s' = devices s).
Proof.
  intros Hlen Hin [d Hd].
  rewrite poll_armed by done. unfold try_except.
  assert (Hreq : requestBuffer (armed s) = poll_request s).
  { unfold armed, poll_request. norm. by apply command_head. }
  assert (Hh0 : heap (armed s) = heap s) by done.
  assert (Hd0 : devices (armed s) = devices s) by done.
  assert (Ht0 : trace (armed s) = trace s) by done.
  set (s0 := armed s) in *. clearbody s0.
  rewrite poll_try_after_read.
  destruct (outAddress d) as [a|] eqn:Ha; cycle 1.
  { rewrite (usb_write_no_address w dev _ s0 d) by congruence.
    destruct (poll_except_offline dev AttributeError s0) as (s' & tr & Hex & Hb & Ht & Hto);
      [by rewrite Hh0, Hd|by rewrite Hd0|].
    exists Break, s', tr. rewrite Hex. split_and!; try done; try congruence. by left. }
  rewrite (bind_usb_write w dev _ s0 d a) by congruence. cbv zeta.
  destruct (w_write w (tick s0) dev).
  2:{ match goal with |- context [poll_except dev USBError ?st] => set (s1 := st) end.
      destruct (poll_except_offline dev USBError s1) as (s' & tr & Hex & Hb & Ht & Hto);
        [by unfold s1; norm; rewrite Hh0, Hd|by unfold s1; norm; rewrite Hd0|].
      exists Break, s', (EvWrite dev (poll_request s) :: tr). rewrite Hex.
      split_and!; try done.
      - rewrite Ht. unfold s1. norm. by rewrite Ht0, Hreq, <- app_assoc.
      - by rewrite Hb.
      - right. left. change (EvWrite dev (poll_request s) :: tr)
          with ([EvWrite dev (poll_request s)] ++ tr).
        by rewrite transport_ops_app, Hto. }
  rewrite bind_sleep.
  match goal with |- context [bind (usb_read w dev) _ ?st] => set (s2 := st) end.
  assert (Hh2 : heap s2 = heap s) by (unfold s2, sleep_state; norm; done).
  assert (Hd2 : devices s2 = devices s) by (unfold s2, sleep_state; norm; done).
  assert (Hb2 : requestBuffer s2 = poll_request s) by (unfold s2, sleep_state; norm; done).
  assert (Ht2 : trace s2 = trace s ++ [EvWrite dev (poll_request s); EvSleep]).
  { unfold s2, sleep_state. norm. by rewrite Ht0, Hreq, <- app_assoc. }
  clearbody s2.
  destruct (inAddress d) as [b|] eqn:Hb; cycle 1.
  { rewrite (usb_read_no_address w dev _ s2 d) by congruence.
    destruct (poll_except_offline dev AttributeError s2) as (s' & tr & Hex & Hbf & Ht & Hto);
      [by rewrite Hh2, Hd|by rewrite Hd2|].
    exists Break, s', ([EvWrite dev (poll_request s); EvSleep] ++ tr). rewrite Hex.
    split_and!; try done.
    - by rewrite Ht, Ht2, <- app_assoc.
    - congruence.
    - right. left. by rewrite transport_ops_app, Hto. }
  rewrite (bind_usb_read w dev _ s2 d b) by congruence. cbv zeta.
  match goal with |- context [add_event (EvRead dev) s2] =>
    set (s3 := set_tick (S (tick s2)) (add_event (EvRead dev) s2)) end.
  assert (Hh3 : heap s3 = heap s) by done.
  assert (Hd3 : devices s3 = devices s) by done.
  assert (Hb3 : requestBuffer s3 = poll_request s) by done.
  assert (Ht3 : trace s3 = trace s ++ [EvWrite dev (poll_request s); EvSleep; EvRead dev]).
  { unfold s3. norm. by rewrite Ht2, <- app_assoc. }
  assert (Hto3 : forall tr, transport_ops tr = [] ->
            transport_ops ([EvWrite dev (poll_request s); EvSleep; EvRead dev] ++ tr) =
            [EvWrite dev (poll_request s); EvRead dev]).
  { intros tr Htr. by rewrite transport_ops_app, Htr. }
  clearbody s3.
  destruct (w_read w (tick s2) dev) as [rawdata|].
  2:{ destruct (poll_except_offline dev USBError s3) as (s' & tr & Hex & Hbf & Ht & Hto);
        [by rewrite Hh3, Hd|by rewrite Hd3|].
      exists Break, s', ([EvWrite dev (poll_request s); EvSleep; EvRead dev] ++ tr).
      rewrite Hex. split_and!; try done.
      - by rewrite Ht, Ht3, <- app_assoc.
      - congruence.
      - right. right. by apply Hto3. }
  pose proof (offline_after_read w dev rawdata s3) as Hoff.
  pose proof (after_read_next w dev rawdata s3) as Hnext.
  destruct (after_read w dev rawdata s3) as [fl s4|e s4|]; [| |done].
  - destruct Hoff as (Hd4 & Hb4 & Hh4 & tr & Ht4 & Hto4).
    exists fl, s4, ([EvWrite dev (poll_request s); EvSleep; EvRead dev] ++ tr).
    split_and!; try done.
    + by rewrite Ht4, Ht3, <- app_assoc.
    + congruence.
    + right. right. by apply Hto3.
    + intros ->. split_and!.
      * by apply Hto3.
      * apply (Hnext s4); [by rewrite Hh3, Hd|done].
      * congruence.
  - destruct Hoff as (Hd4 & Hb4 & Hh4 & tr & Ht4 & Hto4).
    destruct (poll_except_offline dev e s4) as (s' & tr' & Hex & Hbf & Ht & Hto);
      [apply Hh4; by rewrite Hh3, Hd|by rewrite Hd4, Hd3|].
    exists Break, s', ([EvWrite dev (poll_request s); EvSleep; EvRead dev] ++ tr ++ tr').
    rewrite Hex. split_and!; try done.
    + by rewrite Ht, Ht4, Ht3, <- !app_assoc.
    + congruence.
    + right. right. apply Hto3. by rewrite transport_ops_app, Hto4, Hto.
Qed.

Lemma poll_always_returns_witness :
  exists fl s' tr,
    poll (calm (replicate 3 7)) 1 (logger [(1%nat, 0)] [1%nat] true ∅) = Ok fl s' /\
    trace s' = trace (logger [(1%nat, 0)] [1%nat] true ∅) ++ tr /\
    requestBuffer s' = poll_request (logger [(1%nat, 0)] [1%nat] true ∅).
Proof.
  destruct (poll_always_returns (calm (replicate 3 7)) 1 (logger [(1%nat, 0)] [1%nat] true ∅))
    as (fl & s' & tr & H1 & H2 & H3 & _).
  - simpl. lia.
  - apply list_elem_of_here.
  - by eexists.
  - by exists fl, s', tr.
Defined.

(** X14.  A device whose object has no [outAddress] (found, but not
    initialised) is never talked to: a poll of it makes no transfer, logs
    the [AttributeError], counts it as a device error and ends the polling
    of the device for this pass; past ten such errors the device is
    removed from the list. *)
Theorem poll_uninitialised_device (w : World) (dev : nat) (s : TLX00) (d : Device) :
  (5 <= length (requestBuffer s))%nat -> dev ∈ devices s ->
  heap s !! dev = Some d -> outAddress d = None ->
  exists s' tr,
    poll w dev s = Ok Break s' /\
    (forall fuel, read_loop w (S fuel) dev s = Ok tt s') /\
    trace s' = trace s ++ tr /\ transport_ops tr = [] /\ deliveries tr = [] /\
    logged tr = LogUnableToRead AttributeError ::
                (if deviceErrors d + 1 >? 10 then [LogTooManyErrors dev] else []) /\
    heap s' = alter (with_deviceErrors (deviceErrors d + 1)) dev (heap s) /\
    (deviceErrors d + 1 <= 10 -> devices s' = devices s) /\
    (10 < deviceErrors d + 1 -> list_remove dev (devices s) = Some (devices s')).
Proof.
  intros Hlen Hin Hd Ha.
  destruct (poll_except_post dev AttributeError (armed s) d Hd Hin)
    as (s' & tr & Hex & Ht & Hlg & _ & _ & Hdl & Hto & Hh & _ & _ & Hkeep & Hdrop).
  assert (Hpoll : poll w dev s = Ok Break s').
  { rewrite poll_armed by done. unfold try_except.
    rewrite poll_try_after_read.
    by rewrite (usb_write_no_address w dev _ (armed s) d). }
  exists s', tr. split_and!; try done.
  intros fuel. by apply read_loop_break.
Qed.

Lemma poll_uninitialised_device_witness :
  exists s' tr,
    poll (calm no_data) 1 raw_logger = Ok Break s' /\
    (forall fuel, read_loop (calm no_data) (S fuel) 1 raw_logger = Ok tt s') /\
    trace s' = trace raw_logger ++ tr /\ transport_ops tr = [] /\ deliveries tr = [] /\
    logged tr = LogUnableToRead AttributeError ::
                (if deviceErrors fresh_device + 1 >? 10 then [LogTooManyErrors 1] else []) /\
    heap s' = alter (with_deviceErrors (deviceErrors fresh_device + 1)) 1%nat (heap raw_logger) /\
    (deviceErrors fresh_device + 1 <= 10 -> devices s' = devices raw_logger) /\
    (10 < deviceErrors fresh_device + 1 ->
     list_remove 1 (devices raw_logger) = Some (devices s')).
Proof.
  apply (poll_uninitialised_device (calm no_data) 1 raw_logger fresh_device).
  - simpl. lia.
  - apply list_elem_of_here.
  - reflexivity.
  - reflexivity.
Defined.

(** ** Discovery and initialisation *)

Lemma fresh_objects_lookup (found : list nat) (h : gmap nat Device) (d : nat) :
  foldr (fun d h => <[d := fresh_device]> h) h found !! d =
    if decide (d ∈ found) then Some fresh_device else h !! d.
Proof.
  induction found as [|x found IH]; cbn [foldr].
  - destruct (decide (d ∈ [])) as [H|_]; [by apply elem_of_nil in H|done].
  - destruct (decide (d = x)) as [->|Hne].
    + rewrite lookup_insert_eq.
      destruct (decide (x ∈ x :: found)) as [_|H]; [done|].
      exfalso. apply H, list_elem_of_here.
    + rewrite lookup_insert_ne by done. rewrite IH.
      destruct (decide (d ∈ found)) as [Hin|Hin];
        destruct (decide (d ∈ x :: found)) as [Hin'|Hin']; try done.
      * exfalso. apply Hin'. by apply list_elem_of_further.
      * exfalso. apply elem_of_cons in Hin' as [?|?]; done.
Qed.

Lemma bind_usb_find {B} w (k : list nat -> M B) s :
  bind (usb_find w) k s =
    match w_find w (tick s) with
    | inl e => Raise e (set_tick (S (tick s)) (add_event EvFind s))
    | inr found => k found (set_tick (S (tick s)) (add_event EvFind s))
    end.
Proof.
  unfold usb_find. rewrite bind_assoc, bind_emit, bind_assoc, bind_ask. norm.
  by destruct (w_find w (tick s)).
Qed.

(** X15.  When the search for devices returns, [findDevices] returns
    [True], also when nothing was found: the test that guards its "No
    device found" branch is made on a list.  The device list becomes the
    list of the devices found, and every one of them starts from a new
    object: counters and time stamps at zero and no endpoint addresses,
    whatever was known of the device before.  When the search raises,
    [findDevices] raises the same exception: only the time of the last
    check has changed, the device list and the objects are as before.
    Listeners and registry are untouched in both cases. *)
Theorem findDevices_resets (w : World) (s : TLX00) :
  match w_find w (S (tick s)) with
  | inr found =>
    exists s',
      findDevices w s = Ok true s' /\
      devices s' = found /\
      (forall d, d ∈ found -> heap s' !! d = Some fresh_device) /\
      (forall d, d ∉ found -> heap s' !! d = heap s !! d) /\
      lastDeviceCheck s' = w_time w (tick s) /\
      listeners s' = listeners s /\ sensors s' = sensors s /\
      requestBuffer s' = requestBuffer s /\
      transport_ops (trace s') = transport_ops (trace s) ++ [EvFind] /\
      logged (trace s') = logged (trace s) ++ [LogFound found] /\
      deliveries (trace s') = deliveries (trace s)
  | inl e =>
    exists s',
      findDevices w s = Raise e s' /\
      devices s' = devices s /\ heap s' = heap s /\
      lastDeviceCheck s' = w_time w (tick s) /\
      listeners s' = listeners s /\ sensors s' = sensors s /\
      requestBuffer s' = requestBuffer s /\
      transport_ops (trace s') = transport_ops (trace s) ++ [EvFind] /\
      logged (trace s') = logged (trace s) /\
      deliveries (trace s') = deliveries (trace s)
  end.
Proof.
  unfold findDevices. rewrite bind_time, bind_modify, bind_usb_find. norm.
  destruct (w_find w (S (tick s))) as [e|found].
  - eexists. split; [reflexivity|]. norm.
    rewrite !transport_ops_app, !logged_app, !deliveries_app. simpl.
    rewrite !app_nil_r. by split_and!.
  - rewrite bind_modify, bind_get. norm. unfold is_not_None.
    eexists. split; [reflexivity|]. norm.
    rewrite !transport_ops_app, !logged_app, !deliveries_app. simpl.
    rewrite !app_nil_r. split_and!; try done.
    + intros d Hd. rewrite fresh_objects_lookup. by destruct (decide _).
    + intros d Hd. rewrite fresh_objects_lookup. by destruct (decide _).
Qed.

Section Initialise.

Variable w : World.

(** The [except] block of [initializeDevices]. *)
Lemma initialize_handler_run (d : nat) (e : Exc) (s : TLX00) (r : list nat) :
  list_remove d (devices s) = Some r ->
  exists s' tr,
    (log (LogErrorInitializing d e) >>
     emit (EvReset d) >>
     let! ok := ask (fun t => w_reset w t d) in
     (if ok : bool then ret tt else log (LogErrorResetting d)) >>
     let! s := get in
     match list_remove d (devices s) with
     | Some r => modify (set_devices r)
     | None => raise ValueError
     end) s = Ok tt s' /\
    devices s' = r /\ listeners s' = listeners s /\ sensors s' = sensors s /\
    heap s' = heap s /\ requestBuffer s' = requestBuffer s /\
    trace s' = trace s ++ tr /\
    transport_ops tr = [EvReset d] /\ deliveries tr = [] /\
    logged tr = LogErrorInitializing d e ::
                (if w_reset w (tick s) d then [] else [LogErrorResetting d]).
Proof.
  intros Hr. rewrite bind_log, bind_emit, bind_ask. norm.
  destruct (w_reset w (tick s) d).
  - rewrite bind_ret, bind_get. norm. rewrite Hr.
    eexists _, [EvLog (LogErrorInitializing d e); EvReset d].
    split; [reflexivity|]. norm. split_and!; try done. by rewrite <- app_assoc.
  - rewrite bind_log, bind_get. norm. rewrite Hr.
    eexists _, [EvLog (LogErrorInitializing d e); EvReset d; EvLog (LogErrorResetting d)].
    split; [reflexivity|]. norm. split_and!; try done. by rewrite <- !app_assoc.
Qed.

Lemma steadily_initialize_body d :
  keeps steady
    (emit (EvConfigure d) >>
     let! r := ask (fun t => w_configure w t d) in
     match r with
     | None => raise USBError
     | Some (epo, epi) =>
       let! o := bEndpointAddress epo in
       dev_set d (with_outAddress o) >>
       let! i := bEndpointAddress epi in
       dev_set d (with_inAddress i) >>
       log (LogAddresses d i o) >>
       setTime w d
     end).
Proof.
  assert (Hep : forall ep, keeps steady (bEndpointAddress ep)).
  { intros [a|]; [apply keeps_ret|apply keeps_raise]; apply steady_refl. }
  apply (keeps_bind steady steady_trans); [by apply steadily_emit|]. intros _.
  apply (keeps_bind steady steady_trans); [apply steadily_ask|]. intros [[epo epi]|].
  - apply (keeps_bind steady steady_trans); [apply Hep|]. intros o.
    apply (keeps_bind steady steady_trans); [apply steadily_dev_set|]. intros _.
    apply (keeps_bind steady steady_trans); [apply Hep|]. intros i.
    apply (keeps_bind steady steady_trans); [apply steadily_dev_set|]. intros _.
    apply (keeps_bind steady steady_trans); [apply steadily_log|]. intros _.
    apply steadily_setTime.
  - apply keeps_raise, steady_refl.
Qed.

(** Whatever happens, the body of the loop of [initializeDevices] ends
    normally: with the device list as it was, or with the first
    occurrence of the device removed. *)
Lemma initialize_device_ends (d : nat) (s : TLX00) :
  d ∈ devices s ->
  exists s',
    initialize_device w d s = Ok tt s' /\
    (devices s' = devices s \/ list_remove d (devices s) = Some (devices s')) /\
    listeners s' = listeners s /\ sensors s' = sensors s /\
    deliveries (trace s') = deliveries (trace s).
Proof.
  intros Hin. unfold initialize_device, try_except.
  pose proof (steadily_initialize_body d s) as Hbody.
  match type of Hbody with match ?m s with _ => _ end => destruct (m s) as [[] s1|e s1|] end;
    [| |done].
  - destruct Hbody as (Hdv & Hls & Hsn & _ & _ & _ & _ & tr & Ht & Hdl & _).
    exists s1. split_and!; try done; [by left|].
    by rewrite Ht, deliveries_app, Hdl, app_nil_r.
  - destruct Hbody as (Hdv & Hls & Hsn & _ & _ & _ & _ & tr & Ht & Hdl & _).
    destruct (list_remove_elem_of d (devices s1)) as (r & Hr); [by rewrite Hdv|].
    destruct (initialize_handler_run d e s1 r Hr)
      as (s' & tr' & Hrun & Hdv' & Hls' & Hsn' & _ & _ & Ht' & _ & Hdl' & _).
    exists s'. split; [exact Hrun|]. split_and!; try congruence.
    + right. congruence.
    + by rewrite Ht', Ht, !deliveries_app, Hdl, Hdl', !app_nil_r.
Qed.

Lemma list_remove_length (x : nat) (l r : list nat) :
  list_remove x l = Some r -> length l = S (length r).
Proof.
  revert r. induction l as [|y l IH]; intros r Hr; [done|]. simpl in Hr.
  destruct (Nat.eqb x y); [by simplify_eq|].
  destruct (list_remove x l) as [r'|] eqn:E; [|done]. simplify_eq. simpl.
  by rewrite (IH r').
Qed.

Lemma list_remove_sublist (x : nat) (l r : list nat) :
  list_remove x l = Some r -> sublist r l.
Proof.
  revert r. induction l as [|y l IH]; intros r Hr; [done|]. simpl in Hr.
  destruct (Nat.eqb x y); [simplify_eq; by apply sublist_cons|].
  destruct (list_remove x l) as [r'|] eqn:E; [|done]. simplify_eq.
  apply sublist_skip. by apply IH.
Qed.

Lemma initialize_from_ends fuel : forall i s,
  (length (devices s) - i < fuel)%nat ->
  exists s',
    initialize_from w fuel i s = Ok tt s' /\ devices s' `sublist_of` devices s /\
    listeners s' = listeners s /\ sensors s' = sensors s /\
    deliveries (trace s') = deliveries (trace s).
Proof.
  induction fuel as [|fuel IH]; intros i s Hfuel; [lia|].
  cbn [initialize_from]. rewrite bind_get.
  destruct (devices s !! i) as [d|] eqn:Hi; [|by exists s].
  assert (Hlt : (i < length (devices s))%nat) by (by eapply lookup_lt_Some).
  destruct (initialize_device_ends d s) as (s1 & Hrun & Hdv & Hls & Hsn & Hdl);
    [by eapply list_elem_of_lookup_2|].
  rewrite (bind_ok _ _ _ _ _ Hrun).
  destruct (IH (S i) s1) as (s' & Hrest & Hsub & Hls' & Hsn' & Hdl').
  { destruct Hdv as [->|Hr]; [lia|]. apply list_remove_length in Hr. lia. }
  exists s'. split; [exact Hrest|]. split_and!; try congruence.
  etrans; [exact Hsub|]. destruct Hdv as [->|Hr]; [done|].
  by apply list_remove_sublist in Hr.
Qed.

End Initialise.

(** X16.  [initializeDevices] always returns: one more unit of fuel than
    there are devices is enough, and no failure of a device, of its reset
    or of the clock escapes.  It only removes devices: the list it leaves
    is a sublist of the one it found; listeners and registry are
    untouched and nothing is delivered. *)
Theorem initializeDevices_returns (w : World) (fuel : nat) (s : TLX00) :
  (length (devices s) < fuel)%nat ->
  exists s',
    initializeDevices w fuel s = Ok tt s' /\ devices s' `sublist_of` devices s /\
    listeners s' = listeners s /\ sensors s' = sensors s /\
    deliveries (trace s') = deliveries (trace s).
Proof. intros Hfuel. apply initialize_from_ends. lia. Qed.

Lemma initializeDevices_returns_witness :
  exists s',
    initializeDevices (stubborn_device no_data) 3
      (logger [(1%nat, 0); (2%nat, 0)] [1%nat] true ∅) = Ok tt s' /\
    devices s' `sublist_of` devices (logger [(1%nat, 0); (2%nat, 0)] [1%nat] true ∅) /\
    listeners s' = listeners (logger [(1%nat, 0); (2%nat, 0)] [1%nat] true ∅) /\
    sensors s' = sensors (logger [(1%nat, 0); (2%nat, 0)] [1%nat] true ∅) /\
    deliveries (trace s') =
      deliveries (trace (logger [(1%nat, 0); (2%nat, 0)] [1%nat] true ∅)).
Proof.
  apply (initializeDevices_returns (stubborn_device no_data) 3
           (logger [(1%nat, 0); (2%nat, 0)] [1%nat] true ∅)).
  simpl. lia.
Defined.

(** X17.  The body of the loop of [initializeDevices] keeps a device
    exactly when both its endpoints were found and the clock can be sent.
    Then the device object holds the two addresses, the addresses are
    logged and no reset is made, also when the transfer of [setTime]
    itself fails.  Otherwise (the negotiation fails, an endpoint is
    missing, or [setTime] cannot convert the clock) the error is logged,
    one reset of the device is attempted and the first occurrence of the
    device is removed from the list; a device whose OUT endpoint was found
    and whose IN endpoint was not is removed with [outAddress] set.  The
    body returns normally in every case. *)
Theorem initialize_device_keeps_or_drops (w : World) (d : nat) (s : TLX00) (dv : Device) :
  (5 <= length (requestBuffer s))%nat -> d ∈ devices s -> heap s !! d = Some dv ->
  exists s' tr,
    initialize_device w d s = Ok tt s' /\ trace s' = trace s ++ tr /\
    (forall o i, w_configure w (tick s) d = Some (Some o, Some i) ->
       sendable (w_time w (S (tick s))) ->
       devices s' = devices s /\
       outAddress <$> heap s' !! d = Some (Some o) /\
       inAddress <$> heap s' !! d = Some (Some i) /\
       (EvReset d ∉ tr) /\
       (logged tr = [LogAddresses d i o] \/
        logged tr = [LogAddresses d i o; LogErrorSettingTime USBError])) /\
    ((forall o i, w_configure w (tick s) d <> Some (Some o, Some i)) \/
     ~ sendable (w_time w (S (tick s))) ->
       list_remove d (devices s) = Some (devices s') /\
       (EvReset d ∈ tr) /\ exists e, LogErrorInitializing d e ∈ logged tr) /\
    (forall o, w_configure w (tick s) d = Some (Some o, None) ->
       heap s' !! d = Some (with_outAddress o dv)).
Proof.
  intros Hlen Hin Hd.
  destruct (list_remove_elem_of d (devices s) Hin) as (r & Hr).
  assert (Hdrop : forall e s2 tr0,
            devices s2 = devices s -> trace s2 = trace s ++ tr0 ->
            exists s' tr,
              (log (LogErrorInitializing d e) >>
               emit (EvReset d) >>
               let! ok := ask (fun t => w_reset w t d) in
               (if ok : bool then ret tt else log (LogErrorResetting d)) >>
               let! s := get in
               match list_remove d (devices s) with
               | Some r => modify (set_devices r)
               | None => raise ValueError
               end) s2 = Ok tt s' /\
              trace s' = trace s ++ tr /\ heap s' = heap s2 /\
              list_remove d (devices s) = Some (devices s') /\
              (EvReset d ∈ tr) /\ exists e, LogErrorInitializing d e ∈ logged tr).
  { intros e s2 tr0 Hd2 Ht2.
    destruct (initialize_handler_run w d e s2 r)
      as (s' & tr' & Hrun & Hdv' & _ & _ & Hh' & _ & Ht' & Hto' & _ & Hlg');
      [by rewrite Hd2|].
    exists s', (tr0 ++ tr'). split; [exact Hrun|]. split_and!.
    - by rewrite Ht', Ht2, <- app_assoc.
    - done.
    - congruence.
    - apply elem_of_app. right.
      assert (H : EvReset d ∈ transport_ops tr') by (rewrite Hto'; apply list_elem_of_here).
      unfold transport_ops in H. by apply list_elem_of_filter in H as [_ H].
    - exists e. rewrite logged_app, Hlg'. apply elem_of_app. right.
      apply list_elem_of_here. }
  unfold initialize_device, try_except.
  rewrite bind_emit, bind_ask. norm.
  destruct (w_configure w (tick s) d) as [[[o|] [i|]]|] eqn:Hc; cbn [bEndpointAddress].
  - rewrite bind_ret, bind_dev_set, bind_ret, bind_dev_set, bind_log. norm.
    match goal with |- context [setTime w d ?st] => set (s1 := st) end.
    assert (Hh1 : heap s1 !! d = Some (with_inAddress i (with_outAddress o dv)))
      by (unfold s1; norm; by rewrite !lookup_alter_eq, Hd).
    assert (Hready : ready d s1).
    { split; [done|]. by exists (with_inAddress i (with_outAddress o dv)), o, i. }
    assert (Ht1 : trace s1 = trace s ++ [EvConfigure d; EvLog (LogAddresses d i o)])
      by (unfold s1; norm; by rewrite <- app_assoc).
    assert (Hd1 : devices s1 = devices s) by done.
    assert (Hk1 : tick s1 = S (tick s)) by done.
    clearbody s1.
    destruct (classic_sendable (w_time w (tick s1))) as [Hs|Hns].
    + pose proof (setTime_cases w d s1 Hready Hs) as Hrun. cbv zeta in Hrun.
      rewrite Hrun. clear Hrun.
      destruct (w_write w (S (tick s1)) d);
        [destruct (w_read w (S (S (tick s1))) d)|];
        eexists _, _; (split; [reflexivity|]);
        (split; [unfold did_read, wrote; norm; rewrite Ht1, <- ?app_assoc; reflexivity|]);
        (split; [intros o' i' [= <- <-] _
                |split; [intros [Hno|Hns]; [by destruct (Hno o i)|by rewrite <- Hk1 in Hns]
                        |by intros o']]);
        unfold did_read, wrote; norm; rewrite ?lookup_alter_eq, Hh1;
        split_and!; try done.
      all: simpl.
      all: try (intros H; repeat (apply elem_of_cons in H as [?|H]; [done|]);
                by apply elem_of_nil in H).
      all: first [by left|by right].
    + rewrite (setTime_unsendable w d s1 (proj1 Hready) Hns).
      pose (s2 := set_requestBuffer (command [4; 0; 0; 0; 0] (requestBuffer s1))
                    (set_tick (S (tick s1)) s1)).
      destruct (Hdrop OverflowError s2 [EvConfigure d; EvLog (LogAddresses d i o)])
        as (s' & tr & Hrun & Ht & _ & Hrm & Hreset & Hlog); [done|done|].
      exists s', tr. split; [exact Hrun|]. split; [exact Ht|].
      split; [intros o' i' _ Hs; by rewrite <- Hk1 in Hs|].
      split; [by intros _|by intros o'].
  - pose (s2 := set_heap (alter (with_outAddress o) d (heap s))
                  (set_tick (S (tick s)) (add_event (EvConfigure d) s))).
    destruct (Hdrop AttributeError s2 [EvConfigure d])
      as (s' & tr & Hrun & Ht & Hh & Hrm & Hreset & Hlog); [done|done|].
    exists s', tr. rewrite bind_ret, bind_dev_set. split; [exact Hrun|].
    split; [exact Ht|]. split; [by intros o' i'|]. split; [by intros _|].
    intros o' [= <-]. rewrite Hh. unfold s2. norm. by rewrite lookup_alter_eq, Hd.
  - pose (s2 := set_tick (S (tick s)) (add_event (EvConfigure d) s)).
    destruct (Hdrop AttributeError s2 [EvConfigure d])
      as (s' & tr & Hrun & Ht & Hh & Hrm & Hreset & Hlog); [done|done|].
    exists s', tr. split; [exact Hrun|].
    split; [exact Ht|]. split; [by intros o' i'|]. split; [by intros _|by intros o'].
  - pose (s2 := set_tick (S (tick s)) (add_event (EvConfigure d) s)).
    destruct (Hdrop AttributeError s2 [EvConfigure d])
      as (s' & tr & Hrun & Ht & Hh & Hrm & Hreset & Hlog); [done|done|].
    exists s', tr. split; [exact Hrun|].
    split; [exact Ht|]. split; [by intros o' i'|]. split; [by intros _|by intros o'].
  - pose (s2 := set_tick (S (tick s)) (add_event (EvConfigure d) s)).
    destruct (Hdrop USBError s2 [EvConfigure d])
      as (s' & tr & Hrun & Ht & Hh & Hrm & Hreset & Hlog); [done|done|].
    exists s', tr. split; [exact Hrun|].
    split; [exact Ht|]. split; [by intros o' i'|]. split; [by intros _|by intros o'].
Qed.

Lemma initialize_device_keeps_or_drops_witness :
  exists s' tr,
    initialize_device (stubborn_device no_data) 1
      (logger [(1%nat, 0); (2%nat, 0)] [1%nat] true ∅) = Ok tt s' /\
    trace s' = trace (logger [(1%nat, 0); (2%nat, 0)] [1%nat] true ∅) ++ tr /\
    list_remove 1 (devices (logger [(1%nat, 0); (2%nat, 0)] [1%nat] true ∅))
      = Some (devices s') /\
    EvReset 1 ∈ tr.
Proof.
  destruct (initialize_device_keeps_or_drops (stubborn_device no_data) 1
              (logger [(1%nat, 0); (2%nat, 0)] [1%nat] true ∅) (device_at 0))
    as (s' & tr & H1 & H2 & _ & H3 & _).
  - simpl. lia.
  - apply list_elem_of_here.
  - reflexivity.
  - exists s', tr. split; [exact H1|]. split; [exact H2|].
    destruct H3 as (H3 & H4 & _); [by left|]. by split.
Defined.

(** A device object with a half of its addresses: the endpoint search of
    device 1 finds the OUT endpoint only. *)
Example half_initialised_device :
  exists s',
    initialize_device
      (mkWorld (fun _ => T0) (fun _ _ => true) (fun _ _ => Some no_data)
               (fun _ _ => Some (Some 1, None)) (fun _ _ => true) (fun _ => inr [])
               (fun _ _ _ => true) (fun _ => []))
      1 (logger [(1%nat, 0)] [1%nat] true ∅) = Ok tt s' /\
    devices s' = [] /\
    logged (trace s') = [LogErrorInitializing 1 AttributeError] /\
    transport_ops (trace s') = [EvConfigure 1; EvReset 1].
Proof. eexists. split; [vm_compute; reflexivity|]. by vm_compute. Qed.

(** ** The pass over one device *)

(** X18.  A listener that raises counts against the device: when a
    delivery of a poll fails, the device's error counter goes up by one
    (it is not reset, although the transfer itself worked and
    [lastTimeDataRead] was set), and past ten the device is removed from
    the list. *)
Theorem listener_fault_counts_against_device (w : World) (dev : nat) (s : TLX00)
    (d : Device) (rawdata : list Z) :
  ready dev s -> heap s !! dev = Some d -> dev ∈ devices s ->
  w_write w (tick s) dev = true -> w_read w (S (S (tick s))) dev = Some rawdata ->
  is_frame rawdata = true -> no_new_data rawdata = false ->
  exists fl s' tr,
    poll w dev s = Ok fl s' /\ trace s' = trace s ++ tr /\
    forall l dp, (l, dp, false) ∈ deliveries tr ->
      heap s' !! dev =
        Some (with_deviceErrors (deviceErrors d + 1)
                (with_lastTimeDataRead (w_time w (S (S (S (tick s))))) d)) /\
      (deviceErrors d + 1 <= 10 -> devices s' = devices s) /\
      (10 < deviceErrors d + 1 ->
       list_remove dev (devices s) = Some (devices s') /\
       LogTooManyErrors dev ∈ logged tr).
Proof.
  intros Hready Hd Hin Hw Hr Hf Hn.
  rewrite (poll_data w dev s rawdata) by done.
  destruct (listening_facts w dev rawdata s) as (Ht & Hdv & Hsn & Hdt & Hls & Hhp).
  destruct (prelude_quiet dev rawdata s) as (Hp1 & Hp2 & Hp3 & Hp4).
  set (s0 := listening w dev rawdata s) in *. clearbody s0.
  pose proof (parseData_post rawdata s0 Hf) as Hpost.
  destruct (parseData rawdata s0) as [dps s1|e s1|] eqn:Hparse; simpl in Hpost;
    [| |done]; cycle 1.
  { destruct Hpost as (tr1 & k & -> & _ & _ & _ & Htr1 & (Hd1 & _ & _ & _ & _ & Hh1 & _)
                         & _ & _ & Hdel1 & _).
    destruct (poll_except_post dev (KeyError k) s1
                (with_lastTimeDataRead (w_time w (S (S (S (tick s))))) d))
      as (s' & tr3 & Hex & Htr3 & _ & _ & _ & Hdel3 & _).
    { rewrite Hh1, Hhp. by rewrite lookup_alter_eq, Hd. }
    { by rewrite Hd1, Hdv. }
    eexists Break, s', (prelude dev rawdata s ++ tr1 ++ tr3). split_and!.
    - rewrite <- Hex. apply try_except_raise. unfold publish. by apply bind_raise.
    - rewrite Htr3, Htr1, Ht. by rewrite <- !app_assoc.
    - intros l dp Hbad. exfalso.
      rewrite !deliveries_app, Hp3, Hdel1, Hdel3 in Hbad.
      by apply elem_of_nil in Hbad. }
  destruct Hpost as (tr1 & Htr1 & (Hd1 & Hl1 & _ & _ & _ & Hh1 & _) & Hdps & _ & _ & _
                       & _ & _ & _ & _ & Hdel1 & _).
  pose proof (notify_run w dps s1) as Hnp.
  destruct (notify w dps s1) as [[] s2|e s2|] eqn:Hnot; simpl in Hnp; [| |done].
  - destruct Hnp as (_ & tr2 & Htr2 & _ & Hdel2).
    eexists Next, _, (prelude dev rawdata s ++ tr1 ++ tr2 ++ []). split_and!.
    + apply try_except_ok. unfold publish.
      rewrite (bind_ok _ _ _ _ _ Hparse), (bind_ok _ _ _ _ _ Hnot), bind_dev_set.
      reflexivity.
    + norm. rewrite Htr2, Htr1, Ht, app_nil_r. by rewrite <- !app_assoc.
    + intros l dp Hbad. exfalso.
      rewrite !deliveries_app, Hp3, Hdel1, Hdel2 in Hbad. simpl in Hbad.
      rewrite app_nil_r in Hbad. by apply flat_served_true in Hbad.
  - destruct Hnp as (-> & (Hd2 & _ & _ & _ & _ & _ & Hh2) & tr2 & dps1 & dp' & dps2
                       & ls1 & l' & ls2 & _ & _ & Htr2 & _).
    destruct (poll_except_post dev ListenerFault s2
                (with_lastTimeDataRead (w_time w (S (S (S (tick s))))) d))
      as (s' & tr3 & Hex & Htr3 & Hlg3 & _ & _ & _ & _ & Hh3 & _ & _ & Hkeep & Hdrop).
    { rewrite Hh2, Hh1, Hhp. by rewrite lookup_alter_eq, Hd. }
    { by rewrite Hd2, Hd1, Hdv. }
    eexists Break, s', (prelude dev rawdata s ++ tr1 ++ tr2 ++ tr3). split_and!.
    + rewrite <- Hex. apply try_except_raise. unfold publish.
      rewrite (bind_ok _ _ _ _ _ Hparse). by apply bind_raise.
    + rewrite Htr3, Htr2, Htr1, Ht. by rewrite <- !app_assoc.
    + intros l dp _. split_and!.
      * rewrite Hh3, Hh2, Hh1, Hhp. by rewrite !lookup_alter_eq, Hd.
      * intros Hle. rewrite (Hkeep Hle). congruence.
      * intros Hgt. split; [rewrite <- (Hdrop Hgt); congruence|].
        rewrite !logged_app, Hlg3.
        replace (deviceErrors (with_lastTimeDataRead _ d) + 1 >? 10) with true
          by (symmetry; apply Z.gtb_lt; simpl; lia).
        rewrite !elem_of_app. do 3 right. apply list_elem_of_further, list_elem_of_here.
Qed.

Lemma listener_fault_counts_against_device_witness :
  exists fl s' tr,
    poll (faulty_listener frame1) 1 (logger [(1%nat, 10)] [1%nat; 2%nat] true ∅) = Ok fl s' /\
    trace s' = trace (logger [(1%nat, 10)] [1%nat; 2%nat] true ∅) ++ tr /\
    forall l dp, (l, dp, false) ∈ deliveries tr ->
      heap s' !! 1%nat =
        Some (with_deviceErrors (deviceErrors (device_at 10) + 1)
                (with_lastTimeDataRead
                   (w_time (faulty_listener frame1)
                      (S (S (S (tick (logger [(1%nat, 10)] [1%nat; 2%nat] true ∅))))))
                   (device_at 10))) /\
      (deviceErrors (device_at 10) + 1 <= 10 ->
       devices s' = devices (logger [(1%nat, 10)] [1%nat; 2%nat] true ∅)) /\
      (10 < deviceErrors (device_at 10) + 1 ->
       list_remove 1 (devices (logger [(1%nat, 10)] [1%nat; 2%nat] true ∅))
         = Some (devices s') /\
       LogTooManyErrors 1 ∈ logged tr).
Proof.
  apply (listener_fault_counts_against_device (faulty_listener frame1) 1
           (logger [(1%nat, 10)] [1%nat; 2%nat] true ∅) (device_at 10) frame1).
  - apply ready_logger.
  - reflexivity.
  - apply list_elem_of_here.
  - reflexivity.
  - reflexivity.
  - reflexivity.
  - reflexivity.
Defined.

(** With a failing listener the eleventh poll removes a device that
    answers every transfer. *)
Example healthy_device_removed :
  exists s',
    poll (faulty_listener frame1) 1 (logger [(1%nat, 10)] [1%nat; 2%nat] true ∅)
      = Ok Break s' /\
    devices s' = [] /\
    transport_ops (trace s') = [EvWrite 1 (3 :: replicate 63 0); EvRead 1].
Proof. eexists. split; [vm_compute; reflexivity|]. by vm_compute. Qed.

Section Serve.

Variable w : World.

Lemma setTime_keeps_ready dev s d :
  ready dev s -> heap s !! dev = Some d -> sendable (w_time w (tick s)) ->
  exists s' d',
    setTime w dev s = Ok tt s' /\ ready dev s' /\ heap s' !! dev = Some d' /\
    lastTimeDelete d' = lastTimeDelete d /\ deviceErrors d' = deviceErrors d /\
    exists tr, trace s' = trace s ++ tr /\ deliveries tr = [].
Proof.
  intros Hready Hd Hs. pose proof (setTime_cases w dev s Hready Hs) as Hrun.
  cbv zeta in Hrun. rewrite Hrun. clear Hrun.
  destruct Hready as (Hlen & d0 & a & b & Hd0 & Ha & Hb).
  assert (d0 = d) as -> by congruence.
  assert (Hlen' : forall t, (5 <= length (command (4%Z :: u32le t) (requestBuffer s)))%nat)
    by (intros t; rewrite command_length; [done|done|done]).
  destruct (w_write w (S (tick s)) dev);
    [destruct (w_read w (S (S (tick s))) dev)|].
  - eexists _, (with_lastTimeSync _ d). split; [reflexivity|].
    unfold did_read, wrote. norm. rewrite lookup_alter_eq, Hd0. split_and!; try done.
    + split; [apply Hlen'|]. exists (with_lastTimeSync (w_time w (S (S (S (tick s))))) d), a, b.
      norm. by rewrite lookup_alter_eq, Hd0.
    + eexists [_; _]. by rewrite <- app_assoc.
  - eexists _, d. split; [reflexivity|].
    unfold did_read, wrote. norm. split_and!; try done.
    + split; [apply Hlen'|]. by exists d, a, b.
    + eexists [_; _; _]. by rewrite <- !app_assoc.
  - eexists _, d. split; [reflexivity|].
    unfold wrote. norm. split_and!; try done.
    + split; [apply Hlen'|]. by exists d, a, b.
    + eexists [_; _]. by rewrite <- !app_assoc.
Qed.

Lemma deleteDeviceData_ok dev s :
  ready dev s ->
  exists s' tr,
    deleteDeviceData w dev s = Ok tt s' /\
    trace s' = trace s ++ EvWrite dev (command [13; 0; 0; 0; 0] (requestBuffer s)) :: tr /\
    deliveries tr = [].
Proof.
  intros Hready. pose proof (deleteDeviceData_cases w dev s Hready) as Hrun.
  cbv zeta in Hrun. rewrite Hrun. clear Hrun.
  destruct (w_write w (tick s) dev); [destruct (w_read w (S (tick s)) dev)|];
    eexists _, _; (split; [reflexivity|]);
    (split; [unfold did_read, wrote; norm; rewrite <- ?app_assoc; reflexivity|done]).
Qed.

End Serve.

(** X19.  A device object that was never erased ([lastTimeDelete] is 0,
    as [findDevices] leaves it) has its flash erased on the first pass of
    [loop] over it, before it is polled: with a clock [setTime] can send,
    the pass writes the command 13 to the device and only then enters the
    read loop. *)
Theorem fresh_device_is_erased (w : World) (fuel : nat) (dev : nat) (s : TLX00)
    (d : Device) :
  ready dev s -> heap s !! dev = Some d -> lastTimeDelete d = 0 ->
  (forall t, sendable (w_time w t)) ->
  exists s' tr1 tr2 buf,
    serve_device w fuel dev s = read_loop w fuel dev s' /\
    trace s' = trace s ++ tr1 ++ EvWrite dev buf :: tr2 /\
    take 5 buf = [13; 0; 0; 0; 0] /\
    deliveries tr1 = [] /\ deliveries tr2 = [].
Proof.
  intros Hready Hd Hltd Hclock. unfold serve_device.
  rewrite bind_time.
  rewrite (bind_dev_attr _ _ _ _ d (lastTimeSync d)) by done.
  assert (Hmid : exists sA dA trA,
            ready dev sA /\ heap sA !! dev = Some dA /\ lastTimeDelete dA = 0 /\
            trace sA = trace s ++ trA /\ deliveries trA = [] /\
            forall B (k : unit -> M B),
              bind (if w_time w (tick s) - lastTimeSync d >? 900
                    then setTime w dev else ret tt) k (set_tick (S (tick s)) s) = k tt sA).
  { destruct (w_time w (tick s) - lastTimeSync d >? 900).
    - destruct (setTime_keeps_ready w dev (set_tick (S (tick s)) s) d)
        as (sA & dA & Hrun & HrA & HdA & Hl & _ & trA & HtA & HdlA); [done|done|apply Hclock|].
      exists sA, dA, trA. split_and!; try done; [congruence|].
      intros B k. by rewrite (bind_ok _ _ _ _ _ Hrun).
    - exists (set_tick (S (tick s)) s), d, []. split_and!; try done.
      by rewrite app_nil_r. }
  destruct Hmid as (sA & dA & trA & HrA & HdA & HlA & HtA & HdlA & Hstep).
  rewrite Hstep. clear Hstep.
  rewrite bind_time.
  rewrite (bind_dev_attr _ _ _ _ dA (lastTimeDelete dA)) by done.
  replace (w_time w (tick sA) - lastTimeDelete dA >? 86400) with true.
  2:{ symmetry. apply Z.gtb_lt. rewrite HlA. destruct (Hclock (tick sA)) as [Hlo _].
      unfold TIME_OFFSET in Hlo. lia. }
  destruct (deleteDeviceData_ok w dev (set_tick (S (tick sA)) sA))
    as (s' & tr & Hrun & Ht & Hdl).
  { destruct HrA as (Hlen & x & a & b & Hx & Ha & Hb). split; [done|]. by exists x, a, b. }
  rewrite (bind_ok _ _ _ _ _ Hrun).
  exists s', trA, tr, (command [13; 0; 0; 0; 0] (requestBuffer sA)).
  split; [reflexivity|]. split_and!; try done.
  rewrite Ht. norm. by rewrite HtA, <- app_assoc.
Qed.

Lemma fresh_device_is_erased_witness :
  exists s' tr1 tr2 buf,
    serve_device (calm no_data) 2 1 unsynced_logger = read_loop (calm no_data) 2 1 s' /\
    trace s' = trace unsynced_logger ++ tr1 ++ EvWrite 1 buf :: tr2 /\
    take 5 buf = [13; 0; 0; 0; 0] /\
    deliveries tr1 = [] /\ deliveries tr2 = [].
Proof.
  apply (fresh_device_is_erased (calm no_data) 2 1 unsynced_logger unsynced_device).
  - split; [simpl; lia|]. exists unsynced_device, 1, 129. by split.
  - reflexivity.
  - reflexivity.
  - intros t. unfold sendable. simpl. unfold T0, TIME_OFFSET. lia.
Defined.

Section Busy.

Variable w : World.

Lemma listening_ready dev rawdata s :
  ready dev s -> ready dev (listening w dev rawdata s).
Proof.
  intros (Hlen & d & a & b & Hd & Ha & Hb).
  destruct (listening_facts w dev rawdata s) as (_ & _ & _ & _ & _ & Hh).
  split.
  - unfold listening, stamped, peeked, answered, did_read, sleep_state, wrote, armed.
    destruct (byte_at rawdata 0 =? 0); norm; unfold cleared; rewrite !length_insert; lia.
  - exists (with_lastTimeDataRead (w_time w (S (S (S (tick s))))) d), a, b.
    rewrite Hh, lookup_alter_eq, Hd. done.
Qed.

Lemma poll_next dev s rawdata :
  ready dev s -> detectUnknownSensors s = true ->
  w_write w (tick s) dev = true -> w_read w (S (S (tick s))) dev = Some rawdata ->
  is_frame rawdata = true -> no_new_data rawdata = false ->
  (forall t l dp, w_onNewData w t l dp = true) ->
  exists s', poll w dev s = Ok Next s' /\ ready dev s' /\ detectUnknownSensors s' = true /\
             listeners s' = run_ops (w_sleep w (S (tick s))) (listeners s).
Proof.
  intros Hready Hdet Hw Hr Hf Hn Hls.
  rewrite (poll_data w dev s rawdata) by done.
  pose proof (listening_ready dev rawdata s Hready) as Hready0.
  destruct (listening_facts w dev rawdata s) as (_ & _ & _ & Hdt & Hls0 & _).
  set (s0 := listening w dev rawdata s) in *. clearbody s0.
  pose proof (parseData_post rawdata s0 Hf) as Hpost.
  destruct (parseData rawdata s0) as [dps s1|e s1|] eqn:Hparse; simpl in Hpost;
    [| |done].
  2:{ destruct Hpost as (tr1 & k & _ & Hoff & _). congruence. }
  destruct Hpost as (tr1 & _ & (_ & Hl1 & Hb1 & Hdt1 & _ & Hh1 & _) & _).
  destruct (notify_all_ok w dps Hls s1) as (s2 & Hnot).
  pose proof (notify_run w dps s1) as Hnp. rewrite Hnot in Hnp. simpl in Hnp.
  destruct Hnp as ((_ & Hl2 & _ & Hb2 & Hdt2 & _ & Hh2) & _).
  eexists. split.
  - apply try_except_ok. unfold publish.
    rewrite (bind_ok _ _ _ _ _ Hparse), (bind_ok _ _ _ _ _ Hnot), bind_dev_set.
    reflexivity.
  - destruct Hready0 as (Hlen & d & a & b & Hd & Ha & Hb). split_and!.
    + split; [norm; congruence|].
      exists (with_deviceErrors 0 d), a, b. norm.
      rewrite Hh2, Hh1, lookup_alter_eq, Hd. done.
    + norm. congruence.
    + norm. congruence.
Qed.

End Busy.

(** X20.  The read loop of a device has no bound of its own: as long as
    the device answers every poll with a frame that holds data (detection
    on, no listener raising), the loop neither returns nor raises, so no
    other device is served and the listener list is not looked at,
    whatever is registered or unregistered in the meantime. *)
Theorem busy_device_is_never_left (w : World) (dev : nat) (fuel : nat) (s : TLX00) :
  ready dev s -> detectUnknownSensors s = true ->
  (forall t, w_write w t dev = true) ->
  (forall t, exists rawdata, w_read w t dev = Some rawdata /\
                             is_frame rawdata = true /\ no_new_data rawdata = false) ->
  (forall t l dp, w_onNewData w t l dp = true) ->
  read_loop w fuel dev s = OutOfFuel.
Proof.
  intros Hready Hdet Hw Hr Hls. revert s Hready Hdet.
  induction fuel as [|fuel IH]; intros s Hready Hdet; [reflexivity|].
  destruct (Hr (S (S (tick s)))) as (rawdata & Hrd & Hf & Hn).
  destruct (poll_next w dev s rawdata) as (s' & Hpoll & Hready' & Hdet' & _); try done.
  cbn [read_loop]. rewrite (bind_ok _ _ _ _ _ Hpoll). by apply IH.
Qed.

Lemma busy_device_is_never_left_witness :
  read_loop (calm frame1) 7 1 (logger [(1%nat, 0)] [1%nat] true ∅) = OutOfFuel.
Proof.
  apply (busy_device_is_never_left (calm frame1) 1 7 (logger [(1%nat, 0)] [1%nat] true ∅)).
  - apply ready_logger.
  - reflexivity.
  - reflexivity.
  - intros t. exists frame1. by split_and!.
  - reflexivity.
Defined.

(** ** The pass over the device list *)

Section Runs.

Variable P : TLX00 -> TLX00 -> Prop.
Hypothesis P_trans : forall s1 s2 s3, P s1 s2 -> P s2 s3 -> P s1 s3.

Lemma keeps_runs {A} (m : M A) : keeps P m -> runs P m.
Proof. intros H s. specialize (H s). by destruct (m s). Qed.

Lemma runs_bind {A B} (m : M A) (k : A -> M B) :
  runs P m -> (forall a, runs P (k a)) -> runs P (bind m k).
Proof.
  intros Hm Hk s. unfold bind. specialize (Hm s).
  destruct (m s) as [a s1|e s1|]; [|done|done].
  specialize (Hk a s1). destruct (k a s1); eauto.
Qed.

End Runs.

Lemma NoDup_without (d : nat) (l1 l2 : list nat) :
  NoDup (l1 ++ d :: l2) -> NoDup (l1 ++ l2) /\ d ∉ l1 ++ l2.
Proof.
  rewrite !NoDup_app, NoDup_cons. intros (H1 & H12 & Hd & H2). split.
  - split_and!; try done. intros x Hx Hx2. apply (H12 x Hx). by right.
  - rewrite elem_of_app. intros [Hd1|Hd2]; [|done].
    apply (H12 d Hd1). by left.
Qed.

Lemma serving_NoDup d s s' : serving d s s' -> NoDup (devices s) -> NoDup (devices s').
Proof.
  intros (Hl & _) Hnd. destruct (Hl Hnd) as [->|(l1 & l2 & E & ->)]; [done|].
  rewrite E in Hnd. by apply NoDup_without in Hnd as [? _].
Qed.

Lemma serving_refl d s : serving d s s.
Proof. split; [by auto|]. exists []. by rewrite app_nil_r. Qed.

Lemma serving_trans d s1 s2 s3 : serving d s1 s2 -> serving d s2 s3 -> serving d s1 s3.
Proof.
  intros H12 H23. pose proof (serving_NoDup d s1 s2 H12) as Hnd2.
  destruct H12 as (Hl & tr & Ht & Hto), H23 as (Hl' & tr' & Ht' & Hto'). split.
  - intros Hnd. specialize (Hnd2 Hnd).
    destruct (Hl Hnd) as [E|(l1 & l2 & E1 & E2)].
    + rewrite <- E. by apply Hl'.
    + destruct (Hl' Hnd2) as [E'|(l1' & l2' & E1' & E2')].
      * right. exists l1, l2. by rewrite E'.
      * exfalso. rewrite E1 in Hnd. apply NoDup_without in Hnd as [_ Hd].
        apply Hd. rewrite <- E2, E1'. apply elem_of_app. right. apply list_elem_of_here.
  - exists (tr ++ tr'). rewrite Ht', Ht, <- app_assoc. split; [done|].
    rewrite transport_ops_app. by apply Forall_app.
Qed.

Lemma offline_serving d s s' : offline s s' -> serving d s s'.
Proof.
  intros (Hdv & _ & _ & tr & Ht & Hto). split; [by auto|].
  exists tr. by rewrite Hto.
Qed.

Lemma keeps_offline_serving {A} d (m : M A) : keeps offline m -> keeps (serving d) m.
Proof.
  intros H s. specialize (H s). destruct (m s); try done; by apply offline_serving.
Qed.

Lemma list_remove_split (d : nat) (l r : list nat) :
  list_remove d l = Some r -> exists l1 l2, l = l1 ++ d :: l2 /\ r = l1 ++ l2.
Proof.
  revert r. induction l as [|y l IH]; intros r Hr; [done|]. simpl in Hr.
  destruct (Nat.eqb_spec d y) as [->|Hne].
  - simplify_eq. by exists [], r.
  - destruct (list_remove d l) as [r'|] eqn:E; [|done]. simplify_eq.
    destruct (IH r' eq_refl) as (l1 & l2 & -> & ->). by exists (y :: l1), l2.
Qed.

Section Serving.

Variable w : World.
Variable d : nat.

Local Ltac srv_bind := apply (keeps_bind (serving d) (serving_trans d)); [|intros ?].
Local Ltac srv_off := apply keeps_offline_serving.

Lemma serving_setbuf i v : keeps (serving d) (setbuf i v).
Proof.
  intros s. unfold setbuf, bind, get. destruct (decide _); simpl.
  - split; [by auto|]. exists []. by rewrite app_nil_r.
  - apply serving_refl.
Qed.

Lemma serving_clearRequestBuffer : keeps (serving d) clearRequestBuffer.
Proof.
  unfold clearRequestBuffer.
  do 4 (srv_bind; [apply serving_setbuf|]). apply serving_setbuf.
Qed.

Lemma offline_dev_attr {A} dev (f : Device -> option A) : keeps offline (dev_attr dev f).
Proof.
  apply (keeps_bind offline offline_trans); [apply keeps_get, offline_refl|]. intros s.
  destruct (heap s !! dev ≫= f); [apply keeps_ret|apply keeps_raise]; apply offline_refl.
Qed.

Lemma offline_log m : keeps offline (log m).
Proof. by apply offline_emit. Qed.

Lemma offline_sleep : keeps offline (sleep w).
Proof.
  intros s. pose proof (bind_sleep w ret s) as H. unfold bind in H.
  destruct (sleep w s) as [[] s1|e s1|]; simpl in H; try done. simplify_eq.
  unfold sleep_state.
  eapply offline_trans; [apply (offline_event EvSleep); done|].
  eapply offline_trans; [apply offline_tick|]. apply offline_listeners.
Qed.

Lemma serving_transfer e : on_device d e -> keeps (serving d) (emit e).
Proof.
  intros He s. split; [by auto|]. exists [e]. split; [done|].
  unfold transport_ops. destruct e; try done; simpl in He; subst;
    (rewrite filter_cons_True by done); by repeat constructor.
Qed.

Lemma serving_usb_write : keeps (serving d) (usb_write w d).
Proof.
  unfold usb_write. srv_bind; [srv_off; apply offline_dev_attr|].
  srv_bind; [apply keeps_get, serving_refl|].
  srv_bind; [by apply serving_transfer|].
  srv_bind; [srv_off; apply offline_ask|].
  destruct a2; [apply keeps_ret|apply keeps_raise]; apply serving_refl.
Qed.

Lemma serving_usb_read : keeps (serving d) (usb_read w d).
Proof.
  unfold usb_read. srv_bind; [srv_off; apply offline_dev_attr|].
  srv_bind; [by apply serving_transfer|].
  srv_bind; [srv_off; apply offline_ask|].
  destruct a1; [apply keeps_ret|apply keeps_raise]; apply serving_refl.
Qed.

Lemma serving_exchange stamp : keeps (serving d) (exchange w d stamp).
Proof.
  unfold exchange. srv_bind; [apply serving_usb_write|].
  srv_bind; [apply serving_usb_read|].
  srv_bind; [srv_off; apply offline_ask|].
  srv_off. apply offline_dev_set.
Qed.

Lemma serving_setTime : keeps (serving d) (setTime w d).
Proof.
  unfold setTime. srv_bind; [apply serving_clearRequestBuffer|].
  srv_bind; [apply serving_setbuf|].
  srv_bind; [srv_off; apply offline_ask|].
  srv_bind.
  { unfold to_bytes4_little.
    destruct (_ || _); [apply keeps_raise|apply keeps_ret]; apply serving_refl. }
  do 4 (srv_bind; [apply serving_setbuf|]).
  apply (keeps_try_except (serving d) (serving_trans d)); [apply serving_exchange|].
  intros e. srv_off. apply offline_log.
Qed.

Lemma serving_deleteDeviceData : keeps (serving d) (deleteDeviceData w d).
Proof.
  unfold deleteDeviceData. srv_bind; [apply serving_clearRequestBuffer|].
  srv_bind; [apply serving_setbuf|].
  apply (keeps_try_except (serving d) (serving_trans d)); [apply serving_exchange|].
  intros e. srv_off. apply offline_log.
Qed.

Lemma serving_poll_except e : keeps (serving d) (poll_except d e).
Proof.
  unfold poll_except. srv_bind; [srv_off; apply offline_log|].
  srv_bind; [srv_off; apply offline_dev_attr|].
  srv_bind; [srv_off; apply offline_dev_set|].
  srv_bind; [srv_off; apply offline_dev_attr|].
  srv_bind; [|apply keeps_ret, serving_refl].
  apply keeps_if; [|apply keeps_ret, serving_refl].
  srv_bind; [srv_off; apply offline_log|].
  intros s. unfold bind, get.
  destruct (list_remove d (devices s)) as [r|] eqn:Hr; [|apply serving_refl].
  unfold modify. split.
  - intros _. norm. right. destruct (list_remove_split d _ r Hr) as (l1 & l2 & E & ->).
    by exists l1, l2.
  - exists []. by rewrite app_nil_r.
Qed.

Lemma serving_poll : keeps (serving d) (poll w d).
Proof.
  unfold poll. srv_bind; [apply serving_clearRequestBuffer|].
  srv_bind; [apply serving_setbuf|].
  apply (keeps_try_except (serving d) (serving_trans d)); [|apply serving_poll_except].
  rewrite poll_try_after_read.
  srv_bind; [apply serving_usb_write|].
  srv_bind; [srv_off; apply offline_sleep|].
  srv_bind; [apply serving_usb_read|].
  srv_off. apply offline_after_read.
Qed.

Lemma serving_read_loop fuel : runs (serving d) (read_loop w fuel d).
Proof.
  induction fuel as [|fuel IH]; [done|]. cbn [read_loop].
  apply (runs_bind (serving d) (serving_trans d)).
  - apply keeps_runs, serving_poll.
  - intros [|]; [exact IH|]. apply keeps_runs, keeps_ret, serving_refl.
Qed.

Lemma serving_serve_device fuel : runs (serving d) (serve_device w fuel d).
Proof.
  unfold serve_device.
  apply (runs_bind (serving d) (serving_trans d));
    [apply keeps_runs; srv_off; apply offline_ask|intros now].
  apply (runs_bind (serving d) (serving_trans d));
    [apply keeps_runs; srv_off; apply offline_dev_attr|intros lts].
  apply (runs_bind (serving d) (serving_trans d)).
  { apply keeps_runs, keeps_if; [apply serving_setTime|apply keeps_ret, serving_refl]. }
  intros _.
  apply (runs_bind (serving d) (serving_trans d));
    [apply keeps_runs; srv_off; apply offline_ask|intros now'].
  apply (runs_bind (serving d) (serving_trans d));
    [apply keeps_runs; srv_off; apply offline_dev_attr|intros ltd].
  apply (runs_bind (serving d) (serving_trans d)).
  { apply keeps_runs, keeps_if;
      [apply serving_deleteDeviceData|apply keeps_ret, serving_refl]. }
  intros _. apply serving_read_loop.
Qed.

End Serving.

Lemma removed_index (l l1 l2 : list nat) (j : nat) (d : nat) :
  NoDup l -> l !! j = Some d -> l = l1 ++ d :: l2 -> length l1 = j.
Proof.
  intros Hnd Hj ->. symmetry.
  apply (NoDup_lookup _ j (length l1) d Hnd Hj). by apply list_lookup_middle.
Qed.

Lemma lookup_removed_lt (l1 l2 : list nat) (d : nat) (i : nat) :
  (i < length l1)%nat -> (l1 ++ l2) !! i = (l1 ++ d :: l2) !! i.
Proof. intros Hi. by rewrite !lookup_app_l. Qed.

Lemma lookup_removed_ge (l1 l2 : list nat) (d : nat) (i : nat) :
  (length l1 <= i)%nat -> (l1 ++ l2) !! i = (l1 ++ d :: l2) !! S i.
Proof.
  intros Hi. rewrite !lookup_app_r by lia.
  by replace (S i - length l1)%nat with (S (i - length l1)) by lia.
Qed.

Section Pass.

Variable w : World.

Lemma for_devices_pass fuel : forall j s,
  NoDup (devices s) ->
  match for_devices w fuel j s with
  | Ok _ s' | Raise _ s' => pass_post j s s'
  | OutOfFuel => True
  end.
Proof.
  induction fuel as [|fuel IH]; intros j s Hnd; [done|].
  cbn [for_devices]. rewrite bind_get.
  destruct (devices s !! j) as [d|] eqn:Hj.
  2:{ simpl. split.
      - intros i x _ Hx. by eapply list_elem_of_lookup_2.
      - exists []. by rewrite app_nil_r. }
  pose proof (serving_serve_device w d fuel s) as Hsrv.
  unfold bind at 1.
  destruct (serve_device w fuel d s) as [[] s1|e s1|]; [| |done].
  - pose proof (serving_NoDup d s s1 Hsrv Hnd) as Hnd1.
    specialize (IH (S j) s1 Hnd1).
    destruct Hsrv as (Hl & tr1 & Ht1 & Hto1). specialize (Hl Hnd).
    assert (Hgo : forall s', pass_post (S j) s1 s' -> pass_post j s s').
    { intros s' (Hkeep & tr2 & Ht2 & Hto2). split.
      - intros i x Hi Hx. apply (Hkeep i x); [lia|].
        destruct Hl as [->|(l1 & l2 & E & ->)]; [done|].
        pose proof (removed_index _ l1 l2 j d Hnd Hj E) as Hlen.
        rewrite (lookup_removed_lt l1 l2 d) by lia. by rewrite <- E.
      - exists (tr1 ++ tr2). rewrite Ht2, Ht1, <- app_assoc. split; [done|].
        rewrite transport_ops_app. apply Forall_app. split.
        + eapply Forall_impl; [exact Hto1|]. intros e He. by exists j, d.
        + eapply Forall_impl; [exact Hto2|]. intros e (i & x & Hi & Hx & He).
          destruct Hl as [E|(l1 & l2 & E & E')].
          * exists i, x. split_and!; [lia| |done]. by rewrite <- E.
          * pose proof (removed_index _ l1 l2 j d Hnd Hj E) as Hlen.
            exists (S i), x. split_and!; [lia| |done].
            rewrite E, <- (lookup_removed_ge l1 l2 d) by lia. by rewrite <- E'. }
    destruct (for_devices w fuel (S j) s1); try done; by apply Hgo.
  - destruct Hsrv as (Hl & tr1 & Ht1 & Hto1). specialize (Hl Hnd). split.
    + intros i x Hi Hx.
      destruct Hl as [->|(l1 & l2 & E & ->)]; [by eapply list_elem_of_lookup_2|].
      pose proof (removed_index _ l1 l2 j d Hnd Hj E) as Hlen.
      apply (list_elem_of_lookup_2 _ i).
      rewrite (lookup_removed_lt l1 l2 d) by lia. by rewrite <- E.
    + exists tr1. split; [done|].
      eapply Forall_impl; [exact Hto1|]. intros e' He. by exists j, d.
Qed.

End Pass.

(** X21.  Removing a device inside the pass hides the next one.  When
    the device at index [i] of a list without duplicates is removed while
    it is served, the pass goes on at index [i + 1] of the shortened
    list: the device that stood right after the removed one is still in
    the list when the pass ends, and no transfer of the rest of the pass
    is with it. *)
Theorem removed_device_hides_next (w : World) (fuel : nat) (i : nat) (s s1 : TLX00)
    (d1 d2 : nat) :
  NoDup (devices s) ->
  devices s !! i = Some d1 -> devices s !! S i = Some d2 ->
  serve_device w fuel d1 s = Ok tt s1 -> d1 ∉ devices s1 ->
  for_devices w (S fuel) i s = for_devices w fuel (S i) s1 /\
  devices s1 !! i = Some d2 /\
  forall s', for_devices w fuel (S i) s1 = Ok tt s' ->
    d2 ∈ devices s' /\
    exists tr, trace s' = trace s1 ++ tr /\
      Forall (fun e => ~ on_device d2 e) (transport_ops tr).
Proof.
  intros Hnd Hi HSi Hsrv Hgone.
  pose proof (serving_serve_device w d1 fuel s) as Hs. rewrite Hsrv in Hs.
  pose proof (serving_NoDup d1 s s1 Hs Hnd) as Hnd1.
  destruct Hs as (Hl & _). specialize (Hl Hnd).
  assert (Hd2 : devices s1 !! i = Some d2).
  { destruct Hl as [E|(l1 & l2 & E & E')].
    - exfalso. apply Hgone. rewrite E. by eapply list_elem_of_lookup_2.
    - pose proof (removed_index _ l1 l2 i d1 Hnd Hi E) as Hlen.
      rewrite E', (lookup_removed_ge l1 l2 d1) by lia. by rewrite <- E. }
  split_and!; [|exact Hd2|].
  - cbn [for_devices]. rewrite bind_get, Hi. by rewrite (bind_ok _ _ _ _ _ Hsrv).
  - intros s' Hrun. pose proof (for_devices_pass w fuel (S i) s1 Hnd1) as Hpass.
    rewrite Hrun in Hpass. destruct Hpass as (Hkeep & tr & Ht & Hto). split.
    + apply (Hkeep i d2); [lia|done].
    + exists tr. split; [done|].
      eapply Forall_impl; [exact Hto|]. intros e (k & x & Hk & Hx & He) He2.
      assert (x = d2) as ->.
      { destruct e; simpl in He, He2; try done; congruence. }
      pose proof (NoDup_lookup _ _ _ _ Hnd1 Hx Hd2). lia.
Qed.

Lemma removed_device_hides_next_witness :
  exists s1,
    serve_device (dead_device no_data) 5 1
      (logger [(1%nat, 10); (2%nat, 0)] [1%nat] true ∅) = Ok tt s1 /\
    for_devices (dead_device no_data) 6 0
      (logger [(1%nat, 10); (2%nat, 0)] [1%nat] true ∅)
      = for_devices (dead_device no_data) 5 1 s1 /\
    devices s1 !! 0%nat = Some 2%nat /\
    forall s', for_devices (dead_device no_data) 5 1 s1 = Ok tt s' ->
      2%nat ∈ devices s' /\
      exists tr, trace s' = trace s1 ++ tr /\
        Forall (fun e => ~ on_device 2 e) (transport_ops tr).
Proof.
  assert (Hrun : exists s1,
            serve_device (dead_device no_data) 5 1
              (logger [(1%nat, 10); (2%nat, 0)] [1%nat] true ∅) = Ok tt s1 /\
            1%nat ∉ devices s1).
  { eexists. split; [vm_compute; reflexivity|].
    simpl. intros H. by apply list_elem_of_singleton in H. }
  destruct Hrun as (s1 & Hrun & Hgone). exists s1. split; [exact Hrun|].
  apply (removed_device_hides_next (dead_device no_data) 5 0
           (logger [(1%nat, 10); (2%nat, 0)] [1%nat] true ∅) s1 1 2).
  - apply NoDup_cons. split; [|apply NoDup_singleton].
    intros H. by apply list_elem_of_singleton in H.
  - reflexivity.
  - reflexivity.
  - exact Hrun.
  - exact Hgone.
Defined.

(** ** The outer loop and the listener list *)





Section Cycle.

Variable w : World.








End Cycle.




(** The pass of the example, on the wire: both devices are polled after
    the listener has left during the pause of the first poll. *)
Example loop_finishes_the_pass :
  exists s',
    loop (listener_leaves no_data) 4 (logger [(1%nat, 0); (2%nat, 0)] [1%nat] true ∅)
      = Ok tt s' /\
    transport_ops (trace s') =
      [EvWrite 1 (3 :: replicate 63 0); EvRead 1;
       EvWrite 2 (3 :: replicate 63 0); EvRead 2].
Proof. eexists. split; [vm_compute; reflexivity|]. by vm_compute. Qed.

